(** * Workshop notebooks: AutoPilot polling, artifact lookup, endpoint
      invocation, dataset loading and prediction thresholding.

    A shallow embedding of the Python code cells of
    [02_automl/02_Train_Reviews_AutoPilot.ipynb] and
    [06_train/02_Train_Reviews_XGBoost_BuiltIn.ipynb].

    Python [str] values are sequences of Unicode code points, [bytes] are
    sequences of octets, a [dict] is an insertion-ordered association list,
    and the remote service is a sequence of responses indexed by the number
    of calls made so far. *)

From Stdlib Require Import List String Ascii ZArith NArith Bool Lia Arith.
From Stdlib Require Import Floats.SpecFloat.
Import ListNotations.

Set Implicit Arguments.

(* ================================================================== *)
(** ** Python strings *)

Module PyStr.

(** A Python [str]: its code points. *)
Definition pystr := list N.

(** A source literal (ASCII in both notebooks). *)
Definition str (s : string) : pystr :=
  List.map N_of_ascii (list_ascii_of_string s).

Fixpoint eqb (s t : pystr) : bool :=
  match s, t with
  | [], [] => true
  | a :: s', b :: t' => N.eqb a b && eqb s' t'
  | _, _ => false
  end.

Fixpoint startswith (s p : pystr) : bool :=
  match p, s with
  | [], _ => true
  | _ :: _, [] => false
  | a :: p', b :: s' => N.eqb a b && startswith s' p'
  end.

(** [contains s p] is Python's [p in s] on two strings: [p] occurs in [s]
    as a contiguous run. *)
Fixpoint contains (s p : pystr) : bool :=
  startswith s p ||
  match s with
  | [] => false
  | _ :: s' => contains s' p
  end.

(** [c in chars], on a single code point. *)
Definition mem (c : N) (chars : pystr) : bool := existsb (N.eqb c) chars.

(** Drop the longest prefix whose code points satisfy [f]. *)
Fixpoint lstrip_with (f : N -> bool) (s : pystr) : pystr :=
  match s with
  | [] => []
  | c :: s' => if f c then lstrip_with f s' else s
  end.

(** Drop the longest suffix whose code points satisfy [f]. *)
Definition rstrip_with (f : N -> bool) (s : pystr) : pystr :=
  rev (lstrip_with f (rev s)).

(** [s.rstrip(chars)]: [chars] is a set of code points, not a suffix. *)
Definition rstrip_chars (s chars : pystr) : pystr :=
  rstrip_with (fun c => mem c chars) s.

(** [str.isspace] on one code point (CPython's [_PyUnicode_IsWhitespace]). *)
Definition isspace (c : N) : bool :=
  (((9 <=? c) && (c <=? 13)) || ((28 <=? c) && (c <=? 32)) ||
   (c =? 133) || (c =? 160) || (c =? 5760) ||
   ((8192 <=? c) && (c <=? 8202)) || (c =? 8232) || (c =? 8233) ||
   (c =? 8239) || (c =? 8287) || (c =? 12288))%N.

(** [s.rstrip()] and [s.strip()] with no argument. *)
Definition rstrip (s : pystr) : pystr := rstrip_with isspace s.
Definition strip (s : pystr) : pystr := rstrip_with isspace (lstrip_with isspace s).


(** [str.lower] on the ASCII letters (enough for the status literals). *)
Definition lower_cp (c : N) : N :=
  if ((65 <=? c) && (c <=? 90))%N then (c + 32)%N else c.

Definition lower (s : pystr) : pystr := List.map lower_cp s.

End PyStr.

Import PyStr.

(* ================================================================== *)
(** ** Bytes and UTF-8 *)

Module Utf8.

Definition bytes := list Byte.byte.

Local Open Scope N_scope.

Definition between (lo hi b : N) : bool := (lo <=? b) && (b <=? hi).

(** A continuation octet, [10xxxxxx]. *)
Definition continuation (b : N) : bool := between 128 191 b.

Definition payload6 (b : N) : N := N.land b 63.

(** The range allowed for the second octet of a three-octet sequence: no
    overlong forms after [E0], no surrogates after [ED]. *)
Definition second_of_3 (b0 b1 : N) : bool :=
  if b0 =? 224 then between 160 191 b1
  else if b0 =? 237 then between 128 159 b1
  else continuation b1.

(** The range allowed for the second octet of a four-octet sequence: no
    overlong forms after [F0], nothing above U+10FFFF after [F4]. *)
Definition second_of_4 (b0 b1 : N) : bool :=
  if b0 =? 240 then between 144 191 b1
  else if b0 =? 244 then between 128 143 b1
  else continuation b1.

(** What a strict decoder does with the rest of the input once one code
    point is read. *)
Inductive decoded := Good (s : pystr) | Bad.

Definition push (c : N) (r : decoded) : decoded :=
  match r with
  | Good s => Good (c :: s)
  | Bad => Bad
  end.

(** Strict UTF-8 decoding of a sequence of octets. *)
Fixpoint decode_octets (bs : list N) : decoded :=
  match bs with
  | [] => Good []
  | b0 :: r0 =>
      if b0 <? 128 then push b0 (decode_octets r0)
      else if between 194 223 b0 then
        match r0 with
        | b1 :: r1 =>
            if continuation b1
            then push (N.lor (N.shiftl (N.land b0 31) 6) (payload6 b1))
                      (decode_octets r1)
            else Bad
        | _ => Bad
        end
      else if between 224 239 b0 then
        match r0 with
        | b1 :: b2 :: r2 =>
            if second_of_3 b0 b1 && continuation b2
            then push (N.lor (N.shiftl (N.land b0 15) 12)
                         (N.lor (N.shiftl (payload6 b1) 6) (payload6 b2)))
                      (decode_octets r2)
            else Bad
        | _ => Bad
        end
      else if between 240 244 b0 then
        match r0 with
        | b1 :: b2 :: b3 :: r3 =>
            if second_of_4 b0 b1 && continuation b2 && continuation b3
            then push (N.lor (N.shiftl (N.land b0 7) 18)
                         (N.lor (N.shiftl (payload6 b1) 12)
                            (N.lor (N.shiftl (payload6 b2) 6) (payload6 b3))))
                      (decode_octets r3)
            else Bad
        | _ => Bad
        end
      else Bad
  end.

Definition octet (n : N) : Byte.byte :=
  match Byte.of_N n with
  | Some b => b
  | None => Byte.x00
  end.

(** The octets of one code point; [None] for a surrogate or a number that
    is no code point. *)
Definition encode_cp (c : N) : option (list N) :=
  if c <? 128 then Some [c]
  else if c <? 2048 then
    Some [N.lor 192 (N.shiftr c 6); N.lor 128 (payload6 c)]
  else if c <? 65536 then
    if between 55296 57343 c then None
    else Some [N.lor 224 (N.shiftr c 12);
               N.lor 128 (payload6 (N.shiftr c 6));
               N.lor 128 (payload6 c)]
  else if c <? 1114112 then
    Some [N.lor 240 (N.shiftr c 18);
          N.lor 128 (payload6 (N.shiftr c 12));
          N.lor 128 (payload6 (N.shiftr c 6));
          N.lor 128 (payload6 c)]
  else None.

Fixpoint encode_octets (s : pystr) : option (list N) :=
  match s with
  | [] => Some []
  | c :: s' =>
      match encode_cp c, encode_octets s' with
      | Some o, Some os => Some (o ++ os)
      | _, _ => None
      end
  end.

End Utf8.

(* ================================================================== *)
(** ** Python values, dictionaries and exceptions *)

(** The values found in a decoded service response. *)
#[warnings="-register-all"]
Inductive pyval :=
| VNone
| VBool (b : bool)
| VInt (z : Z)
| VStr (s : pystr)
| VList (l : list pyval)
| VDict (d : list (pystr * pyval)).

(** A [dict] with string keys, in insertion order. *)
Definition dict := list (pystr * pyval).

Inductive pyexn :=
| KeyError (key : pyval)
| TypeError
| AttributeError
| IndexError
| ValueError
| UnicodeDecodeError
| UnicodeEncodeError
| ClientError (message : pystr).

(** The result of running a piece of Python: a value, a raised exception,
    or a loop still running when the iteration budget is spent. *)
Inductive outcome (A : Type) :=
| Done (a : A)
| Raised (e : pyexn)
| Running.

Arguments Done {A} a.
Arguments Raised {A} e.
Arguments Running {A}.

Fixpoint lookup (k : pystr) (d : dict) : option pyval :=
  match d with
  | [] => None
  | (k', v) :: d' => if PyStr.eqb k k' then Some v else lookup k d'
  end.

(** [d[k]] on a dict. *)
Definition dict_getitem (d : dict) (k : pystr) : outcome pyval :=
  match lookup k d with
  | Some v => Done v
  | None => Raised (KeyError (VStr k))
  end.

(** [v[k]] with a string subscript on an arbitrary value: only a dict
    accepts it. *)
Definition getitem (v : pyval) (k : pystr) : outcome pyval :=
  match v with
  | VDict d => dict_getitem d k
  | _ => Raised TypeError
  end.

(** [v == s] against a string literal. *)
Definition eq_str (v : pyval) (s : pystr) : bool :=
  match v with
  | VStr t => PyStr.eqb t s
  | _ => false
  end.

(** [v in (s1, ..., sn)]: membership in a tuple of string literals. *)
Definition in_tuple (v : pyval) (t : list pystr) : bool :=
  existsb (eq_str v) t.

(** [v in (s)], which Python reads as [v in s]: a parenthesised string is
    a string, so this is the substring test, and it raises [TypeError] when
    the left operand is not a string. *)
Definition in_str (v : pyval) (s : pystr) : outcome bool :=
  match v with
  | VStr t => Done (PyStr.contains s t)
  | _ => Raised TypeError
  end.

(** Sequencing of pure steps that may raise. *)
Definition and_then {A B} (o : outcome A) (k : A -> outcome B) : outcome B :=
  match o with
  | Done a => k a
  | Raised e => Raised e
  | Running => Running
  end.

Notation "x <~ o ;; k" := (and_then o (fun x => k))
  (at level 61, o at next level, right associativity).

(** [b.decode('utf-8')] *)
Definition utf8_decode (b : Utf8.bytes) : outcome pystr :=
  match Utf8.decode_octets (List.map Byte.to_N b) with
  | Utf8.Good s => Done s
  | Utf8.Bad => Raised UnicodeDecodeError
  end.

(** [s.encode('utf-8')] *)
Definition utf8_encode (s : pystr) : outcome Utf8.bytes :=
  match Utf8.encode_octets s with
  | Some os => Done (List.map Utf8.octet os)
  | None => Raised UnicodeEncodeError
  end.

(** [v.rstrip(chars)] on an arbitrary value: only a string has the method. *)
Definition rstrip_method (v : pyval) (chars : pystr) : outcome pystr :=
  match v with
  | VStr s => Done (PyStr.rstrip_chars s chars)
  | _ => Raised AttributeError
  end.

(* ================================================================== *)
(** ** Effects of a code cell *)

(** The keyword arguments of [sm_runtime.invoke_endpoint]. *)
Inductive body := BodyStr (s : pystr) | BodyBytes (b : Utf8.bytes).

Record invoke_request := {
  EndpointName : pystr;
  ContentType : option pystr;
  Accept : option pystr;
  Body : body
}.

(** What a cell does to the outside world. *)
Inductive event :=
| EvDescribe (job_name : pystr)      (* sm.describe_auto_ml_job(AutoMLJobName=..) *)
| EvInvoke (request : invoke_request) (* sm_runtime.invoke_endpoint(..) *)
| EvPrint (args : list pyval)        (* print(..) *)
| EvSleep (secs : Z).                (* sleep(..) / time.sleep(..) *)

(** The world a cell runs in: how many describe calls were answered so
    far, and everything the cell did, oldest first. *)
Record world := { calls : nat; trace : list event }.

Definition M (A : Type) := world -> outcome A * world.

Definition ret {A} (a : A) : M A := fun w => (Done a, w).

Definition bind {A B} (m : M A) (k : A -> M B) : M B :=
  fun w =>
    match m w with
    | (Done a, w') => k a w'
    | (Raised e, w') => (Raised e, w')
    | (Running, w') => (Running, w')
    end.

Declare Scope py_scope.
Delimit Scope py_scope with py.
Notation "x <- m ;; k" := (bind m (fun x => k))
  (at level 61, m at next level, right associativity) : py_scope.
Notation "m ;; k" := (bind m (fun _ => k))
  (at level 61, right associativity) : py_scope.
Local Open Scope py_scope.

(** Lift a pure computation that may raise. *)
Definition lift {A} (o : outcome A) : M A := fun w => (o, w).

Definition emit (e : event) : M unit :=
  fun w => (Done tt, {| calls := calls w; trace := trace w ++ [e] |}).

Definition print (args : list pyval) : M unit := emit (EvPrint args).
Definition sleep (secs : Z) : M unit := emit (EvSleep secs).

(** A [while] loop with a budget of [fuel] executions of its body:
    [Running] when the budget is spent and the condition is still true. *)
Fixpoint while {S} (fuel : nat) (cond : S -> M bool) (body : S -> M S) (s : S) : M S :=
  b <- cond s ;;
  if b then
    match fuel with
    | O => fun w => (Running, w)
    | Datatypes.S fuel' => s' <- body s ;; while fuel' cond body s'
    end
  else ret s.

(* ================================================================== *)
(** ** Tables: the part of pandas the notebooks use *)

Module Pandas.

(** A column label: an integer position or a header name. *)
Inductive label := LInt (i : Z) | LStr (s : pystr).

Definition label_eqb (a b : label) : bool :=
  match a, b with
  | LInt i, LInt j => Z.eqb i j
  | LStr s, LStr t => PyStr.eqb s t
  | _, _ => false
  end.

Definition label_value (l : label) : pyval :=
  match l with
  | LInt i => VInt i
  | LStr s => VStr s
  end.

(** The [header] argument of [read_csv]. *)
Inductive header_arg :=
| HeaderNone                  (* header=None *)
| HeaderRow (row : Z)         (* header=0, header=1, .. *)
| HeaderInfer.                (* header='infer' *)

(** [header == None] *)
Definition header_is_none (h : header_arg) : bool :=
  match h with
  | HeaderNone => true
  | _ => false
  end.

(** [list(range(0, n))] as column labels. *)
Definition range_labels (n : nat) : list label :=
  List.map (fun i => LInt (Z.of_nat i)) (seq 0 n).

Section Frames.

(** The content of one table cell. *)
Variable value : Type.

(** A table, column by column; every column holds one value per row, in
    row order. *)
Record DataFrame := {
  index : list Z;
  columns : list (label * list value)
}.

Record Series := {
  name : label;
  s_index : list Z;
  values : list value
}.

(** [len(df.columns)] *)
Definition width (df : DataFrame) : nat := List.length (columns df).

(** [df.columns], the labels alone. *)
Definition column_labels (df : DataFrame) : list label := List.map fst (columns df).

(** Row [i] of the table, left to right. *)
Definition row (i : nat) (df : DataFrame) : list (option value) :=
  List.map (fun c => nth_error (snd c) i) (columns df).

(** [df.iloc[:, 0]]: the first column by position. *)
Definition iloc_column0 (df : DataFrame) : outcome Series :=
  match columns df with
  | [] => Raised IndexError
  | (l, vs) :: _ => Done {| name := l; s_index := index df; values := vs |}
  end.

(** [df.columns[0]] *)
Definition columns_getitem0 (df : DataFrame) : outcome label :=
  match columns df with
  | [] => Raised IndexError
  | (l, _) :: _ => Done l
  end.

(** [df.drop(l, axis=1)]: a new table without the columns labelled [l];
    [KeyError] when no column carries the label. *)
Definition drop (df : DataFrame) (l : label) : outcome DataFrame :=
  if existsb (label_eqb l) (column_labels df)
  then Done {| index := index df;
               columns := filter (fun c => negb (label_eqb l (fst c))) (columns df) |}
  else Raised (KeyError (label_value l)).

(** [df.columns = names]: [ValueError] on a length mismatch. *)
Definition set_columns (df : DataFrame) (names : list label) : outcome DataFrame :=
  if Nat.eqb (List.length names) (width df)
  then Done {| index := index df;
               columns := combine names (List.map snd (columns df)) |}
  else Raised ValueError.

(** The statements of [load_dataset] after [data] is bound: the two
    notebooks share them word for word. *)
Definition split_label_column (data : DataFrame) (header : header_arg)
  : outcome (DataFrame * Series) :=
  labels <~ iloc_column0 data ;;
  c0 <~ columns_getitem0 data ;;
  features <~ drop data c0 ;;
  features' <~ (if header_is_none header
                then set_columns features (range_labels (width features))
                else Done features) ;;
  Done (features', labels).

(** [features] and [labels] are [data] split after its first column:
    [labels] is that column, [features] is the rest, column by column and
    row by row; when [header] is [None] the column at position [k] of
    [features] is labelled with the integer [k], for every position. *)
Definition splits_first_column (data : DataFrame) (header : header_arg)
    (features : DataFrame) (labels : Series) : Prop :=
  hd_error (columns data) = Some (name labels, values labels) /\
  s_index labels = index data /\
  index features = index data /\
  S (width features) = width data /\
  List.map snd (columns features) = tl (List.map snd (columns data)) /\
  (forall i, row i features = tl (row i data)) /\
  (header_is_none header = true ->
   forall k, k < width features ->
     nth_error (column_labels features) k = Some (LInt (Z.of_nat k))) /\
  (header_is_none header = false ->
   column_labels features = tl (column_labels data)).

(** What the parser promises of a table it returns: there is a column (a
    file without columns is an error of the parser), and no two columns
    carry the same label (the positions 0, 1, .. without a header row; the
    names of the header row otherwise, a repeated name [x] being renamed
    [x.1], [x.2], ..). *)
Definition parsed (df : DataFrame) : Prop :=
  columns df <> [] /\ NoDup (column_labels df).

(** [pd.read_csv] as a parser of that kind. *)
Definition parser (read_csv : pystr -> pystr -> header_arg -> outcome DataFrame) : Prop :=
  forall path sep header data, read_csv path sep header = Done data -> parsed data.

(** [pd.concat(frames, ignore_index=True)] keeps that promise: the columns
    of the result are the union of the columns of the frames. *)
Definition concatenation (concat : list DataFrame -> outcome DataFrame) : Prop :=
  forall frames data,
    Forall parsed frames -> concat frames = Done data -> parsed data.

End Frames.

End Pandas.

(* ================================================================== *)
(** ** The AutoPilot notebook: tracking the progress of the job *)

Module AutoPilot.

(** The service as the notebook sees it: the answer to the [n]-th
    [describe_auto_ml_job] call, a response dict or a raised error. *)
Definition service := nat -> pyexn + dict.

(** The notebook variables the polling cells assign. *)
Record locals := {
  job : dict;
  job_status : pyval;
  job_sec_status : pyval
}.

(** The literals of the three cells. *)
Definition stopped_or_failed : list pystr := [str "Stopped"; str "Failed"].
Definition in_progress : pystr := str "InProgress".
Definition analyzing_data : pystr := str "AnalyzingData".
Definition feature_engineering : pystr := str "FeatureEngineering".
Definition model_tuning : pystr := str "ModelTuning".

Section Polling.

Variable sm : service.
Variable auto_ml_job_name : pystr.

Definition describe_auto_ml_job : M dict :=
  fun w =>
    let w' := {| calls := S (calls w);
                 trace := trace w ++ [EvDescribe auto_ml_job_name] |} in
    match sm (calls w) with
    | inr d => (Done d, w')
    | inl e => (Raised e, w')
    end.

(** [job = sm.describe_auto_ml_job(..); job_status = job['AutoMLJobStatus'];
     job_sec_status = job['AutoMLJobSecondaryStatus']] *)
Definition query : M locals :=
  j <- describe_auto_ml_job ;;
  st <- lift (dict_getitem j (str "AutoMLJobStatus")) ;;
  sec <- lift (dict_getitem j (str "AutoMLJobSecondaryStatus")) ;;
  ret {| job := j; job_status := st; job_sec_status := sec |}.

(** [job_status in ('InProgress') and job_sec_status in (target)]; the
    right operand is evaluated only when the left one is true. *)
Definition loop_test (target : pystr) (l : locals) : outcome bool :=
  a <~ in_str (job_status l) in_progress ;;
  if a then in_str (job_sec_status l) target else Done false.

Definition poll_cond (target : pystr) (l : locals) : M bool :=
  lift (loop_test target l).

(** The loop body: query, print the two statuses, sleep 30 seconds. *)
Definition poll_body (_ : locals) : M locals :=
  l <- query ;;
  print [job_status l; job_sec_status l] ;;
  sleep 30 ;;
  ret l.

Definition poll_loop (fuel : nat) (target : pystr) : locals -> M locals :=
  while fuel (poll_cond target) poll_body.

(** [if job_status not in ('Stopped', 'Failed'): while ..: ..; print(message)]
    followed by [print(job)]. *)
Definition guarded_poll (fuel : nat) (target message : pystr) (l : locals) : M locals :=
  l' <- (if negb (in_tuple (job_status l) stopped_or_failed) then
           l1 <- poll_loop fuel target l ;;
           print [VStr message] ;;
           ret l1
         else ret l) ;;
  print [VDict (job l')] ;;
  ret l'.

(** The "Analyzing Data" cell. *)
Definition analyzing_data_cell (fuel : nat) : M locals :=
  sleep 3 ;;
  l <- query ;;
  guarded_poll fuel analyzing_data (str "Data analysis complete") l.

(** The "Feature Engineering" cell. *)
Definition feature_engineering_cell (fuel : nat) : M locals :=
  l <- query ;;
  print [job_status l] ;;
  print [job_sec_status l] ;;
  guarded_poll fuel feature_engineering (str "Feature engineering complete") l.

(** The "Model Training and Tuning" cell. *)
Definition model_tuning_cell (fuel : nat) : M locals :=
  l <- query ;;
  print [job_status l] ;;
  print [job_sec_status l] ;;
  guarded_poll fuel model_tuning (str "Model tuning complete") l.

(** What the [n]-th describe call lets the cell assign, when it answers
    with a response that has both status keys. *)
Definition observed (n : nat) : option locals :=
  match sm n with
  | inr d =>
      match lookup (str "AutoMLJobStatus") d,
            lookup (str "AutoMLJobSecondaryStatus") d with
      | Some st, Some sec =>
          Some {| job := d; job_status := st; job_sec_status := sec |}
      | _, _ => None
      end
  | inl _ => None
  end.

(** The events of one loop iteration that assigns [l]. *)
Definition iteration_events (l : locals) : list event :=
  [EvDescribe auto_ml_job_name;
   EvPrint [job_status l; job_sec_status l];
   EvSleep 30].

(** [polls target c l ls lf]: entered with variables [l] when [c] describe
    calls were answered, the loop runs [length ls] iterations, which assign
    [ls] in turn, and exits with variables [lf]. *)
Inductive polls (target : pystr) : nat -> locals -> list locals -> locals -> Prop :=
| polls_exit c l :
    loop_test target l = Done false ->
    polls target c l [] l
| polls_step c l l' ls lf :
    loop_test target l = Done true ->
    observed c = Some l' ->
    polls target (S c) l' ls lf ->
    polls target c l (l' :: ls) lf.

End Polling.

(** The three polling cells, by phase. *)
Inductive phase := AnalyzingData | FeatureEngineering | ModelTuning.

Definition target_of (p : phase) : pystr :=
  match p with
  | AnalyzingData => analyzing_data
  | FeatureEngineering => feature_engineering
  | ModelTuning => model_tuning
  end.

Definition message_of (p : phase) : pystr :=
  match p with
  | AnalyzingData => str "Data analysis complete"
  | FeatureEngineering => str "Feature engineering complete"
  | ModelTuning => str "Model tuning complete"
  end.

Definition polling_cell (p : phase) (sm : service) (name : pystr) (fuel : nat) : M locals :=
  match p with
  | AnalyzingData => analyzing_data_cell sm name fuel
  | FeatureEngineering => feature_engineering_cell sm name fuel
  | ModelTuning => model_tuning_cell sm name fuel
  end.

Definition start : world := {| calls := 0; trace := [] |}.

(** What a cell does before its [if]: the describe call, and around it a
    3 second sleep in the first cell, the two status prints in the others. *)
Definition preamble (p : phase) (name : pystr) (l : locals) : list event :=
  match p with
  | AnalyzingData => [EvSleep 3; EvDescribe name]
  | _ => [EvDescribe name; EvPrint [job_status l]; EvPrint [job_sec_status l]]
  end.

(** The [print] events among the events of a cell. *)
Definition prints (evs : list event) : list event :=
  filter (fun e => match e with EvPrint _ => true | _ => false end) evs.

(** The number of describe calls among the events of a cell. *)
Definition describes (evs : list event) : nat :=
  List.length (filter (fun e => match e with EvDescribe _ => true | _ => false end) evs).

(** The string literals a polling cell compares the two statuses with: the
    tuple of its [if], and the two right operands of its [while]. *)
Definition compared_literals (p : phase) : list pystr :=
  stopped_or_failed ++ [in_progress; target_of p].

Definition all_compared_literals : list pystr :=
  flat_map compared_literals [AnalyzingData; FeatureEngineering; ModelTuning].

(** *** Copying the generated notebooks *)

(** [generated_resources = job['AutoMLJobArtifacts']['DataExplorationNotebookLocation']
      .rstrip('notebooks/SageMakerAutopilotDataExplorationNotebook.ipynb')] *)
Definition generated_resources_cell (job : dict) : outcome pystr :=
  artifacts <~ dict_getitem job (str "AutoMLJobArtifacts") ;;
  location <~ getitem artifacts (str "DataExplorationNotebookLocation") ;;
  rstrip_method location
    (str "notebooks/SageMakerAutopilotDataExplorationNotebook.ipynb").

(** *** Invoking the endpoint *)

(** The hosted endpoint as the notebook sees it: the octets that reading
    the response body yields, or a raised error. *)
Definition runtime := invoke_request -> pyexn + Utf8.bytes.

Section Invocation.

Variable sm_runtime : runtime.
Variable xgb_endpoint_name : pystr.

(** [sm_runtime.invoke_endpoint(..)['Body'].read()] *)
Definition invoke_endpoint_read (request : invoke_request) : M Utf8.bytes :=
  fun w =>
    let w' := {| calls := calls w; trace := trace w ++ [EvInvoke request] |} in
    match sm_runtime request with
    | inr b => (Done b, w')
    | inl e => (Raised e, w')
    end.

(** The two ad-hoc prediction cells: the review text is the body. *)
Definition predict_line_cell (csv_line : pystr) : M pystr :=
  raw <- invoke_endpoint_read
           {| EndpointName := xgb_endpoint_name;
              ContentType := Some (str "text/csv");
              Accept := Some (str "text/csv");
              Body := BodyStr csv_line |} ;;
  text <- lift (utf8_decode raw) ;;
  ret (PyStr.strip text).

Definition csv_line_predict_positive : pystr :=
  str "I loved it!  I will recommend this to everyone.".

Definition csv_line_predict_negative : pystr :=
  str "Really bad.  I hope they stop making this.".

Definition predict_positive_cell : M pystr := predict_line_cell csv_line_predict_positive.
Definition predict_negative_cell : M pystr := predict_line_cell csv_line_predict_negative.

(** The test-set cell; [csv] is [X_test.to_csv(index=False, header=False)]. *)
Definition predict_test_cell (csv : pystr) : M pystr :=
  let payload := PyStr.rstrip csv in
  encoded <- lift (utf8_encode payload) ;;
  raw <- invoke_endpoint_read
           {| EndpointName := xgb_endpoint_name;
              ContentType := Some (str "text/csv");
              Accept := None;
              Body := BodyBytes encoded |} ;;
  text <- lift (utf8_decode raw) ;;
  ret (PyStr.strip text).

End Invocation.

(** The cells of the notebook that invoke the endpoint. *)
Inductive invocation := PredictPositive | PredictNegative | PredictTest (csv : pystr).

Definition invocation_cell (i : invocation) (rt : runtime) (endpoint : pystr) : M pystr :=
  match i with
  | PredictPositive => predict_positive_cell rt endpoint
  | PredictNegative => predict_negative_cell rt endpoint
  | PredictTest csv => predict_test_cell rt endpoint csv
  end.

(** *** Loading the test data *)

Section LoadDataset.

Variable value : Type.

(** [pd.read_csv(path, sep=sep, header=header)] *)
Variable read_csv : pystr -> pystr -> Pandas.header_arg -> outcome (Pandas.DataFrame value).

Definition load_dataset (path sep : pystr) (header : Pandas.header_arg)
  : outcome (Pandas.DataFrame value * Pandas.Series value) :=
  data <~ read_csv path sep header ;;
  Pandas.split_label_column data header.

End LoadDataset.

End AutoPilot.

(* ================================================================== *)
(** ** The XGBoost notebook *)

Module Numpy.

(** An array: its shape and its elements in row-major order. *)
Record ndarray (A : Type) := { shape : list nat; data : list A }.

(** [a > x] with a scalar [x], elementwise; a comparison with NaN is false. *)
Definition greater (a : ndarray spec_float) (x : spec_float) : ndarray bool :=
  {| shape := shape a; data := List.map (fun v => SFltb x v) (data a) |}.

(** [np.where(cond, x, y)] with scalars [x] and [y]. *)
Definition where_ {A} (cond : ndarray bool) (x y : A) : ndarray A :=
  {| shape := shape cond;
     data := List.map (fun c : bool => if c then x else y) (data cond) |}.

(** [a[i]] on the flattened array. *)
Definition flat {A} (a : ndarray A) (i : nat) : option A := nth_error (data a) i.

End Numpy.

Module XGBoost.

(** The predictions are single-precision floats. *)
Definition prec : Z := 24.
Definition emax : Z := 128.

(** The literal [0.5], which is [2^23 * 2^-24]. *)
Definition half : spec_float := S754_finite false 8388608 (-24).

(** [above_half x]: the number [x] stands for is greater than 1/2. For a
    finite positive [m * 2^e] this is [2^(-e) < 2 * m]; when [e] is positive
    the power on the left is 0 in [Z] and the number is at least 2. *)
Definition above_half (x : spec_float) : Prop :=
  match x with
  | S754_infinity false => True
  | S754_finite false m e => (2 ^ (- e) < 2 * Z.pos m)%Z
  | _ => False
  end.

(** [preds_test_0_or_1 = np.where(preds_test > 0.5, 1, 0)] *)
Definition preds_test_0_or_1 (preds_test : Numpy.ndarray spec_float) : Numpy.ndarray Z :=
  Numpy.where_ (Numpy.greater preds_test half) 1%Z 0%Z.

Section LoadDataset.

Variable value : Type.

(** [pd.read_csv(f, sep=sep, header=header)] *)
Variable read_csv : pystr -> pystr -> Pandas.header_arg -> outcome (Pandas.DataFrame value).

(** [glob.glob(pattern)] *)
Variable glob : pystr -> list pystr.

(** [pd.concat(frames, ignore_index=True)] *)
Variable concat : list (Pandas.DataFrame value) -> outcome (Pandas.DataFrame value).

(** The list comprehension: the files are read in order, and the first
    failure ends it. *)
Fixpoint read_each (sep : pystr) (header : Pandas.header_arg) (files : list pystr)
  : outcome (list (Pandas.DataFrame value)) :=
  match files with
  | [] => Done []
  | f :: files' =>
      d <~ read_csv f sep header ;;
      ds <~ read_each sep header files' ;;
      Done (d :: ds)
  end.

Definition load_dataset (path sep : pystr) (header : Pandas.header_arg)
  : outcome (Pandas.DataFrame value * Pandas.Series value) :=
  frames <~ read_each sep header (glob (path ++ str "/*.csv")) ;;
  data <~ concat frames ;;
  Pandas.split_label_column data header.

End LoadDataset.

End XGBoost.

(* ================================================================== *)
(** ** The two notebooks: their statements, names and outward calls *)

Module Notebooks.

Local Open Scope string_scope.
Local Open Scope list_scope.

(** The calls a statement makes to something outside the notebook process
    or to a model. *)
Inductive call :=
| SessionSetup            (* sagemaker.Session(), boto3 sessions and clients *)
| StoreRestore            (* %store -r *)
| PipInstall              (* !pip install *)
| S3List                  (* !aws s3 ls *)
| S3Copy                  (* !aws s3 cp *)
| CreateAutoMlJob         (* sm.create_auto_ml_job *)
| DescribeAutoMlJob       (* sm.describe_auto_ml_job *)
| PollAutoMlJob           (* sm.describe_auto_ml_job in a while loop *)
| ListCandidates          (* sm.list_candidates_for_auto_ml_job *)
| ExperimentDataframe     (* ExperimentAnalytics(..).dataframe() *)
| CreateModel             (* sm.create_model *)
| CreateEndpointConfig    (* sm.create_endpoint_config *)
| CreateEndpoint          (* sm.create_endpoint *)
| WaitEndpointInService   (* sm.get_waiter('endpoint_in_service').wait *)
| DescribeEndpoint        (* sm.describe_endpoint *)
| InvokeEndpoint          (* sm_runtime.invoke_endpoint *)
| GetImageUri             (* get_image_uri *)
| EstimatorFit            (* xgb_estimator.fit *)
| TarExtractAll           (* tarfile.open(..).extractall *)
| ListDirectory           (* ls -al *)
| PickleLoad              (* pkl.load *)
| ReadCsv                 (* pd.read_csv, through load_dataset *)
| BoosterPredict.         (* xgb_estimator_restored.predict(DMatrix(X_test)) *)

Definition call_eqb (a b : call) : bool :=
  match a, b with
  | SessionSetup, SessionSetup | StoreRestore, StoreRestore
  | PipInstall, PipInstall | S3List, S3List | S3Copy, S3Copy
  | CreateAutoMlJob, CreateAutoMlJob | DescribeAutoMlJob, DescribeAutoMlJob
  | PollAutoMlJob, PollAutoMlJob | ListCandidates, ListCandidates
  | ExperimentDataframe, ExperimentDataframe | CreateModel, CreateModel
  | CreateEndpointConfig, CreateEndpointConfig | CreateEndpoint, CreateEndpoint
  | WaitEndpointInService, WaitEndpointInService
  | DescribeEndpoint, DescribeEndpoint | InvokeEndpoint, InvokeEndpoint
  | GetImageUri, GetImageUri | EstimatorFit, EstimatorFit
  | TarExtractAll, TarExtractAll | ListDirectory, ListDirectory
  | PickleLoad, PickleLoad | ReadCsv, ReadCsv
  | BoosterPredict, BoosterPredict => true
  | _, _ => false
  end.

(** A top-level statement of a code cell, as far as names and calls go:
    the global names it reads without having bound them itself (builtins
    left out; the names a function of the notebook reads are read by the
    statement that calls it), the names it binds, the names it restores
    with [%store -r], and the outward calls it has, in their order. Every
    statement of the two notebooks reads its names before its first call,
    except for [sleep] in the polling statements. *)
Record statement := {
  reads : list string;
  binds : list string;
  restores : list string;
  makes : list call
}.

(** A Python statement. *)
Definition py (reads binds : list string) (makes : list call) : statement :=
  {| reads := reads; binds := binds; restores := []; makes := makes |}.

(** A shell line, [!command]: IPython puts the value of [$name] in the
    command when the name is bound and leaves the text as it is otherwise,
    so that the line reads no name it could miss. *)
Definition shell (makes : list call) : statement :=
  {| reads := []; binds := []; restores := []; makes := makes |}.

(** [%store -r name] *)
Definition store_r (name : string) : statement :=
  {| reads := []; binds := []; restores := [name]; makes := [StoreRestore] |}.

(** A notebook: its code cells top to bottom, each with its statements. *)
Definition notebook := list (list statement).

(** 02_automl/02_Train_Reviews_AutoPilot.ipynb *)
Definition autopilot : notebook :=
  [ [ (* import boto3 *)
      py [] ["boto3"] [];
      (* import sagemaker *)
      py [] ["sagemaker"] [];
      (* import pandas as pd *)
      py [] ["pd"] [];
      (* sess = sagemaker.Session() *)
      py ["sagemaker"] ["sess"] [SessionSetup];
      (* bucket = sess.default_bucket() *)
      py ["sess"] ["bucket"] [SessionSetup];
      (* role = sagemaker.get_execution_role() *)
      py ["sagemaker"] ["role"] [SessionSetup];
      (* region = boto3.Session().region_name *)
      py ["boto3"] ["region"] [SessionSetup];
      (* sm = boto3.Session().client(service_name='sagemaker', regi *)
      py ["boto3"; "region"] ["sm"] [SessionSetup] ];
    [ (* %store -r train_s3_uri *)
      store_r "train_s3_uri";
      (* print(train_s3_uri) *)
      py ["train_s3_uri"] [] [] ];
    [ (* !aws s3 ls $train_s3_uri *)
      shell [S3List] ];
    [ (* prefix_model_output = 'models/autopilot' *)
      py [] ["prefix_model_output"] [];
      (* autopilot_model_output_s3_uri = 's3://{}/{}'.format(bucket *)
      py ["bucket"; "prefix_model_output"] ["autopilot_model_output_s3_uri"] [];
      (* print(autopilot_model_output_s3_uri) *)
      py ["autopilot_model_output_s3_uri"] [] [] ];
    [ (* max_candidates = 3 *)
      py [] ["max_candidates"] [];
      (* job_config = { *)
      py ["max_candidates"] ["job_config"] [];
      (* input_data_config = [{ *)
      py ["train_s3_uri"] ["input_data_config"] [];
      (* output_data_config = { *)
      py ["autopilot_model_output_s3_uri"] ["output_data_config"] [] ];
    [ (* from time import gmtime, strftime, sleep *)
      py [] ["gmtime"; "strftime"; "sleep"] [];
      (* timestamp_suffix = strftime('%d-%H-%M-%S', gmtime()) *)
      py ["strftime"; "gmtime"] ["timestamp_suffix"] [];
      (* auto_ml_job_name = 'automl-dm-' + timestamp_suffix *)
      py ["timestamp_suffix"] ["auto_ml_job_name"] [];
      (* print('AutoMLJobName: ' + auto_ml_job_name) *)
      py ["auto_ml_job_name"] [] [] ];
    [ (* sm.create_auto_ml_job(AutoMLJobName=auto_ml_job_name, *)
      py ["sm"; "auto_ml_job_name"; "input_data_config"; "output_data_config"; "job_config";
        "role"] [] [CreateAutoMlJob] ];
    [ (* import time *)
      py [] ["time"] [];
      (* time.sleep(3) *)
      py ["time"] [] [];
      (* job = sm.describe_auto_ml_job(AutoMLJobName=auto_ml_job_na *)
      py ["sm"; "auto_ml_job_name"] ["job"] [DescribeAutoMlJob];
      (* job_status = job['AutoMLJobStatus'] *)
      py ["job"] ["job_status"] [];
      (* job_sec_status = job['AutoMLJobSecondaryStatus'] *)
      py ["job"] ["job_sec_status"] [];
      (* if job_status not in ('Stopped', 'Failed'): *)
      py ["job_status"; "job_sec_status"; "sm"; "auto_ml_job_name"; "sleep"] ["job";
        "job_status"; "job_sec_status"] [PollAutoMlJob];
      (* print(job) *)
      py ["job"] [] [] ];
    [ (* job = sm.describe_auto_ml_job(AutoMLJobName=auto_ml_job_na *)
      py ["sm"; "auto_ml_job_name"] ["job"] [DescribeAutoMlJob];
      (* print(job) *)
      py ["job"] [] [] ];
    [ (* job = sm.describe_auto_ml_job(AutoMLJobName=auto_ml_job_na *)
      py ["sm"; "auto_ml_job_name"] ["job"] [DescribeAutoMlJob];
      (* job_status = job['AutoMLJobStatus'] *)
      py ["job"] ["job_status"] [];
      (* job_sec_status = job['AutoMLJobSecondaryStatus'] *)
      py ["job"] ["job_sec_status"] [];
      (* print(job_status) *)
      py ["job_status"] [] [];
      (* print(job_sec_status) *)
      py ["job_sec_status"] [] [];
      (* if job_status not in ('Stopped', 'Failed'): *)
      py ["job_status"; "job_sec_status"; "sm"; "auto_ml_job_name"; "sleep"] ["job";
        "job_status"; "job_sec_status"] [PollAutoMlJob];
      (* print(job) *)
      py ["job"] [] [] ];
    [ (* job = sm.describe_auto_ml_job(AutoMLJobName=auto_ml_job_na *)
      py ["sm"; "auto_ml_job_name"] ["job"] [DescribeAutoMlJob];
      (* job_status = job['AutoMLJobStatus'] *)
      py ["job"] ["job_status"] [];
      (* job_sec_status = job['AutoMLJobSecondaryStatus'] *)
      py ["job"] ["job_sec_status"] [];
      (* print(job_status) *)
      py ["job_status"] [] [];
      (* print(job_sec_status) *)
      py ["job_sec_status"] [] [];
      (* if job_status not in ('Stopped', 'Failed'): *)
      py ["job_status"; "job_sec_status"; "sm"; "auto_ml_job_name"; "sleep"] ["job";
        "job_status"; "job_sec_status"] [PollAutoMlJob];
      (* print(job) *)
      py ["job"] [] [] ];
    [ (* generated_resources = job['AutoMLJobArtifacts']['DataExplo *)
      py ["job"] ["generated_resources"] [];
      (* generated_resources *)
      py ["generated_resources"] [] [] ];
    [ (* !aws s3 cp --recursive $generated_resources . *)
      shell [S3Copy] ];
    [ (* candidates = sm.list_candidates_for_auto_ml_job(AutoMLJobN *)
      py ["sm"; "auto_ml_job_name"] ["candidates"] [ListCandidates];
      (* for index, candidate in enumerate(candidates): *)
      py ["candidates"] ["index"; "candidate"] [] ];
    [ (* from sagemaker.analytics import ExperimentAnalytics, Train *)
      py [] ["ExperimentAnalytics"; "TrainingJobAnalytics"] [];
      (* exp = ExperimentAnalytics( *)
      py ["ExperimentAnalytics"; "sess"; "auto_ml_job_name"] ["exp"] [];
      (* df = exp.dataframe() *)
      py ["exp"] ["df"] [ExperimentDataframe];
      (* df *)
      py ["df"] [] [] ];
    [ (* best_candidate = sm.describe_auto_ml_job(AutoMLJobName=aut *)
      py ["sm"; "auto_ml_job_name"] ["best_candidate"] [DescribeAutoMlJob];
      (* best_candidate_identifier = best_candidate['CandidateName' *)
      py ["best_candidate"] ["best_candidate_identifier"] [];
      (* print('Candidate name: ' + best_candidate_identifier) *)
      py ["best_candidate_identifier"] [] [];
      (* print('Metric name: ' + best_candidate['FinalAutoMLJobObje *)
      py ["best_candidate"] [] [];
      (* print('Metric value: ' + str(best_candidate['FinalAutoMLJo *)
      py ["best_candidate"] [] [] ];
    [ (* best_candidate *)
      py ["best_candidate"] [] [] ];
    [ (* for container in best_candidate['InferenceContainers']: *)
      py ["best_candidate"] ["container"] [] ];
    [ (* model_name = 'automl-dm-model-' + timestamp_suffix *)
      py ["timestamp_suffix"] ["model_name"] [];
      (* model_arn = sm.create_model(Containers=best_candidate['Inf *)
      py ["sm"; "best_candidate"; "model_name"; "role"] ["model_arn"] [CreateModel];
      (* print('Best candidate model ARN: ', model_arn['ModelArn']) *)
      py ["model_arn"] [] [] ];
    [ (* timestamp_suffix = strftime('%d-%H-%M-%S', gmtime()) *)
      py ["strftime"; "gmtime"] ["timestamp_suffix"] [];
      (* epc_name = 'automl-dm-epc-' + timestamp_suffix *)
      py ["timestamp_suffix"] ["epc_name"] [];
      (* xgb_endpoint_name = 'automl-dm-ep-' + timestamp_suffix *)
      py ["timestamp_suffix"] ["xgb_endpoint_name"] [];
      (* variant_name = 'automl-dm-variant-' + timestamp_suffix *)
      py ["timestamp_suffix"] ["variant_name"] [];
      (* print(xgb_endpoint_name) *)
      py ["xgb_endpoint_name"] [] [];
      (* print(variant_name) *)
      py ["variant_name"] [] [] ];
    [ (* ep_config = sm.create_endpoint_config(EndpointConfigName = *)
      py ["sm"; "epc_name"; "model_name"; "variant_name"] ["ep_config"] [CreateEndpointConfig]
        ];
    [ (* create_endpoint_response = sm.create_endpoint(EndpointName *)
      py ["sm"; "xgb_endpoint_name"; "epc_name"] ["create_endpoint_response"]
        [CreateEndpoint];
      (* print(create_endpoint_response['EndpointArn']) *)
      py ["create_endpoint_response"] [] [] ];
    [ (* sm.get_waiter('endpoint_in_service').wait(EndpointName=xgb *)
      py ["sm"; "xgb_endpoint_name"] [] [WaitEndpointInService] ];
    [ (* resp = sm.describe_endpoint(EndpointName=xgb_endpoint_name *)
      py ["sm"; "xgb_endpoint_name"] ["resp"] [DescribeEndpoint];
      (* status = resp['EndpointStatus'] *)
      py ["resp"] ["status"] [];
      (* print('Arn: ' + resp['EndpointArn']) *)
      py ["resp"] [] [];
      (* print('Status: ' + status) *)
      py ["status"] [] [] ];
    [ (* sm_runtime = boto3.client('sagemaker-runtime') *)
      py ["boto3"] ["sm_runtime"] [SessionSetup] ];
    [ (* csv_line_predict_positive = '''I loved it! I will recommen *)
      py [] ["csv_line_predict_positive"] [];
      (* response = sm_runtime.invoke_endpoint(EndpointName=xgb_end *)
      py ["sm_runtime"; "xgb_endpoint_name"; "csv_line_predict_positive"] ["response"]
        [InvokeEndpoint];
      (* response_body = response['Body'].read().decode('utf-8').st *)
      py ["response"] ["response_body"] [];
      (* response_body *)
      py ["response_body"] [] [] ];
    [ (* csv_line_predict_negative = '''Really bad. I hope they sto *)
      py [] ["csv_line_predict_negative"] [];
      (* response = sm_runtime.invoke_endpoint(EndpointName=xgb_end *)
      py ["sm_runtime"; "xgb_endpoint_name"; "csv_line_predict_negative"] ["response"]
        [InvokeEndpoint];
      (* response_body = response['Body'].read().decode('utf-8').st *)
      py ["response"] ["response_body"] [];
      (* response_body *)
      py ["response_body"] [] [] ];
    [ (* test_path = './data/test.csv' *)
      py [] ["test_path"] [] ];
    [ (* ls -al $test_path *)
      shell [ListDirectory] ];
    [ (* def load_dataset(path, sep, header): *)
      py [] ["load_dataset"] [] ];
    [ (* X_test, y_test = load_dataset(path=test_path, sep=',', hea *)
      py ["load_dataset"; "pd"; "test_path"] ["X_test"; "y_test"] [ReadCsv];
      (* X_test.shape *)
      py ["X_test"] [] [] ];
    [ (* X_test.head(5) *)
      py ["X_test"] [] [] ];
    [ (* y_test.shape *)
      py ["y_test"] [] [] ];
    [ (* y_test.head(5) *)
      py ["y_test"] [] [] ];
    [ (* payload = X_test.to_csv(index=False, header=False).rstrip( *)
      py ["X_test"] ["payload"] [];
      (* response = sm_runtime.invoke_endpoint(EndpointName=xgb_end *)
      py ["sm_runtime"; "xgb_endpoint_name"; "payload"] ["response"] [InvokeEndpoint];
      (* response *)
      py ["response"] [] [] ];
    [ (* import numpy as np *)
      py [] ["np"] [];
      (* preds_test = np.fromstring(response, sep='\n') *)
      py ["np"; "response"] ["preds_test"] [];
      (* preds_test.shape *)
      py ["preds_test"] [] [] ];
    [ (* preds_test *)
      py ["preds_test"] [] [] ];
    [ (* from sklearn.metrics import accuracy_score, precision_scor *)
      py [] ["accuracy_score"; "precision_score"; "classification_report"; "confusion_matrix"]
        [];
      (* print('Test Accuracy: ', accuracy_score(y_test, preds_test *)
      py ["accuracy_score"; "y_test"; "preds_test"] [] [];
      (* print('Test Precision: ', precision_score(y_test, preds_te *)
      py ["precision_score"; "y_test"; "preds_test"] [] [] ];
    [ (* import seaborn as sn *)
      py [] ["sn"] [];
      (* import pandas as pd *)
      py [] ["pd"] [];
      (* import matplotlib.pyplot as plt *)
      py [] ["plt"] [];
      (* df_cm_test = confusion_matrix(y_test, preds_test) *)
      py ["confusion_matrix"; "y_test"; "preds_test"] ["df_cm_test"] [];
      (* df_cm_test *)
      py ["df_cm_test"] [] [] ];
    [ (* import itertools *)
      py [] ["itertools"] [];
      (* import matplotlib.pyplot as plt *)
      py [] ["plt"] [];
      (* def plot_conf_mat(cm, classes, title, cmap = plt.cm.Greens *)
      py ["plt"] ["plot_conf_mat"] [];
      (* plt.figure() *)
      py ["plt"] [] [];
      (* fig, ax = plt.subplots(figsize=(6,4)) *)
      py ["plt"] ["fig"; "ax"] [];
      (* plot_conf_mat(df_cm_test, classes=['Not Positive Sentiment *)
      py ["plot_conf_mat"; "plt"; "np"; "itertools"; "df_cm_test"] [] [];
      (* plt.show() *)
      py ["plt"] [] [] ];
    [ (* from sklearn import metrics *)
      py [] ["metrics"] [];
      (* import matplotlib.pyplot as plt *)
      py [] ["plt"] [];
      (* auc = round(metrics.roc_auc_score(y_test, preds_test), 4) *)
      py ["metrics"; "y_test"; "preds_test"] ["auc"] [];
      (* print('AUC is ' + repr(auc)) *)
      py ["auc"] [] [];
      (* fpr, tpr, _ = metrics.roc_curve(y_test, preds_test) *)
      py ["metrics"; "y_test"; "preds_test"] ["fpr"; "tpr"; "_"] [];
      (* plt.title('ROC Curve') *)
      py ["plt"] [] [];
      (* plt.plot(fpr, tpr, 'b', *)
      py ["plt"; "fpr"; "tpr"; "auc"] [] [];
      (* plt.legend(loc='lower right') *)
      py ["plt"] [] [];
      (* plt.plot([0,1],[0,1],'r--') *)
      py ["plt"] [] [];
      (* plt.xlim([-0.1,1.1]) *)
      py ["plt"] [] [];
      (* plt.ylim([-0.1,1.1]) *)
      py ["plt"] [] [];
      (* plt.ylabel('True Positive Rate') *)
      py ["plt"] [] [];
      (* plt.xlabel('False Positive Rate') *)
      py ["plt"] [] [];
      (* plt.show() *)
      py ["plt"] [] [] ] ].

(** 06_train/02_Train_Reviews_XGBoost_BuiltIn.ipynb *)
Definition xgboost : notebook :=
  [ [ (* !pip install -q boto3 *)
      shell [PipInstall];
      (* !pip install -q xgboost==0.90 *)
      shell [PipInstall] ];
    [ (* import boto3 *)
      py [] ["boto3"] [];
      (* import sagemaker *)
      py [] ["sagemaker"] [];
      (* import pandas as pd *)
      py [] ["pd"] [];
      (* sess = sagemaker.Session() *)
      py ["sagemaker"] ["sess"] [SessionSetup];
      (* bucket = sess.default_bucket() *)
      py ["sess"] ["bucket"] [SessionSetup];
      (* role = sagemaker.get_execution_role() *)
      py ["sagemaker"] ["role"] [SessionSetup];
      (* region = boto3.Session().region_name *)
      py ["boto3"] ["region"] [SessionSetup];
      (* sm = boto3.Session().client(service_name='sagemaker', regi *)
      py ["boto3"; "region"] ["sm"] [SessionSetup] ];
    [ (* %store -r spark_processing_job_s3_output_prefix *)
      store_r "spark_processing_job_s3_output_prefix" ];
    [ (* print('Previous Spark Processing Job Name: {}'.format(spar *)
      py ["spark_processing_job_s3_output_prefix"] [] [] ];
    [ (* prefix_train = '{}/output/tfidf-labeled-split-balanced-noh *)
      py ["spark_processing_job_s3_output_prefix"] ["prefix_train"] [];
      (* prefix_validation = '{}/output/tfidf-labeled-split-balance *)
      py ["spark_processing_job_s3_output_prefix"] ["prefix_validation"] [];
      (* prefix_test = '{}/output/tfidf-labeled-split-balanced-nohe *)
      py ["spark_processing_job_s3_output_prefix"] ["prefix_test"] [];
      (* balanced_tfidf_without_header_train_path = './{}'.format(p *)
      py ["prefix_train"] ["balanced_tfidf_without_header_train_path"] [];
      (* balanced_tfidf_without_header_validation_path = './{}'.for *)
      py ["prefix_validation"] ["balanced_tfidf_without_header_validation_path"] [];
      (* balanced_tfidf_without_header_test_path = './{}'.format(pr *)
      py ["prefix_test"] ["balanced_tfidf_without_header_test_path"] [];
      (* s3_input_train_data = sagemaker.s3_input(s3_data=balanced_ *)
      py ["sagemaker"; "balanced_tfidf_without_header_train_s3_uri"] ["s3_input_train_data"]
        [];
      (* s3_input_validation_data = sagemaker.s3_input(s3_data=bala *)
      py ["sagemaker"; "balanced_tfidf_without_header_validation_s3_uri"]
        ["s3_input_validation_data"] [];
      (* s3_input_test_data = sagemaker.s3_input(s3_data=balanced_t *)
      py ["sagemaker"; "balanced_tfidf_without_header_test_s3_uri"] ["s3_input_test_data"] [];
      (* print(s3_input_train_data.config) *)
      py ["s3_input_train_data"] [] [];
      (* print(s3_input_validation_data.config) *)
      py ["s3_input_validation_data"] [] [];
      (* print(s3_input_test_data.config) *)
      py ["s3_input_test_data"] [] [] ];
    [ (* from sagemaker.amazon.amazon_estimator import get_image_ur *)
      py [] ["get_image_uri"] [];
      (* import json *)
      py [] ["json"] [];
      (* builtin_container_uri = get_image_uri(region_name=region, *)
      py ["get_image_uri"; "region"] ["builtin_container_uri"] [GetImageUri];
      (* print(builtin_container_uri) *)
      py ["builtin_container_uri"] [] [];
      (* model_output_path = 's3://{}/models/built-in/training-runs *)
      py ["bucket"] ["model_output_path"] [];
      (* print(model_output_path) *)
      py ["model_output_path"] [] [];
      (* xgb_estimator = sagemaker.estimator.Estimator(image_name=b *)
      py ["sagemaker"; "builtin_container_uri"; "role"; "model_output_path"; "sess"]
        ["xgb_estimator"] [];
      (* xgb_estimator.set_hyperparameters(objective='binary:logist *)
      py ["xgb_estimator"] [] [] ];
    [ (* xgb_estimator.fit({'train': s3_input_train_data, *)
      py ["xgb_estimator"; "s3_input_train_data"; "s3_input_validation_data"] []
        [EstimatorFit] ];
    [ (* training_job_name = xgb_estimator.latest_training_job.name *)
      py ["xgb_estimator"] ["training_job_name"] [];
      (* print('training_job_name: {}'.format(training_job_name)) *)
      py ["training_job_name"] [] [] ];
    [ (* !aws s3 cp $model_output_path/$training_job_name/output/mo *)
      shell [S3Copy] ];
    [ (* import tarfile *)
      py [] ["tarfile"] [];
      (* import pickle as pkl *)
      py [] ["pkl"] [];
      (* tar = tarfile.open('./models/built-in/model.tar.gz') *)
      py ["tarfile"] ["tar"] [];
      (* tar.extractall(path='./models/built-in/') *)
      py ["tar"] [] [TarExtractAll];
      (* tar.close() *)
      py ["tar"] [] [] ];
    [ (* !ls -al ./models/built-in/ *)
      shell [ListDirectory] ];
    [ (* import pickle as pkl *)
      py [] ["pkl"] [];
      (* import os *)
      py [] ["os"] [];
      (* model_dir = './models/built-in' *)
      py [] ["model_dir"] [];
      (* model_path = os.path.join(model_dir, 'xgboost-model') *)
      py ["os"; "model_dir"] ["model_path"] [];
      (* xgb_estimator_restored = pkl.load(open(model_path, 'rb')) *)
      py ["pkl"; "model_path"] ["xgb_estimator_restored"] [PickleLoad];
      (* type(xgb_estimator_restored) *)
      py ["xgb_estimator_restored"] [] [] ];
    [ (* import matplotlib.pyplot as plt *)
      py [] ["plt"] [];
      (* import xgboost *)
      py [] ["xgboost"] [];
      (* fig, ax = plt.subplots(figsize=(12,12)) *)
      py ["plt"] ["fig"; "ax"] [];
      (* xgboost.plot_importance(xgb_estimator_restored, *)
      py ["xgboost"; "xgb_estimator_restored"; "ax"] [] [];
      (* plt.title('Feature Importance') *)
      py ["plt"] [] [];
      (* plt.show() *)
      py ["plt"] [] [] ];
    [ (* !aws s3 ls --recursive $balanced_tfidf_without_header_test *)
      shell [S3List] ];
    [ (* !aws s3 cp --recursive $balanced_tfidf_without_header_test *)
      shell [S3Copy] ];
    [ (* import glob *)
      py [] ["glob"] [];
      (* import pandas as pd *)
      py [] ["pd"] [];
      (* def load_dataset(path, sep, header): *)
      py [] ["load_dataset"] [] ];
    [ (* X_test, y_test = load_dataset(path=balanced_tfidf_without_ *)
      py ["load_dataset"; "pd"; "glob"; "balanced_tfidf_without_header_test_path"] ["X_test";
        "y_test"] [ReadCsv];
      (* X_test.shape *)
      py ["X_test"] [] [] ];
    [ (* X_test.head(5) *)
      py ["X_test"] [] [] ];
    [ (* from xgboost import DMatrix *)
      py [] ["DMatrix"] [];
      (* X_test.columns = ['f{}'.format(i) for i in range(0, 300)] *)
      py ["X_test"] [] [];
      (* preds_test = xgb_estimator_restored.predict(DMatrix(X_test *)
      py ["xgb_estimator_restored"; "DMatrix"; "X_test"] ["preds_test"] [BoosterPredict];
      (* preds_test.shape *)
      py ["preds_test"] [] [] ];
    [ (* preds_test *)
      py ["preds_test"] [] [] ];
    [ (* import numpy as np *)
      py [] ["np"] [];
      (* preds_test_0_or_1 = np.where(preds_test > 0.5, 1, 0) *)
      py ["np"; "preds_test"] ["preds_test_0_or_1"] [];
      (* preds_test_0_or_1.shape *)
      py ["preds_test_0_or_1"] [] [] ];
    [ (* from sklearn.metrics import accuracy_score, precision_scor *)
      py [] ["accuracy_score"; "precision_score"; "classification_report"; "confusion_matrix"]
        [];
      (* print('Test Accuracy: ', accuracy_score(y_test, preds_test *)
      py ["accuracy_score"; "y_test"; "preds_test_0_or_1"] [] [];
      (* print('Test Precision: ', precision_score(y_test, preds_te *)
      py ["precision_score"; "y_test"; "preds_test_0_or_1"] [] [] ];
    [ (* print(classification_report(y_test, preds_test_0_or_1)) *)
      py ["classification_report"; "y_test"; "preds_test_0_or_1"] [] [] ];
    [ (* df_cm_test = confusion_matrix(y_test, preds_test_0_or_1) *)
      py ["confusion_matrix"; "y_test"; "preds_test_0_or_1"] ["df_cm_test"] [];
      (* df_cm_test *)
      py ["df_cm_test"] [] [] ];
    [ (* import itertools *)
      py [] ["itertools"] [];
      (* import numpy as np *)
      py [] ["np"] [];
      (* import matplotlib.pyplot as plt *)
      py [] ["plt"] [];
      (* def plot_conf_mat(cm, classes, title, cmap = plt.cm.Greens *)
      py ["plt"] ["plot_conf_mat"] [];
      (* plt.figure() *)
      py ["plt"] [] [];
      (* fig, ax = plt.subplots(figsize=(10,5)) *)
      py ["plt"] ["fig"; "ax"] [];
      (* plot_conf_mat(df_cm_test, classes=['Not Positive Sentiment *)
      py ["plot_conf_mat"; "plt"; "np"; "itertools"; "df_cm_test"] [] [];
      (* plt.show() *)
      py ["plt"] [] [] ];
    [ (* from sklearn import metrics *)
      py [] ["metrics"] [];
      (* import matplotlib.pyplot as plt *)
      py [] ["plt"] [];
      (* auc = round(metrics.roc_auc_score(y_test, preds_test_0_or_ *)
      py ["metrics"; "y_test"; "preds_test_0_or_1"] ["auc"] [];
      (* print('AUC is ' + repr(auc)) *)
      py ["auc"] [] [];
      (* fpr, tpr, _ = metrics.roc_curve(y_test, preds_test_0_or_1) *)
      py ["metrics"; "y_test"; "preds_test_0_or_1"] ["fpr"; "tpr"; "_"] [];
      (* plt.title('ROC Curve') *)
      py ["plt"] [] [];
      (* plt.plot(fpr, tpr, 'b', *)
      py ["plt"; "fpr"; "tpr"; "auc"] [] [];
      (* plt.legend(loc='lower right') *)
      py ["plt"] [] [];
      (* plt.plot([0,1],[0,1],'r--') *)
      py ["plt"] [] [];
      (* plt.xlim([-0.1,1.1]) *)
      py ["plt"] [] [];
      (* plt.ylim([-0.1,1.1]) *)
      py ["plt"] [] [];
      (* plt.ylabel('True Positive Rate') *)
      py ["plt"] [] [];
      (* plt.xlabel('False Positive Rate') *)
      py ["plt"] [] [];
      (* plt.show() *)
      py ["plt"] [] [] ] ].

Definition repository : list notebook := [autopilot; xgboost].

Definition statements (nb : notebook) : list statement := List.concat nb.

(** Every call the notebook has, in source order. *)
Definition sites (nb : notebook) : list call := flat_map makes (statements nb).

(** *** Running a notebook top to bottom *)

Definition bound (names : list string) (n : string) : bool :=
  existsb (String.eqb n) names.

(** How a run ends. *)
Inductive ending := Finished | NameError (name : string).

(** The statements run in order from the global names [names], with
    [store] what [%store] holds. A statement that reads a name not bound
    raises [NameError] for it, which ends the run; [%store -r] binds the
    name when it is stored, and only prints a message when it is not.
    [run] follows the names alone: every call is taken to return, and every
    branch and loop that holds a call to be entered. *)
Fixpoint run (store names : list string) (ss : list statement) : list call * ending :=
  match ss with
  | [] => ([], Finished)
  | s :: rest =>
      match find (fun n => negb (bound names n)) (reads s) with
      | Some n => ([], NameError n)
      | None =>
          let (cs, e) :=
            run store (filter (bound store) (restores s) ++ binds s ++ names) rest in
          (makes s ++ cs, e)
      end
  end.

(** Restart and run all: no global name is bound at the start. *)
Definition run_all (store : list string) (nb : notebook) : list call * ending :=
  run store [] (statements nb).

(** The calls of such a run. *)
Definition performed (store : list string) (nb : notebook) : list call :=
  fst (run_all store nb).

(** *** The overview of the specification *)

(** The five steps of the specification's overview. *)
Inductive step := Upload | Poll | Download | Deploy | Invoke.

Definition step_eqb (a b : step) : bool :=
  match a, b with
  | Upload, Upload | Poll, Poll | Download, Download
  | Deploy, Deploy | Invoke, Invoke => true
  | _, _ => false
  end.

(** The step a call belongs to, if any. *)
Definition step_of (c : call) : option step :=
  match c with
  | CreateAutoMlJob | EstimatorFit => Some Upload
  | PollAutoMlJob => Some Poll
  | S3Copy => Some Download
  | CreateModel | CreateEndpointConfig | CreateEndpoint
  | WaitEndpointInService => Some Deploy
  | InvokeEndpoint => Some Invoke
  | _ => None
  end.

Fixpoint steps_of (cs : list call) : list step :=
  match cs with
  | [] => []
  | c :: cs' =>
      match step_of c with
      | Some s => s :: steps_of cs'
      | None => steps_of cs'
      end
  end.

(** [subsequence eqb xs ys]: the elements of [xs] occur in [ys] in this
    order, not necessarily next to each other. *)
Fixpoint subsequence {A} (eqb : A -> A -> bool) (xs ys : list A) : bool :=
  match xs, ys with
  | [], _ => true
  | _ :: _, [] => false
  | x :: xs', y :: ys' =>
      if eqb x y then subsequence eqb xs' ys' else subsequence eqb xs ys'
  end.

Definition has_call (c : call) (cs : list call) : bool :=
  existsb (call_eqb c) cs.

(** Upload, poll, download, deploy, invoke, in this order. *)
Definition follows_overview (cs : list call) : bool :=
  subsequence step_eqb [Upload; Poll; Download; Deploy; Invoke] (steps_of cs).

(** The calls that yield predictions. *)
Definition predicts (c : call) : bool :=
  match c with
  | InvokeEndpoint | BoosterPredict => true
  | _ => false
  end.

Definition prediction_calls (cs : list call) : list call := filter predicts cs.

(** Every prediction among the calls comes from the endpoint, and there
    is at least one. *)
Definition predicts_through_endpoint (cs : list call) : bool :=
  negb (Nat.eqb (List.length (prediction_calls cs)) 0) &&
  forallb (call_eqb InvokeEndpoint) (prediction_calls cs).

End Notebooks.

(* ================================================================== *)
(** ** The status enum of the specification *)

Module StatusEnum.

(** The job status/sub-status enum as the specification's data model
    lists it. *)
Definition spec_status_enum : list pystr :=
  [str "queued"; str "analyzing"; str "feature-engineering"; str "tuning";
   str "failed"; str "stopped"; str "completed"].

(** Case and hyphens are ignored when a literal of the code is matched
    with a word of the enum. *)
Definition normalize (s : pystr) : pystr :=
  filter (fun c => negb (N.eqb c 45)) (PyStr.lower s).

(** [names literal word]: the enum word occurs in the literal, so that
    ['AnalyzingData'] names [analyzing] and ['ModelTuning'] names [tuning]. *)
Definition names (literal word : pystr) : bool :=
  PyStr.contains (normalize literal) (normalize word).

Definition in_spec_enum (literal : pystr) : bool :=
  existsb (names literal) spec_status_enum.

End StatusEnum.

(* ================================================================== *)
(** ** Sample services and responses *)

Module Samples.

Import AutoPilot.

Definition job_name : pystr := str "automl-dm-01-12-00-00".

(** A response with the two status fields set. *)
Definition description (status secondary : string) : dict :=
  [(str "AutoMLJobName", VStr job_name);
   (str "AutoMLJobStatus", VStr (str status));
   (str "AutoMLJobSecondaryStatus", VStr (str secondary))].

Definition seen (status secondary : string) : locals :=
  {| job := description status secondary;
     job_status := VStr (str status);
     job_sec_status := VStr (str secondary) |}.

(** The job fails while it is polled. *)
Definition failing_service : service := fun n =>
  match n with
  | 0 => inr (description "InProgress" "AnalyzingData")
  | _ => inr (description "Failed" "Failed")
  end.

(** The job has failed before the cell runs. *)
Definition failed_service : service := fun _ =>
  inr (description "Failed" "Failed").

(** A table of two rows: the label column, then two feature columns. *)
Definition small_table (labelled : bool) : Pandas.DataFrame Z :=
  {| Pandas.index := [0; 1]%Z;
     Pandas.columns :=
       if labelled
       then [(Pandas.LStr (str "is_positive_sentiment"), [1; 0]%Z);
             (Pandas.LStr (str "review_body"), [11; 12]%Z);
             (Pandas.LStr (str "star_rating"), [21; 22]%Z)]
       else [(Pandas.LInt 0, [1; 0]%Z);
             (Pandas.LInt 1, [11; 12]%Z);
             (Pandas.LInt 2, [21; 22]%Z)] |}.

(** A reader that parses every file to [small_table], with a header row
    unless [header] is [None]. *)
Definition small_read_csv (_ _ : pystr) (header : Pandas.header_arg)
  : outcome (Pandas.DataFrame Z) :=
  Done (small_table (negb (Pandas.header_is_none header))).

(** One file in the directory. *)
Definition one_file_glob (_ : pystr) : list pystr :=
  [str "./output/test/part-00000.csv"].

(** Concatenation of a single table. *)
Definition single_concat (frames : list (Pandas.DataFrame Z))
  : outcome (Pandas.DataFrame Z) :=
  match frames with
  | [d] => Done d
  | _ => Raised ValueError
  end.

(** Four predictions: 0.5, NaN, the next float above 0.5, and 0.75. *)
Definition some_predictions : Numpy.ndarray spec_float :=
  {| Numpy.shape := [4];
     Numpy.data := [XGBoost.half; S754_nan;
                    S754_finite false 8388609 (-24);
                    S754_finite false 12582912 (-24)] |}.

(** A description of a finished job, with its artifact locations. *)
Definition completed_description : dict :=
  description "Completed" "Completed" ++
  [(str "AutoMLJobArtifacts",
    VDict [(str "CandidateDefinitionNotebookLocation",
            VStr (str "s3://bucket/models/autopilot/automl-dm-01-12-00-00/sagemaker-automl-candidates/pr-1-abc/notebooks/SageMakerAutopilotCandidateDefinitionNotebook.ipynb"));
           (str "DataExplorationNotebookLocation",
            VStr (str "s3://bucket/models/autopilot/automl-dm-01-12-00-00/sagemaker-automl-candidates/pr-1-abc/notebooks/SageMakerAutopilotDataExplorationNotebook.ipynb"))])].

Definition endpoint_name : pystr := str "automl-dm-ep-01-12-30-00".

(** An endpoint that answers every request with the octets of [" 1\n"]. *)
Definition one_endpoint : runtime := fun _ =>
  inr (List.map Utf8.octet [32; 49; 10]%N).

End Samples.

(* ================================================================== *)
(** ** The polling cells when the service or a response fails them *)

Module Tracking.

Import AutoPilot.

Local Open Scope py_scope.

Section Service.

Variable sm : service.
Variable auto_ml_job_name : pystr.

(** The exception that ends the describe call and the two subscripts that
    follow it, when the [n]-th answer is an error or lacks a status key. *)
Definition query_failure (n : nat) : option pyexn :=
  match sm n with
  | inl e => Some e
  | inr d =>
      match lookup (str "AutoMLJobStatus") d with
      | None => Some (KeyError (VStr (str "AutoMLJobStatus")))
      | Some _ =>
          match lookup (str "AutoMLJobSecondaryStatus") d with
          | None => Some (KeyError (VStr (str "AutoMLJobSecondaryStatus")))
          | Some _ => None
          end
      end
  end.

(** [polling target c l ls lf]: entered with variables [l] when [c]
    describe calls were answered, the loop gets through [length ls]
    iterations, which assign [ls] in turn, and stands at its test with
    variables [lf]. *)
Inductive polling (target : pystr) : nat -> locals -> list locals -> locals -> Prop :=
| polling_here c l :
    polling target c l [] l
| polling_step c l l' ls lf :
    loop_test target l = Done true ->
    observed sm c = Some l' ->
    polling target (S c) l' ls lf ->
    polling target c l (l' :: ls) lf.

(** The cell between the first two polling cells:
    [job = sm.describe_auto_ml_job(..); print(job)]. *)
Definition describe_cell : M dict :=
  j <- describe_auto_ml_job sm auto_ml_job_name ;;
  print [VDict j] ;;
  ret j.

(** The four cells under "Tracking the progress of the AutoPilot job", top
    to bottom; each polling cell has its own iteration budget. *)
Definition tracking_cells (fuel : nat) : M locals :=
  analyzing_data_cell sm auto_ml_job_name fuel ;;
  describe_cell ;;
  feature_engineering_cell sm auto_ml_job_name fuel ;;
  model_tuning_cell sm auto_ml_job_name fuel.

End Service.

(** The seconds a cell spends in [sleep]. *)
Fixpoint slept (evs : list event) : Z :=
  match evs with
  | [] => 0
  | EvSleep secs :: evs' => secs + slept evs'
  | _ :: evs' => slept evs'
  end.

(** The sleep that opens the data analysis cell. *)
Definition opening_sleep (p : phase) : Z :=
  match p with
  | AnalyzingData => 3
  | _ => 0
  end.

(** What a cell has done when its first describe call or one of the two
    subscripts after it raises. *)
Definition opening_describe (p : phase) (name : pystr) : list event :=
  match p with
  | AnalyzingData => [EvSleep 3; EvDescribe name]
  | _ => [EvDescribe name]
  end.

End Tracking.

(* ================================================================== *)
(** ** The literal of the copy cell *)

Module Resources.

(** The argument of [rstrip] in the cell that computes
    [generated_resources]. *)
Definition notebook_suffix : pystr :=
  str "notebooks/SageMakerAutopilotDataExplorationNotebook.ipynb".

(** [c in notebook_suffix], for one code point. *)
Definition in_suffix (c : N) : bool := PyStr.mem c notebook_suffix.

End Resources.

(* ================================================================== *)
(** ** The test features of the XGBoost notebook *)

From Stdlib Require DecimalString DecimalPos DecimalZ DecimalNat.

Module Features.

Import Pandas.

(** ['{}'.format(i)] and [str(i)] for an integer [i] that is not negative. *)
Definition decimal (i : nat) : pystr :=
  str (DecimalString.NilZero.string_of_uint (Nat.to_uint i)).

(** [['f{}'.format(i) for i in range(0, 300)]] *)
Definition feature_names : list label :=
  List.map (fun i => LStr (str "f" ++ decimal i)) (seq 0 300).


Section Frames.

Variable value : Type.

(** [X_test.columns = ['f{}'.format(i) for i in range(0, 300)]] *)
Definition name_features (X_test : DataFrame value) : outcome (DataFrame value) :=
  set_columns X_test feature_names.

(** The columns that survive [drop(l, axis=1)]. *)
Definition other_columns (l : label) (cols : list (label * list value))
  : list (label * list value) :=
  filter (fun c => negb (label_eqb l (fst c))) cols.

(** Every column holds one value per row of the index. *)
Definition rectangular (df : DataFrame value) : Prop :=
  Forall (fun c => List.length (snd c) = List.length (index df)) (columns df).

Variable read_csv : pystr -> pystr -> header_arg -> outcome (DataFrame value).
Variable glob : pystr -> list pystr.
Variable concat : list (DataFrame value) -> outcome (DataFrame value).

(** The two cells that load the test set and name its features:
    [X_test, y_test = load_dataset(path=.., sep=',', header=None)], then
    the assignment to [X_test.columns]. *)
Definition test_features_cells (path : pystr)
  : outcome (DataFrame value * Series value) :=
  loaded <~ XGBoost.load_dataset read_csv glob concat path (str ",") HeaderNone ;;
  X_test <~ name_features (fst loaded) ;;
  Done (X_test, snd loaded).

End Frames.

End Features.

(* ================================================================== *)
(** ** Plotting the confusion matrix *)

Module Plotting.

(** A two-dimensional array of integers, as [confusion_matrix] returns
    it: its two dimensions and its cells row by row. *)
Record matrix := { nrows : nat; ncols : nat; cells : list Z }.


(** What [plot_conf_mat] asks of [print] and of [matplotlib.pyplot]. *)
Inductive plot_event :=
| PPrint (cm : matrix)                              (* print(cm) *)
| PImshow (cm : matrix) (interpolation cmap : pystr) (* plt.imshow(cm, ..) *)
| PTitle (title : pystr)                            (* plt.title(title) *)
| PColorbar                                         (* plt.colorbar() *)
| PXticks (ticks : list Z) (labels : list pystr) (rotation : Z)
| PYticks (ticks : list Z) (labels : list pystr)
| PText (x y : Z) (s : pystr) (horizontalalignment color : pystr)
| PTightLayout                                      (* plt.tight_layout() *)
| PYlabel (s : pystr)                               (* plt.ylabel(s) *)
| PXlabel (s : pystr).                              (* plt.xlabel(s) *)

(** [format(n, 'd')] *)
Definition format_d (n : Z) : pystr :=
  str (DecimalString.NilZero.string_of_int (Z.to_int n)).

(** [np.arange(n)] *)
Definition arange (n : nat) : list Z := List.map Z.of_nat (seq 0 n).

(** [cm.max()]: [ValueError] on an array without a cell. *)
Definition matrix_max (cm : matrix) : outcome Z :=
  match cells cm with
  | [] => Raised ValueError
  | v :: vs => Done (fold_left Z.max vs v)
  end.

(** [cm[i, j]] *)
Definition cell_at (cm : matrix) (i j : nat) : outcome Z :=
  if (i <? nrows cm) && (j <? ncols cm) then
    match nth_error (cells cm) (i * ncols cm + j) with
    | Some v => Done v
    | None => Raised IndexError
    end
  else Raised IndexError.

(** [v > thresh], where [thresh = cm.max() / 2.]: the integer [v] against
    half of the integer [top]. *)
Definition above_thresh (v top : Z) : bool := (top <? 2 * v)%Z.

(** [itertools.product(range(cm.shape[0]), range(cm.shape[1]))] *)
Definition positions (cm : matrix) : list (nat * nat) :=
  list_prod (seq 0 (nrows cm)) (seq 0 (ncols cm)).

(** One turn of the loop, at position [(i, j)]. *)
Definition label_cell (cm : matrix) (top : Z) (ij : nat * nat)
  : outcome (list plot_event) :=
  let (i, j) := ij in
  v <~ cell_at cm i j ;;
  Done [PText (Z.of_nat j) (Z.of_nat i) (format_d v) (str "center")
              (if above_thresh v top then str "black" else str "black");
        PTightLayout;
        PYlabel (str "True label");
        PXlabel (str "Predicted label")].

(** The loop: the events of the turns taken, and how it ended. *)
Fixpoint label_cells (cm : matrix) (top : Z) (ps : list (nat * nat))
  : list plot_event * outcome unit :=
  match ps with
  | [] => ([], Done tt)
  | ij :: ps' =>
      match label_cell cm top ij with
      | Done evs =>
          let (evs', o) := label_cells cm top ps' in (evs ++ evs', o)
      | Raised e => ([], Raised e)
      | Running => ([], Running)
      end
  end.

(** What the function does before it computes [thresh]. *)
Definition setup_events (cm : matrix) (classes : list pystr) (title cmap : pystr)
  : list plot_event :=
  let tick_marks := arange (List.length classes) in
  [PPrint cm;
   PImshow cm (str "nearest") cmap;
   PTitle title;
   PColorbar;
   PXticks tick_marks classes 45;
   PYticks tick_marks classes].

(** [plot_conf_mat(cm, classes, title, cmap)], the same in both notebooks. *)
Definition plot_conf_mat (cm : matrix) (classes : list pystr) (title cmap : pystr)
  : list plot_event * outcome unit :=
  match matrix_max cm with
  | Done top =>
      let (evs, o) := label_cells cm top (positions cm) in
      (setup_events cm classes title cmap ++ evs, o)
  | Raised e => (setup_events cm classes title cmap, Raised e)
  | Running => (setup_events cm classes title cmap, Running)
  end.




(** The default colour map, [plt.cm.Greens]. *)
Definition greens : pystr := str "Greens".

(** The call both notebooks make. *)
Definition plot_test_matrix (df_cm_test : matrix) : list plot_event * outcome unit :=
  plot_conf_mat df_cm_test
    [str "Not Positive Sentiment"; str "Positive Sentiment"]
    (str "Confusion matrix") greens.

End Plotting.

(* ================================================================== *)
(** ** The AutoPilot notebook: candidates and the best candidate *)

Module Candidates.

Import AutoPilot.

Local Open Scope py_scope.

(** [for x in v]: the items a value yields when iterated; a dict yields
    its keys, a string its characters, and a value that is not iterable
    raises [TypeError]. *)
Definition iterate (v : pyval) : outcome (list pyval) :=
  match v with
  | VList l => Done l
  | VDict d => Done (List.map (fun kv => VStr (fst kv)) d)
  | VStr s => Done (List.map (fun c => VStr [c]) s)
  | _ => Raised TypeError
  end.

(** [s + v] with a string on the left: [TypeError] unless [v] is a string. *)
Definition concat_str (s : pystr) (v : pyval) : outcome pystr :=
  match v with
  | VStr t => Done (s ++ t)
  | _ => Raised TypeError
  end.

Definition separator : pystr := str "======================".

Section Builtins.

(** The builtin [str] on the values of a response. *)
Variable py_str : pyval -> pystr.

(** [str(index) + "  " + candidate['CandidateName'] + "  "
      + str(candidate['FinalAutoMLJobObjectiveMetric']['Value'])],
    operand by operand from the left. *)
Definition candidate_line (index : nat) (candidate : pyval) : outcome pystr :=
  name <~ getitem candidate (str "CandidateName") ;;
  left <~ concat_str (Features.decimal index ++ str "  ") name ;;
  metric <~ getitem candidate (str "FinalAutoMLJobObjectiveMetric") ;;
  value <~ getitem metric (str "Value") ;;
  Done (left ++ str "  " ++ py_str value).

(** [for index, candidate in enumerate(candidates): print(..)] *)
Fixpoint list_candidates_loop (index : nat) (candidates : list pyval) : M unit :=
  match candidates with
  | [] => ret tt
  | candidate :: rest =>
      line <- lift (candidate_line index candidate) ;;
      print [VStr line] ;;
      list_candidates_loop (S index) rest
  end.

(** The cell "Viewing All Candidates", from the response of
    [sm.list_candidates_for_auto_ml_job] on. *)
Definition list_candidates_cell (response : dict) : M unit :=
  candidates <- lift (dict_getitem response (str "Candidates")) ;;
  items <- lift (iterate candidates) ;;
  list_candidates_loop 0 items.

Variable sm : service.
Variable auto_ml_job_name : pystr.

(** The cell "Explore the Best Candidate"; it leaves [best_candidate]. *)
Definition best_candidate_cell : M pyval :=
  j <- describe_auto_ml_job sm auto_ml_job_name ;;
  best_candidate <- lift (dict_getitem j (str "BestCandidate")) ;;
  best_candidate_identifier <- lift (getitem best_candidate (str "CandidateName")) ;;
  line1 <- lift (concat_str (str "Candidate name: ") best_candidate_identifier) ;;
  print [VStr line1] ;;
  metric <- lift (getitem best_candidate (str "FinalAutoMLJobObjectiveMetric")) ;;
  metric_name <- lift (getitem metric (str "MetricName")) ;;
  line2 <- lift (concat_str (str "Metric name: ") metric_name) ;;
  print [VStr line2] ;;
  metric' <- lift (getitem best_candidate (str "FinalAutoMLJobObjectiveMetric")) ;;
  value <- lift (getitem metric' (str "Value")) ;;
  print [VStr (str "Metric value: " ++ py_str value)] ;;
  ret best_candidate.

End Builtins.

(** [for container in ..: print(container['Image']);
     print(container['ModelDataUrl']); print('======================')] *)
Fixpoint containers_loop (containers : list pyval) : M unit :=
  match containers with
  | [] => ret tt
  | container :: rest =>
      image <- lift (getitem container (str "Image")) ;;
      print [image] ;;
      url <- lift (getitem container (str "ModelDataUrl")) ;;
      print [url] ;;
      print [VStr separator] ;;
      containers_loop rest
  end.

(** The cell that shows the containers of the inference pipeline. *)
Definition containers_cell (best_candidate : pyval) : M unit :=
  containers <- lift (getitem best_candidate (str "InferenceContainers")) ;;
  items <- lift (iterate containers) ;;
  containers_loop items.

(** The line the listing prints for a candidate with the name and the
    metric value given. *)
Definition listing_line (py_str : pyval -> pystr) (index : nat) (name : pystr)
    (value : pyval) : event :=
  EvPrint [VStr (Features.decimal index ++ str "  " ++ name ++ str "  " ++ py_str value)].

(** [finished c name value]: [c] is a candidate dict with the string
    [name] as its name and a final metric whose value is [value]. *)
Definition finished (c : pyval) (name : pystr) (value : pyval) : Prop :=
  exists d m,
    c = VDict d /\
    lookup (str "CandidateName") d = Some (VStr name) /\
    lookup (str "FinalAutoMLJobObjectiveMetric") d = Some (VDict m) /\
    lookup (str "Value") m = Some value.

(** The lines of a listing of finished candidates, numbered from [index]. *)
Fixpoint listing (py_str : pyval -> pystr) (index : nat)
    (cs : list (pystr * pyval)) : list event :=
  match cs with
  | [] => []
  | (name, value) :: cs' =>
      listing_line py_str index name value :: listing py_str (S index) cs'
  end.

(** The three prints for a container with the two fields given. *)
Definition container_events (c : pyval * pyval) : list event :=
  [EvPrint [fst c]; EvPrint [snd c]; EvPrint [VStr separator]].

(** [has_fields c image url]: [c] is a container dict with these two
    fields. *)
Definition has_fields (c : pyval) (image url : pyval) : Prop :=
  exists d,
    c = VDict d /\
    lookup (str "Image") d = Some image /\
    lookup (str "ModelDataUrl") d = Some url.

End Candidates.

(* ================================================================== *)
(** ** More sample services *)

Module MoreSamples.

Import AutoPilot Samples.

(** The service throttles the third call. *)
Definition throttled_service : service := fun n =>
  match n with
  | 0 | 1 => inr (description "InProgress" "FeatureEngineering")
  | _ => inl (ClientError (str "ThrottlingException"))
  end.

(** The second answer has no secondary status. *)
Definition truncated_service : service := fun n =>
  match n with
  | 0 => inr (description "InProgress" "ModelTuning")
  | _ => inr [(str "AutoMLJobStatus", VStr (str "InProgress"))]
  end.

(** The job status of every answer is [None]. *)
Definition null_status_service : service := fun _ =>
  inr [(str "AutoMLJobStatus", VNone);
       (str "AutoMLJobSecondaryStatus", VStr (str "AnalyzingData"))].

(** Two rounds of data analysis, then the job moves on. *)
Definition analysing_service : service := fun n =>
  match n with
  | 0 | 1 | 2 => inr (description "InProgress" "AnalyzingData")
  | _ => inr (description "InProgress" "FeatureEngineering")
  end.

(** An endpoint whose model container fails on every request. *)
Definition broken_endpoint : runtime := fun _ =>
  inl (ClientError (str "ModelError")).

(** Two files in the directory. *)
Definition two_files_glob (_ : pystr) : list pystr :=
  [str "./output/test/part-00000.csv"; str "./output/test/part-00001.csv"].

(** A reader that fails on the second file. *)
Definition second_file_unreadable (f _ : pystr) (_ : Pandas.header_arg)
  : outcome (Pandas.DataFrame Z) :=
  if PyStr.eqb f (str "./output/test/part-00001.csv")
  then Raised ValueError
  else Done (small_table false).

(** A table whose first label comes back on the third column. *)
Definition repeated_label_table : Pandas.DataFrame Z :=
  {| Pandas.index := [0]%Z;
     Pandas.columns := [(Pandas.LStr (str "a"), [1]%Z);
                        (Pandas.LStr (str "b"), [2]%Z);
                        (Pandas.LStr (str "a"), [3]%Z)] |}.

(** A table of one row with a label column and [n] feature columns. *)
Definition wide_table (n : nat) : Pandas.DataFrame Z :=
  {| Pandas.index := [0]%Z;
     Pandas.columns :=
       List.map (fun i => (Pandas.LInt (Z.of_nat i), [Z.of_nat i])) (seq 0 (S n)) |}.

(** A confusion matrix of a test set of 100 reviews. *)
Definition some_confusion_matrix : Plotting.matrix :=
  {| Plotting.nrows := 2; Plotting.ncols := 2; Plotting.cells := [40; 10; 5; 45]%Z |}.

(** A rendering of metric values for the samples: integers in decimal. *)
Definition sample_str (v : pyval) : pystr :=
  match v with
  | VStr s => s
  | VInt z => Plotting.format_d z
  | _ => str "?"
  end.

(** A candidate that has not reached its final metric. *)
Definition unfinished_candidate : pyval :=
  VDict [(str "CandidateName", VStr (str "tuning-job-1-003"))].

End MoreSamples.

(* ================================================================== *)
(** ** Text as the Unicode standard has it *)

(** Stated apart from the decoder and from [strip], to compare them with:
    the UTF-8 form of a code point by the arithmetic of the standard's
    table, and the white space of Python by its list of code points. *)

Module Unicode.

Local Open Scope N_scope.






End Unicode.

(* ================================================================== *)
(** ** The status values of the service *)

Module ServiceStatuses.

Import AutoPilot.






End ServiceStatuses.

(* ================================================================== *)
(** * Properties *)

(** ** Strings *)

Module PyStrFacts.

Lemma eqb_refl (s : pystr) : PyStr.eqb s s = true.
Proof.
  induction s as [|c s IH]; simpl; [reflexivity|].
  now rewrite N.eqb_refl, IH.
Qed.

Lemma eqb_eq (s t : pystr) : PyStr.eqb s t = true <-> s = t.
Proof.
  split.
  - revert t; induction s as [|a s IH]; intros [|b t]; simpl; try discriminate; auto.
    intros H; apply andb_true_iff in H as [Hab Hst].
    apply N.eqb_eq in Hab; subst b. f_equal; auto.
  - intros ->; apply eqb_refl.
Qed.


End PyStrFacts.

(** ** The polling loop *)

Module PollingFacts.

Import AutoPilot.

Local Open Scope py_scope.

Section Loop.

Variable sm : service.
Variable name : pystr.

Lemma query_observed w l :
  observed sm (calls w) = Some l ->
  query sm name w =
    (Done l, {| calls := S (calls w); trace := trace w ++ [EvDescribe name] |}).
Proof.
  unfold observed, query, describe_auto_ml_job, bind, lift, dict_getitem, ret.
  destruct (sm (calls w)) as [e|d]; [discriminate|].
  destruct (lookup (str "AutoMLJobStatus") d) as [st|]; [|discriminate].
  destruct (lookup (str "AutoMLJobSecondaryStatus") d) as [sec|]; [|discriminate].
  intros [= <-]; reflexivity.
Qed.

Lemma poll_body_observed w l0 l :
  observed sm (calls w) = Some l ->
  poll_body sm name l0 w =
    (Done l, {| calls := S (calls w);
                trace := trace w ++ iteration_events name l |}).
Proof.
  intros H. unfold poll_body, bind. rewrite (query_observed _ H).
  unfold print, sleep, emit, ret, iteration_events; simpl.
  now rewrite <- !app_assoc.
Qed.

(** A loop that exits after [length ls] iterations is run to its end by
    any budget of at least that many iterations. *)
Lemma poll_loop_exits target c l ls lf :
  polls sm target c l ls lf ->
  forall fuel w, calls w = c -> List.length ls <= fuel ->
  poll_loop sm name fuel target l w =
    (Done lf, {| calls := c + List.length ls;
                 trace := trace w ++ flat_map (iteration_events name) ls |}).
Proof.
  induction 1 as [c l Hc | c l l' ls lf Hc Hobs _ IH]; intros fuel w Hw Hfuel.
  - unfold poll_loop. destruct fuel; simpl;
      unfold bind, poll_cond, lift, ret; rewrite Hc; simpl;
      rewrite Nat.add_0_r, app_nil_r; destruct w; simpl in *; now subst.
  - destruct fuel as [|fuel]; [simpl in Hfuel; lia|].
    unfold poll_loop in *. simpl. unfold bind at 1, poll_cond, lift. rewrite Hc.
    unfold bind at 1. subst c. rewrite (poll_body_observed _ _ Hobs).
    rewrite (IH fuel); simpl; [|reflexivity|simpl in Hfuel; lia].
    f_equal. f_equal; [lia|]. now rewrite <- app_assoc.
Qed.

(** A loop whose test stays true runs through every budget. *)
Lemma poll_loop_runs target :
  forall fuel c l w,
  calls w = c ->
  loop_test target l = Done true ->
  (forall n, c <= n -> exists l', observed sm n = Some l' /\ loop_test target l' = Done true) ->
  fst (poll_loop sm name fuel target l w) = Running.
Proof.
  induction fuel as [|fuel IH]; intros c l w Hw Hc Hall.
  - unfold poll_loop; simpl. unfold bind, poll_cond, lift. now rewrite Hc.
  - unfold poll_loop in *; simpl. unfold bind at 1, poll_cond, lift. rewrite Hc.
    destruct (Hall c (Nat.le_refl c)) as (l' & Hobs & Hc').
    unfold bind at 1. subst c. rewrite (poll_body_observed _ _ Hobs).
    apply (IH (S (calls w))); simpl; auto.
    intros n Hn. apply Hall. lia.
Qed.

End Loop.

End PollingFacts.

(** ** The polling cells *)

Module CellFacts.
Import AutoPilot PollingFacts.
Local Open Scope py_scope.

Section Cells.
Variable sm : service.
Variable name : pystr.

Lemma guarded_poll_skips fuel target message l w :
  in_tuple (job_status l) stopped_or_failed = true ->
  guarded_poll sm name fuel target message l w =
    (Done l, {| calls := calls w; trace := trace w ++ [EvPrint [VDict (job l)]] |}).
Proof.
  intros H. unfold guarded_poll. rewrite H. reflexivity.
Qed.

Lemma guarded_poll_completes fuel target message l ls lf w :
  in_tuple (job_status l) stopped_or_failed = false ->
  polls sm target (calls w) l ls lf ->
  List.length ls <= fuel ->
  guarded_poll sm name fuel target message l w =
    (Done lf, {| calls := calls w + List.length ls;
                 trace := trace w ++ flat_map (iteration_events name) ls ++
                          [EvPrint [VStr message]; EvPrint [VDict (job lf)]] |}).
Proof.
  intros H Hp Hf. unfold guarded_poll. rewrite H. simpl.
  unfold bind at 1. unfold bind at 1.
  rewrite (@poll_loop_exits sm name target _ _ _ _ Hp fuel w eq_refl Hf).
  unfold print, emit, ret, bind; simpl.
  now rewrite <- !app_assoc.
Qed.

(** Past its first describe call a cell is its guarded loop, entered
    after the opening events. *)
Lemma cell_unfold p fuel w l0 :
  observed sm (calls w) = Some l0 ->
  polling_cell p sm name fuel w =
    guarded_poll sm name fuel (target_of p) (message_of p) l0
      {| calls := S (calls w); trace := trace w ++ preamble p name l0 |}.
Proof.
  intros Hobs.
  destruct p; unfold polling_cell, analyzing_data_cell, feature_engineering_cell,
    model_tuning_cell.
  - unfold bind at 1, sleep, emit. unfold bind at 1.
    rewrite (@query_observed sm name
               {| calls := calls w; trace := trace w ++ [EvSleep 3] |} l0 Hobs).
    simpl. now rewrite <- app_assoc.
  - unfold bind at 1. rewrite (@query_observed sm name w l0 Hobs).
    unfold bind at 1, print, emit. unfold bind at 1. simpl.
    now rewrite <- !app_assoc.
  - unfold bind at 1. rewrite (@query_observed sm name w l0 Hobs).
    unfold bind at 1, print, emit. unfold bind at 1. simpl.
    now rewrite <- !app_assoc.
Qed.

Lemma cell_skips p fuel w l0 :
  observed sm (calls w) = Some l0 ->
  in_tuple (job_status l0) stopped_or_failed = true ->
  polling_cell p sm name fuel w =
    (Done l0, {| calls := S (calls w);
                 trace := trace w ++ preamble p name l0 ++ [EvPrint [VDict (job l0)]] |}).
Proof.
  intros Hobs H. rewrite (@cell_unfold p fuel w l0 Hobs).
  rewrite guarded_poll_skips by assumption. simpl. now rewrite <- app_assoc.
Qed.

Lemma cell_completes p fuel w l0 ls lf :
  observed sm (calls w) = Some l0 ->
  in_tuple (job_status l0) stopped_or_failed = false ->
  polls sm (target_of p) (S (calls w)) l0 ls lf ->
  List.length ls <= fuel ->
  polling_cell p sm name fuel w =
    (Done lf, {| calls := S (calls w) + List.length ls;
                 trace := trace w ++ preamble p name l0 ++
                          flat_map (iteration_events name) ls ++
                          [EvPrint [VStr (message_of p)]; EvPrint [VDict (job lf)]] |}).
Proof.
  intros Hobs H Hp Hf. rewrite (@cell_unfold p fuel w l0 Hobs).
  erewrite guarded_poll_completes; eauto. simpl. now rewrite <- app_assoc.
Qed.

End Cells.
End CellFacts.

(** ** Properties of the polling cells *)

Module PollingProperties.
Import AutoPilot PollingFacts CellFacts Samples MoreSamples.
Local Open Scope py_scope.

Lemma bind_running {A B} (m : M A) (k : A -> M B) w :
  fst (m w) = Running -> fst (bind m k w) = Running.
Proof.
  unfold bind. destruct (m w) as [[a|e|] w']; simpl; congruence.
Qed.

(** The loop test is the substring test on both statuses. *)
Lemma loop_test_true target l :
  loop_test target l = Done true <->
  exists s t, job_status l = VStr s /\ job_sec_status l = VStr t /\
              PyStr.contains in_progress s = true /\ PyStr.contains target t = true.
Proof.
  unfold loop_test, in_str, and_then. split.
  - destruct (job_status l) as [| | |s| |]; try discriminate.
    destruct (PyStr.contains in_progress s) eqn:Hs; [|discriminate].
    destruct (job_sec_status l) as [| | |t| |]; try discriminate.
    intros [= Ht]. now exists s, t.
  - intros (s & t & -> & -> & Hs & Ht). now rewrite Hs, Ht.
Qed.


Lemma cell_runs p sm name w l0 :
  observed sm (calls w) = Some l0 ->
  in_tuple (job_status l0) stopped_or_failed = false ->
  loop_test (target_of p) l0 = Done true ->
  (forall n, S (calls w) <= n ->
     exists l', observed sm n = Some l' /\ loop_test (target_of p) l' = Done true) ->
  forall fuel, fst (polling_cell p sm name fuel w) = Running.
Proof.
  intros Hobs Hg Hc Hall fuel. rewrite (@cell_unfold sm name p fuel w l0 Hobs).
  unfold guarded_poll. rewrite Hg. simpl.
  apply bind_running, bind_running.
  now apply (@poll_loop_runs sm name (target_of p) fuel (S (calls w))).
Qed.

(** While every answer reads 'InProgress' with the phase of the cell, the
    cell is still running after any number of iterations. *)
Lemma in_progress_runs_forever p sm name w :
  (forall n, calls w <= n ->
     observed sm n <> None /\
     forall l, observed sm n = Some l ->
       job_status l = VStr in_progress /\ job_sec_status l = VStr (target_of p)) ->
  forall fuel, fst (polling_cell p sm name fuel w) = Running.
Proof.
  intros Hall fuel.
  assert (Hgood : forall l, job_status l = VStr in_progress ->
            job_sec_status l = VStr (target_of p) ->
            loop_test (target_of p) l = Done true).
  { intros l Hs Ht. apply loop_test_true. exists in_progress, (target_of p).
    repeat split; auto. destruct p; reflexivity. }
  destruct (Hall (calls w) (Nat.le_refl _)) as [Hsome Hl0].
  destruct (observed sm (calls w)) as [l0|] eqn:Hobs; [|congruence].
  destruct (Hl0 l0 eq_refl) as [Hs Ht].
  apply cell_runs with (l0 := l0); auto.
  - now rewrite Hs.
  - intros n Hn. destruct (Hall n) as [Hsome' Hl]; [lia|].
    destruct (observed sm n) as [l'|]; [|congruence].
    exists l'. split; auto. destruct (Hl l' eq_refl). auto.
Qed.

Section Completed.

Variable sm : service.
Variable name : pystr.

Lemma query_done w l w' :
  query sm name w = (Done l, w') ->
  observed sm (calls w) = Some l /\
  w' = {| calls := S (calls w); trace := trace w ++ [EvDescribe name] |}.
Proof.
  unfold observed, query, describe_auto_ml_job, bind, lift, dict_getitem, ret.
  destruct (sm (calls w)) as [e|d]; [discriminate|].
  destruct (lookup (str "AutoMLJobStatus") d) as [st|]; [|discriminate].
  destruct (lookup (str "AutoMLJobSecondaryStatus") d) as [sec|]; [|discriminate].
  intros [= <- <-]. split; reflexivity.
Qed.

Lemma poll_body_done w l0 l w' :
  poll_body sm name l0 w = (Done l, w') -> observed sm (calls w) = Some l.
Proof.
  unfold poll_body. unfold bind at 1.
  destruct (query sm name w) as [[l1|e|] w1] eqn:Hq; try discriminate.
  apply query_done in Hq as [Hobs _].
  unfold bind, print, sleep, emit, ret. intros [= <- _]. exact Hobs.
Qed.

(** A loop that ran to its end is one that exits. *)
Lemma poll_loop_done target :
  forall fuel l w lf w',
  poll_loop sm name fuel target l w = (Done lf, w') ->
  exists ls, polls sm target (calls w) l ls lf /\ List.length ls <= fuel.
Proof.
  induction fuel as [|fuel IH]; intros l w lf w'; unfold poll_loop in *; simpl;
    unfold bind at 1, poll_cond, lift;
    destruct (loop_test target l) as [[|]|e|] eqn:Hc; try discriminate.
  - intros [= <- _]. exists []. split; [now constructor|simpl; lia].
  - unfold bind at 1.
    destruct (poll_body sm name l w) as [[l1|e|] w1] eqn:Hb; try discriminate.
    intros Hrest. pose proof (poll_body_done _ _ Hb) as Hobs.
    rewrite (@poll_body_observed sm name w l l1 Hobs) in Hb. injection Hb as <-.
    apply IH in Hrest as (ls & Hp & Hlen). simpl in Hp.
    exists (l1 :: ls). split; [econstructor; eauto|simpl; lia].
  - intros [= <- _]. exists []. split; [now constructor|simpl; lia].
Qed.

Lemma guarded_poll_done fuel target message l w lf w' :
  in_tuple (job_status l) stopped_or_failed = false ->
  guarded_poll sm name fuel target message l w = (Done lf, w') ->
  exists ls, polls sm target (calls w) l ls lf /\ List.length ls <= fuel.
Proof.
  intros Hg. unfold guarded_poll. rewrite Hg. simpl.
  unfold bind at 1. unfold bind at 1.
  destruct (poll_loop sm name fuel target l w) as [[l1|e|] w1] eqn:Hl; try discriminate.
  unfold bind, print, emit, ret. intros [= <- _].
  eapply poll_loop_done; eauto.
Qed.

Lemma cell_done p fuel w l0 lf w' :
  observed sm (calls w) = Some l0 ->
  in_tuple (job_status l0) stopped_or_failed = false ->
  polling_cell p sm name fuel w = (Done lf, w') ->
  exists ls, polls sm (target_of p) (S (calls w)) l0 ls lf /\ List.length ls <= fuel.
Proof.
  intros Hobs Hg. rewrite (@cell_unfold sm name p fuel w l0 Hobs).
  intros H. now apply guarded_poll_done in H.
Qed.

End Completed.


Lemma in_stopped_or_failed v :
  in_tuple v stopped_or_failed = true <->
  v = VStr (str "Stopped") \/ v = VStr (str "Failed").
Proof.
  unfold in_tuple, stopped_or_failed, eq_str; simpl. split.
  - destruct v as [| | |s| |]; simpl; try discriminate.
    rewrite orb_false_r. intros H. apply orb_true_iff in H as [H|H];
      apply PyStrFacts.eqb_eq in H; subst; auto.
  - intros [->| ->]; reflexivity.
Qed.

(** C4, amended. When the first description a polling cell obtains has job
    status 'Stopped' or 'Failed', the cell ends after that one describe call
    without entering its loop and without sleeping 30 seconds; beyond the
    call (and the 3 second sleep that opens the data analysis cell) it only
    prints: the feature engineering and model tuning cells print the job
    status, the secondary status and the raw description, the data analysis
    cell prints the raw description alone. *)
Theorem stopped_or_failed_job_is_only_printed p sm name w l0 :
  observed sm (calls w) = Some l0 ->
  job_status l0 = VStr (str "Stopped") \/ job_status l0 = VStr (str "Failed") ->
  forall fuel, exists w' evs,
    polling_cell p sm name fuel w = (Done l0, w') /\
    calls w' = S (calls w) /\
    trace w' = trace w ++ evs /\
    evs = preamble p name l0 ++ [EvPrint [VDict (job l0)]] /\
    describes evs = 1 /\
    ~ In (EvSleep 30) evs /\
    prints evs =
      match p with
      | AnalyzingData => [EvPrint [VDict (job l0)]]
      | _ => [EvPrint [job_status l0]; EvPrint [job_sec_status l0];
              EvPrint [VDict (job l0)]]
      end.
Proof.
  intros Hobs Hst fuel. apply in_stopped_or_failed in Hst.
  eexists. exists (preamble p name l0 ++ [EvPrint [VDict (job l0)]]).
  split; [apply (@cell_skips sm name p fuel w l0 Hobs Hst)|].
  simpl. repeat split; destruct p; simpl; try reflexivity;
    intros H; repeat (destruct H as [H|H]; [discriminate H|]); exact H.
Qed.

Lemma stopped_or_failed_job_is_only_printed_witness :
  exists w' evs,
    polling_cell FeatureEngineering failed_service job_name 7 start =
      (Done (seen "Failed" "Failed"), w') /\
    calls w' = 1 /\
    trace w' = trace start ++ evs /\
    evs = preamble FeatureEngineering job_name (seen "Failed" "Failed") ++
          [EvPrint [VDict (job (seen "Failed" "Failed"))]] /\
    describes evs = 1 /\
    ~ In (EvSleep 30) evs /\
    prints evs = [EvPrint [VStr (str "Failed")]; EvPrint [VStr (str "Failed")];
                  EvPrint [VDict (description "Failed" "Failed")]].
Proof.
  apply (@stopped_or_failed_job_is_only_printed FeatureEngineering failed_service
           job_name start (seen "Failed" "Failed")).
  - reflexivity.
  - right. reflexivity.
Defined.

(** The data analysis cell, run on a job that has failed, prints the raw
    description and no status string. *)
Lemma analyzing_data_cell_prints_no_status :
  ~ (forall p,
       prints (trace (snd (polling_cell p failed_service job_name 0 start))) =
         [EvPrint [VStr (str "Failed")]; EvPrint [VStr (str "Failed")];
          EvPrint [VDict (description "Failed" "Failed")]]).
Proof.
  intros H. specialize (H AnalyzingData). vm_compute in H. discriminate H.
Qed.

(** The first status the feature engineering cell reads from a service
    that throttles its third call is 'InProgress', neither 'Stopped' nor
    'Failed'; the cell raises inside its loop and has not printed its
    completion message, however many iterations it is given. *)
Lemma throttled_cell_prints_no_message :
  ~ (forall p sm name w l0,
       observed sm (calls w) = Some l0 ->
       in_tuple (job_status l0) stopped_or_failed = false ->
       exists fuel,
         In (EvPrint [VStr (message_of p)])
            (trace (snd (polling_cell p sm name fuel w)))).
Proof.
  intros H.
  destruct (H FeatureEngineering throttled_service job_name start
              (seen "InProgress" "FeatureEngineering") eq_refl eq_refl)
    as [fuel Hin].
  destruct fuel as [|[|fuel]]; vm_compute in Hin;
    repeat (destruct Hin as [Hin|Hin]; [discriminate Hin|]); exact Hin.
Qed.

(** C10, amended. Let [l0] be what the first describe call of a polling
    cell shows. If its job status is 'Stopped' or 'Failed', the cell ends at
    once and its events are its opening ones followed by [print(job)]: the
    completion message is not among them. Otherwise every run of the cell
    that ends has printed the completion message just before [print(job)],
    whatever the last status the loop read, also 'Failed', and the cell
    does end whenever the loop exits: whenever the answers to its describe
    calls lead the loop test to false before one of the calls fails. *)
Theorem completion_message_follows_initial_status p sm name w l0 :
  observed sm (calls w) = Some l0 ->
  (in_tuple (job_status l0) stopped_or_failed = true ->
   forall fuel, exists w',
     polling_cell p sm name fuel w = (Done l0, w') /\
     trace w' = trace w ++ preamble p name l0 ++ [EvPrint [VDict (job l0)]] /\
     (job_sec_status l0 <> VStr (message_of p) ->
      ~ In (EvPrint [VStr (message_of p)])
           (preamble p name l0 ++ [EvPrint [VDict (job l0)]])))
  /\
  (in_tuple (job_status l0) stopped_or_failed = false ->
   (forall fuel lf w',
      polling_cell p sm name fuel w = (Done lf, w') ->
      exists evs,
        trace w' = trace w ++ evs ++
                   [EvPrint [VStr (message_of p)]; EvPrint [VDict (job lf)]])
   /\
   (forall ls lf fuel,
      polls sm (target_of p) (S (calls w)) l0 ls lf ->
      List.length ls <= fuel ->
      exists w' evs,
        polling_cell p sm name fuel w = (Done lf, w') /\
        trace w' = trace w ++ evs /\
        In (EvPrint [VStr (message_of p)]) evs)).
Proof.
  intros Hobs. split; intros Hg.
  - intros fuel. eexists. split; [apply (@cell_skips sm name p fuel w l0 Hobs Hg)|].
    split; [reflexivity|].
    intros Hsec Hin.
    assert (Hst : job_status l0 <> VStr (message_of p)).
    { intros E. rewrite E in Hg. destruct p; vm_compute in Hg; discriminate Hg. }
    destruct p; simpl in Hin;
      repeat (destruct Hin as [Hin|Hin];
              [try discriminate Hin; injection Hin as E;
               solve [apply Hst; exact E | apply Hsec; exact E]|]);
      exact Hin.
  - split.
    + intros fuel lf w' Hrun.
      destruct (@cell_done sm name p fuel w l0 lf w' Hobs Hg Hrun) as (ls & Hp & Hlen).
      rewrite (@cell_completes sm name p fuel w l0 ls lf Hobs Hg Hp Hlen) in Hrun.
      injection Hrun as <-. simpl.
      exists (preamble p name l0 ++ flat_map (iteration_events name) ls).
      now rewrite <- !app_assoc.
    + intros ls lf fuel Hp Hlen.
      eexists. eexists. split; [apply (@cell_completes sm name p fuel w l0 ls lf Hobs Hg Hp Hlen)|].
      split; [reflexivity|].
      apply in_or_app; right. apply in_or_app; right. left; reflexivity.
Qed.

Lemma completion_message_follows_initial_status_witness :
  (forall fuel lf w',
      polling_cell AnalyzingData failing_service job_name fuel start = (Done lf, w') ->
      exists evs,
        trace w' = trace start ++ evs ++
                   [EvPrint [VStr (str "Data analysis complete")]; EvPrint [VDict (job lf)]])
  /\
  (exists w' evs,
      polling_cell AnalyzingData failing_service job_name 1 start =
        (Done (seen "Failed" "Failed"), w') /\
      trace w' = trace start ++ evs /\
      In (EvPrint [VStr (str "Data analysis complete")]) evs)
  /\
  (exists w',
      polling_cell ModelTuning failed_service job_name 1 start =
        (Done (seen "Failed" "Failed"), w') /\
      trace w' = trace start ++ preamble ModelTuning job_name (seen "Failed" "Failed") ++
                 [EvPrint [VDict (description "Failed" "Failed")]] /\
      ~ In (EvPrint [VStr (str "Model tuning complete")])
           (preamble ModelTuning job_name (seen "Failed" "Failed") ++
            [EvPrint [VDict (description "Failed" "Failed")]])).
Proof.
  pose proof (@completion_message_follows_initial_status AnalyzingData failing_service
                job_name start (seen "InProgress" "AnalyzingData") eq_refl) as [_ Hrun].
  pose proof (@completion_message_follows_initial_status ModelTuning failed_service
                job_name start (seen "Failed" "Failed") eq_refl) as [Hskip _].
  destruct (Hrun eq_refl) as [Hany Hexit].
  split; [exact Hany|]. split.
  - apply (Hexit [seen "Failed" "Failed"] (seen "Failed" "Failed") 1).
    + apply polls_step with (l' := seen "Failed" "Failed"); try reflexivity.
      apply polls_exit. reflexivity.
    + simpl. lia.
  - destruct (Hskip eq_refl 1) as (w' & Hcell & Htrace & Hnot).
    exists w'. split; [exact Hcell|]. split; [exact Htrace|].
    apply Hnot. discriminate.
Defined.

End PollingProperties.

Module ArtifactProperties.
Import AutoPilot Samples.

(** C3. When the job description has no key 'AutoMLJobArtifacts', the cell
    that computes [generated_resources] raises [KeyError] for that key: its
    outcome is the raised exception and no value. *)
Theorem missing_artifacts_key_raises (job : dict) :
  lookup (str "AutoMLJobArtifacts") job = None ->
  generated_resources_cell job = Raised (KeyError (VStr (str "AutoMLJobArtifacts"))) /\
  forall v, generated_resources_cell job <> Done v.
Proof.
  intros H. unfold generated_resources_cell, dict_getitem. rewrite H. simpl.
  split; [reflexivity|discriminate].
Qed.

Lemma missing_artifacts_key_raises_witness :
  generated_resources_cell (description "Failed" "Failed") =
    Raised (KeyError (VStr (str "AutoMLJobArtifacts"))) /\
  forall v, generated_resources_cell (description "Failed" "Failed") <> Done v.
Proof.
  apply (@missing_artifacts_key_raises (description "Failed" "Failed")).
  reflexivity.
Defined.

(** With the key present the cell yields the location with its trailing
    code points out of the argument of [rstrip] removed. *)
Example generated_resources_sample :
  generated_resources_cell completed_description =
    Done (str "s3://bucket/models/autopilot/automl-dm-01-12-00-00/sagemaker-automl-candidates/pr-1-abc").
Proof. reflexivity. Qed.

Example artifacts_without_location_sample :
  generated_resources_cell [(str "AutoMLJobArtifacts", VDict [])] =
    Raised (KeyError (VStr (str "DataExplorationNotebookLocation"))).
Proof. reflexivity. Qed.

End ArtifactProperties.

Module NotebookProperties.
Import Notebooks.

Local Open Scope string_scope.
Local Open Scope list_scope.

Lemma call_eqb_eq a b : call_eqb a b = true -> a = b.
Proof. destruct a, b; simpl; congruence. Qed.

(** A run makes calls the statements have, and no other. *)
Lemma run_calls_are_sites store :
  forall ss names c,
  In c (fst (run store names ss)) -> In c (flat_map makes ss).
Proof.
  induction ss as [|s ss IH]; intros names c; simpl; [auto|].
  destruct (find (fun n => negb (bound names n)) (reads s)); simpl; [intros []|].
  destruct (run store (filter (bound store) (restores s) ++ binds s ++ names) ss)
    as [cs e] eqn:Hrun.
  simpl. intros Hin. apply in_app_or in Hin as [Hin|Hin]; apply in_or_app; [now left|].
  right. apply (IH (filter (bound store) (restores s) ++ binds s ++ names)).
  now rewrite Hrun.
Qed.

Lemma performed_has_call store nb c :
  has_call c (sites nb) = false -> has_call c (performed store nb) = false.
Proof.
  intros H. destruct (has_call c (performed store nb)) eqn:E; [|reflexivity].
  unfold has_call in E. apply existsb_exists in E as (c' & Hin & Heq).
  apply call_eqb_eq in Heq. subst c'.
  apply run_calls_are_sites in Hin.
  assert (Hs : has_call c (sites nb) = true).
  { unfold has_call. apply existsb_exists. exists c. split; [exact Hin|].
    destruct c; reflexivity. }
  congruence.
Qed.

(** The XGBoost notebook creates no endpoint, whatever it is run with, so
    not every notebook of the repository goes through the five steps. *)
Lemma xgboost_notebook_has_no_endpoint :
  ~ (forall nb, In nb repository ->
       exists store,
         follows_overview (performed store nb) = true /\
         has_call CreateEndpoint (performed store nb) = true /\
         predicts_through_endpoint (performed store nb) = true).
Proof.
  intros H. destruct (H xgboost) as (store & _ & Hmakes & _).
  - right; left; reflexivity.
  - rewrite performed_has_call in Hmakes by reflexivity. discriminate Hmakes.
Qed.

(** C5, amended. Run top to bottom in a fresh kernel, with [train_s3_uri]
    in the store and every call returning, the AutoPilot notebook binds
    every name before it reads it and gets to every call it has, in source
    order: it uploads the job configuration,
    polls the job status, downloads the generated artifacts, deploys the
    model behind an endpoint and invokes that endpoint, in this order, and
    all its predictions come from the endpoint. The XGBoost notebook has no
    statement that creates an endpoint or invokes one: the one call that
    predicts is a local [predict] on the model it has unpickled. *)
Theorem notebooks_steps :
  (forall store,
     run_all ("train_s3_uri" :: store) autopilot = (sites autopilot, Finished)) /\
  follows_overview (sites autopilot) = true /\
  has_call CreateEndpoint (sites autopilot) = true /\
  predicts_through_endpoint (sites autopilot) = true /\
  has_call CreateEndpoint (sites xgboost) = false /\
  has_call InvokeEndpoint (sites xgboost) = false /\
  prediction_calls (sites xgboost) = [BoosterPredict].
Proof.
  split; [|repeat split; reflexivity].
  intros store. vm_compute. reflexivity.
Qed.

End NotebookProperties.

Module StatusProperties.
Import AutoPilot StatusEnum.

(** The literal 'InProgress' matches no word of the enum. *)
Lemma in_progress_not_in_spec_enum :
  ~ Forall (fun literal => in_spec_enum literal = true) all_compared_literals.
Proof.
  intros H. rewrite Forall_forall in H.
  specialize (H in_progress). 
  assert (In in_progress all_compared_literals) as Hin by (vm_compute; auto).
  apply H in Hin. vm_compute in Hin. discriminate Hin.
Qed.

(** C6, amended. Every literal the polling cells compare a status with is
    either 'InProgress', which the enum of the specification does not list,
    or names a member of that enum: 'Stopped' and 'Failed' name stopped and
    failed, 'AnalyzingData', 'FeatureEngineering' and 'ModelTuning' name
    analyzing, feature-engineering and tuning. *)
Theorem compared_literals_in_enum_or_in_progress :
  Forall (fun literal => literal = in_progress \/ in_spec_enum literal = true)
         all_compared_literals /\
  in_spec_enum in_progress = false /\
  List.map (fun literal => filter (names literal) spec_status_enum)
           (stopped_or_failed ++ [analyzing_data; feature_engineering; model_tuning]) =
    [[str "stopped"]; [str "failed"]; [str "analyzing"];
     [str "feature-engineering"]; [str "tuning"]].
Proof.
  split; [|split; reflexivity].
  unfold all_compared_literals; simpl.
  repeat (constructor; [first [left; reflexivity | right; reflexivity]|]).
  constructor.
Qed.

End StatusProperties.

(** ** Stripping whitespace *)

Module StripFacts.

Lemma lstrip_with_split f s :
  exists a, s = a ++ PyStr.lstrip_with f s /\ forallb f a = true.
Proof.
  induction s as [|c s (a & Hs & Ha)]; simpl.
  - exists []. auto.
  - destruct (f c) eqn:Hc.
    + exists (c :: a). simpl. rewrite Hc, Ha. split; [congruence|reflexivity].
    + exists []. auto.
Qed.

Lemma lstrip_with_head f s :
  match PyStr.lstrip_with f s with
  | [] => True
  | c :: _ => f c = false
  end.
Proof.
  induction s as [|c s IH]; simpl; auto.
  destruct (f c) eqn:Hc; auto.
Qed.

Lemma rstrip_with_split f s :
  exists b, s = PyStr.rstrip_with f s ++ b /\ forallb f b = true.
Proof.
  unfold PyStr.rstrip_with.
  destruct (lstrip_with_split f (rev s)) as (a & Hs & Ha).
  exists (rev a). split.
  - rewrite <- rev_app_distr, <- Hs. now rewrite rev_involutive.
  - rewrite forallb_forall in *. intros x Hx. apply Ha. now apply in_rev.
Qed.

Lemma rstrip_with_last f s :
  match rev (PyStr.rstrip_with f s) with
  | [] => True
  | c :: _ => f c = false
  end.
Proof.
  unfold PyStr.rstrip_with. rewrite rev_involutive. apply lstrip_with_head.
Qed.


Example strip_sample :
  PyStr.strip [32; 160; 49; 32; 48; 12288; 10]%N = [49; 32; 48]%N.
Proof. reflexivity. Qed.

Example decode_sample :
  utf8_decode (List.map Utf8.octet [32; 49; 194; 160; 227; 128; 128; 10]%N) =
    Done [32; 49; 160; 12288; 10]%N.
Proof. reflexivity. Qed.

Example decode_rejects_overlong :
  utf8_decode (List.map Utf8.octet [192; 128]%N) = Raised UnicodeDecodeError.
Proof. reflexivity. Qed.

Example decode_rejects_surrogate :
  utf8_decode (List.map Utf8.octet [237; 160; 128]%N) = Raised UnicodeDecodeError.
Proof. reflexivity. Qed.

Example decode_encode_sample :
  (encoded <~ utf8_encode [128512; 12288; 233; 65]%N ;; utf8_decode encoded) =
    Done [128512; 12288; 233; 65]%N.
Proof. reflexivity. Qed.

End StripFacts.

(** ** Invoking the endpoint *)

Module InvocationProperties.
Import AutoPilot Samples.
Local Open Scope py_scope.

Section Cells.

Variable rt : runtime.
Variable endpoint : pystr.

(** A cell that sends [request] and then decodes and strips the answer. *)
Lemma invoke_decode_strip request w :
  (raw <- invoke_endpoint_read rt request ;;
   text <- lift (utf8_decode raw) ;;
   ret (PyStr.strip text)) w =
  (match rt request with
   | inr raw => decoded <~ utf8_decode raw ;; Done (PyStr.strip decoded)
   | inl e => Raised e
   end,
   {| calls := calls w; trace := trace w ++ [EvInvoke request] |}).
Proof.
  unfold bind at 1, invoke_endpoint_read.
  destruct (rt request) as [e|raw]; [reflexivity|].
  unfold bind, lift, ret, and_then.
  destruct (utf8_decode raw); reflexivity.
Qed.

End Cells.

(** The request an invocation cell sends, when it gets to send one. *)
Lemma invocation_cell_run i rt endpoint w :
  (exists e, invocation_cell i rt endpoint w = (Raised e, w) /\
             exists csv, i = PredictTest csv) \/
  exists request,
    ContentType request = Some (str "text/csv") /\
    EndpointName request = endpoint /\
    invocation_cell i rt endpoint w =
      (match rt request with
       | inr raw => decoded <~ utf8_decode raw ;; Done (PyStr.strip decoded)
       | inl e => Raised e
       end,
       {| calls := calls w; trace := trace w ++ [EvInvoke request] |}).
Proof.
  destruct i as [| |csv]; simpl.
  - right. eexists. split; [|split]; [| |apply invoke_decode_strip]; reflexivity.
  - right. eexists. split; [|split]; [| |apply invoke_decode_strip]; reflexivity.
  - unfold predict_test_cell. unfold bind at 1, lift.
    destruct (utf8_encode (PyStr.rstrip csv)) as [encoded|e|] eqn:He.
    + right. eexists. split; [|split]; [| |apply invoke_decode_strip]; reflexivity.
    + left. exists e. split; [reflexivity|eauto].
    + unfold utf8_encode in He. destruct (Utf8.encode_octets _); discriminate He.
Qed.

Example predict_positive_sample :
  invocation_cell PredictPositive one_endpoint endpoint_name start =
    (Done (str "1"),
     {| calls := 0;
        trace := [EvInvoke {| EndpointName := endpoint_name;
                              ContentType := Some (str "text/csv");
                              Accept := Some (str "text/csv");
                              Body := BodyStr csv_line_predict_positive |}] |}).
Proof. reflexivity. Qed.

Example predict_test_sample :
  fst (invocation_cell (PredictTest (str "11,21" ++ [10%N] ++ str "12,22" ++ [10%N]))
         one_endpoint endpoint_name start) = Done (str "1").
Proof. reflexivity. Qed.

End InvocationProperties.

(** ** Loading a dataset *)

Module DatasetProperties.
Import Pandas Samples.

Lemma label_eqb_eq a b : label_eqb a b = true <-> a = b.
Proof.
  destruct a as [i|s], b as [j|t]; simpl; split; try discriminate.
  - intros H; apply Z.eqb_eq in H; now subst.
  - intros [= ->]; apply Z.eqb_refl.
  - intros H; apply PyStrFacts.eqb_eq in H; now subst.
  - intros [= ->]; apply PyStrFacts.eqb_refl.
Qed.

Lemma label_eqb_refl a : label_eqb a a = true.
Proof. now apply label_eqb_eq. Qed.

Lemma range_labels_length n : List.length (range_labels n) = n.
Proof. unfold range_labels. now rewrite length_map, length_seq. Qed.

Lemma seq_nth_error start n k :
  k < n -> nth_error (seq start n) k = Some (start + k).
Proof.
  revert start k. induction n as [|n IH]; intros start k Hk; [lia|].
  destruct k as [|k]; simpl.
  - now rewrite Nat.add_0_r.
  - rewrite IH by lia. f_equal. lia.
Qed.

(** The label at position [k] of [list(range(0, n))] is [k]. *)
Lemma range_labels_nth n k :
  k < n -> nth_error (range_labels n) k = Some (LInt (Z.of_nat k)).
Proof.
  intros Hk. unfold range_labels.
  rewrite nth_error_map, seq_nth_error by exact Hk. reflexivity.
Qed.

Lemma map_fst_combine {A B} (xs : list A) (ys : list B) :
  List.length xs = List.length ys -> List.map fst (combine xs ys) = xs.
Proof.
  revert ys; induction xs as [|x xs IH]; intros [|y ys]; simpl; try discriminate; auto.
  intros [= H]. now rewrite IH.
Qed.

Lemma map_snd_combine {A B} (xs : list A) (ys : list B) :
  List.length xs = List.length ys -> List.map snd (combine xs ys) = ys.
Proof.
  revert ys; induction xs as [|x xs IH]; intros [|y ys]; simpl; try discriminate; auto.
  intros [= H]. now rewrite IH.
Qed.

Section Split.

Variable value : Type.

(** Dropping a label that no column carries changes nothing. *)
Lemma filter_other_labels (l : label) (cols : list (label * list value)) :
  ~ In l (List.map fst cols) ->
  filter (fun c => negb (label_eqb l (fst c))) cols = cols.
Proof.
  induction cols as [|[k vs] cols IH]; simpl; auto.
  intros Hnot. destruct (label_eqb l k) eqn:E.
  - apply label_eqb_eq in E. subst. exfalso. apply Hnot. now left.
  - simpl. rewrite IH; auto.
Qed.

Lemma row_as_map i (df : DataFrame value) :
  row i df = List.map (fun vs => nth_error vs i) (List.map snd (columns df)).
Proof. unfold row. now rewrite map_map. Qed.

(** The statements the two [load_dataset] functions share, on a table with
    at least one column whose first label is not repeated. *)
Lemma split_label_column_spec (data : DataFrame value) header :
  NoDup (column_labels data) ->
  columns data <> [] ->
  exists features labels,
    split_label_column data header = Done (features, labels) /\
    splits_first_column data header features labels.
Proof.
  unfold column_labels. intros Hnd Hne.
  destruct (columns data) as [|[c0 vs] rest] eqn:Hcols; [congruence|].
  simpl in Hnd. apply NoDup_cons_iff in Hnd as [Hnot _].
  pose (kept := {| index := index data; columns := rest |}).
  assert (Hdrop : drop data c0 = Done kept).
  { unfold drop, column_labels. rewrite Hcols. simpl.
    rewrite label_eqb_refl. simpl. now rewrite filter_other_labels. }
  destruct (header_is_none header) eqn:Hh.
  - exists {| index := index data;
              columns := combine (range_labels (List.length rest)) (List.map snd rest) |}.
    exists {| name := c0; s_index := index data; values := vs |}.
    assert (Hlen : List.length (range_labels (List.length rest)) =
                   List.length (List.map snd rest))
      by now rewrite range_labels_length, length_map.
    split.
    + unfold split_label_column, iloc_column0, columns_getitem0.
      rewrite Hcols. simpl. rewrite Hdrop. simpl. rewrite Hh.
      unfold set_columns, width. simpl.
      now rewrite range_labels_length, Nat.eqb_refl.
    + unfold splits_first_column, width, column_labels. rewrite Hcols. simpl.
      assert (Hw : List.length (combine (range_labels (List.length rest))
                                  (List.map snd rest)) = List.length rest).
      { rewrite length_combine, range_labels_length, length_map. apply Nat.min_id. }
      repeat split; auto.
      * now rewrite map_snd_combine.
      * intros i. rewrite !row_as_map. simpl. rewrite Hcols. simpl.
        now rewrite map_snd_combine.
      * intros _ k Hk. rewrite map_fst_combine by exact Hlen.
        apply range_labels_nth. now rewrite Hw in Hk.
      * intros H. congruence.
  - exists kept, {| name := c0; s_index := index data; values := vs |}.
    split.
    + unfold split_label_column, iloc_column0, columns_getitem0.
      rewrite Hcols. simpl. rewrite Hdrop. simpl. now rewrite Hh.
    + unfold splits_first_column, width, column_labels. rewrite Hcols. simpl.
      repeat split; auto.
      * intros i. unfold row. simpl. now rewrite Hcols.
      * intros H. congruence.
Qed.

End Split.

(** What a parser has read, file by file, are tables it promises. *)
Lemma read_each_parsed (value : Type) read_csv sep header files :
  @parser value read_csv ->
  forall frames,
  XGBoost.read_each read_csv sep header files = Done frames ->
  Forall (@parsed value) frames.
Proof.
  intros Hp. induction files as [|f files IH]; simpl; intros frames H.
  - injection H as <-. constructor.
  - destruct (read_csv f sep header) as [d| |] eqn:Hd; try discriminate H.
    simpl in H.
    destruct (XGBoost.read_each read_csv sep header files) as [ds| |];
      try discriminate H.
    injection H as <-. constructor; [eapply Hp; eauto|now apply IH].
Qed.

(** C8. Let [read_csv] and [pd.concat] be the parser and the concatenation
    of pandas. For every table [data] that [load_dataset] successfully
    parses (what [read_csv] returns in the AutoPilot notebook, what
    [pd.concat] returns for the files read in the XGBoost notebook),
    [load_dataset] returns labels and features such that the labels are
    column 0 of [data], the features are [data] without column 0 (one column
    fewer, the other columns and every row in their order), and, when
    [header] is [None], the feature column at each position [k] is named
    with the integer [k], from 0 to the number of feature columns less one. *)
Theorem load_dataset_splits_first_column
    (value : Type) (header : header_arg)
    (read_csv : pystr -> pystr -> header_arg -> outcome (DataFrame value))
    (glob : pystr -> list pystr)
    (concat : list (DataFrame value) -> outcome (DataFrame value)) :
  parser read_csv ->
  concatenation concat ->
  (forall path sep data,
     read_csv path sep header = Done data ->
     exists features labels,
       AutoPilot.load_dataset read_csv path sep header = Done (features, labels) /\
       splits_first_column data header features labels) /\
  (forall path sep frames data,
     XGBoost.read_each read_csv sep header (glob (path ++ str "/*.csv")) = Done frames ->
     concat frames = Done data ->
     exists features labels,
       XGBoost.load_dataset read_csv glob concat path sep header = Done (features, labels) /\
       splits_first_column data header features labels).
Proof.
  intros Hparser Hconcat. split.
  - intros path sep data Hread.
    destruct (Hparser path sep header data Hread) as [Hne Hnd].
    destruct (@split_label_column_spec value data header Hnd Hne)
      as (features & labels & Hsplit & Hspec).
    exists features, labels. split; [|exact Hspec].
    unfold AutoPilot.load_dataset. rewrite Hread. exact Hsplit.
  - intros path sep frames data Hread Hcat.
    destruct (Hconcat frames data (@read_each_parsed value read_csv sep header _ Hparser frames Hread) Hcat)
      as [Hne Hnd].
    destruct (@split_label_column_spec value data header Hnd Hne)
      as (features & labels & Hsplit & Hspec).
    exists features, labels. split; [|exact Hspec].
    unfold XGBoost.load_dataset. rewrite Hread. simpl. rewrite Hcat. exact Hsplit.
Qed.

Lemma load_dataset_splits_first_column_witness :
  (exists features labels,
     AutoPilot.load_dataset small_read_csv (str "./data/test.csv") (str ",")
       (HeaderRow 0) = Done (features, labels) /\
     splits_first_column (small_table true) (HeaderRow 0) features labels) /\
  (exists features labels,
     XGBoost.load_dataset small_read_csv one_file_glob single_concat
       (str "./output/test") (str ",") HeaderNone = Done (features, labels) /\
     splits_first_column (small_table false) HeaderNone features labels).
Proof.
  assert (Hparser : parser small_read_csv).
  { intros path sep header data H. injection H as <-.
    split; destruct header; simpl;
      solve [discriminate | repeat constructor; simpl; intuition discriminate]. }
  assert (Hconcat : concatenation single_concat).
  { intros frames data Hall H.
    destruct frames as [|d [|d' frames]]; try discriminate H.
    injection H as <-. now inversion Hall. }
  split.
  - apply (proj1 (@load_dataset_splits_first_column Z (HeaderRow 0) small_read_csv
                    one_file_glob single_concat Hparser Hconcat)).
    reflexivity.
  - apply (proj2 (@load_dataset_splits_first_column Z HeaderNone small_read_csv
                    one_file_glob single_concat Hparser Hconcat))
      with (frames := [small_table false]).
    + reflexivity.
    + reflexivity.
Defined.

(** On the sample table read without a header row the two feature columns
    are named 0 and 1. *)
Example header_none_names_sample :
  exists features labels,
    XGBoost.load_dataset small_read_csv one_file_glob single_concat
      (str "./output/test") (str ",") HeaderNone = Done (features, labels) /\
    column_labels features = [LInt 0; LInt 1].
Proof. eexists. eexists. split; reflexivity. Qed.

(** The two notebooks' calls on the sample table. *)
Example load_dataset_autopilot_sample :
  AutoPilot.load_dataset small_read_csv (str "./data/test.csv") (str ",") (HeaderRow 0) =
    Done ({| index := [0; 1]%Z;
             columns := [(LStr (str "review_body"), [11; 12]%Z);
                         (LStr (str "star_rating"), [21; 22]%Z)] |},
          {| name := LStr (str "is_positive_sentiment");
             s_index := [0; 1]%Z; values := [1; 0]%Z |}).
Proof. reflexivity. Qed.

Example load_dataset_xgboost_sample :
  XGBoost.load_dataset small_read_csv one_file_glob single_concat
    (str "./output/test") (str ",") HeaderNone =
    Done ({| index := [0; 1]%Z;
             columns := [(LInt 0, [11; 12]%Z); (LInt 1, [21; 22]%Z)] |},
          {| name := LInt 0; s_index := [0; 1]%Z; values := [1; 0]%Z |}).
Proof. reflexivity. Qed.

End DatasetProperties.

(** ** Thresholding the predictions *)

Module ThresholdProperties.
Import Numpy XGBoost Samples.

Local Open Scope Z_scope.

Lemma digits2_pos_bounds (m : positive) :
  2 ^ (Z.pos (digits2_pos m) - 1) <= Z.pos m < 2 ^ Z.pos (digits2_pos m).
Proof.
  induction m as [m IH|m IH|]; simpl digits2_pos.
  - rewrite Pos2Z.inj_succ.
    replace (Z.succ (Z.pos (digits2_pos m)) - 1) with (Z.succ (Z.pos (digits2_pos m) - 1)) by lia.
    rewrite !Z.pow_succ_r by lia. lia.
  - rewrite Pos2Z.inj_succ.
    replace (Z.succ (Z.pos (digits2_pos m)) - 1) with (Z.succ (Z.pos (digits2_pos m) - 1)) by lia.
    rewrite !Z.pow_succ_r by lia. lia.
  - simpl. lia.
Qed.

(** On single-precision floats, [x > 0.5] as the comparison computes it is
    the order of the numbers. *)
Lemma greater_than_half_correct (x : spec_float) :
  valid_binary prec emax x = true ->
  (SFltb half x = true <-> above_half x).
Proof.
  destruct x as [s|s| |s m e]; simpl.
  - intros _. destruct s; split; (discriminate || contradiction).
  - intros _. destruct s; unfold SFltb; simpl; split; auto; (discriminate || contradiction).
  - intros _. split; (discriminate || contradiction).
  - unfold bounded, canonical_mantissa, fexp, emin, prec, emax.
    intros Hv. apply andb_true_iff in Hv as [Hc _]. apply Z.eqb_eq in Hc.
    pose proof (digits2_pos_bounds m) as [Hlo Hhi].
    destruct s; cbv [SFltb SFcompare half]; [split; (discriminate || contradiction)|].
    destruct (Z.compare_spec (-24) e) as [He|He|He].
    + subst e. change (- -24) with 24. change (2 ^ 24) with 16777216. change (Pos.compare_cont Eq 8388608 m) with (Pos.compare 8388608 m).
      destruct (Pos.compare_spec 8388608 m) as [Hm|Hm|Hm]; split; intros H;
        try discriminate; try reflexivity; try lia.
    + split; [intros _|reflexivity].
      assert (Hd : Z.pos (digits2_pos m) = 24) by lia.
      rewrite Hd in Hlo. simpl in Hlo.
      assert (2 ^ (- e) <= 2 ^ 23).
      { destruct (Z.le_gt_cases 0 (- e)).
        - apply Z.pow_le_mono_r; lia.
        - rewrite Z.pow_neg_r by lia. lia. }
      change (2 ^ 23) with 8388608 in *. lia.
    + split; [discriminate|intros H; exfalso].
      assert (Hd : Z.pos (digits2_pos m) <= 24) by lia.
      assert (2 ^ Z.pos (digits2_pos m) <= 2 ^ 24) by (apply Z.pow_le_mono_r; lia).
      assert (2 ^ 25 <= 2 ^ (- e)) by (apply Z.pow_le_mono_r; lia).
      change (2 ^ 24) with 16777216 in *. change (2 ^ 25) with 33554432 in *. lia.
Qed.


Local Close Scope Z_scope.

(** C9. The binarised predictions have the shape of the predictions and as
    many elements, and element by element they are 1 where the prediction is
    greater than 0.5 and 0 elsewhere: for a single-precision prediction the
    comparison is the order of the numbers, and a prediction equal to 0.5
    gives 0. *)
Theorem threshold_is_elementwise (preds_test : ndarray spec_float) :
  shape (preds_test_0_or_1 preds_test) = shape preds_test /\
  List.length (data (preds_test_0_or_1 preds_test)) = List.length (data preds_test) /\
  (forall i,
     flat (preds_test_0_or_1 preds_test) i =
       option_map (fun v => if SFltb half v then 1%Z else 0%Z) (flat preds_test i)) /\
  (forall i v,
     flat preds_test i = Some v ->
     valid_binary prec emax v = true ->
     (above_half v -> flat (preds_test_0_or_1 preds_test) i = Some 1%Z) /\
     (~ above_half v -> flat (preds_test_0_or_1 preds_test) i = Some 0%Z)) /\
  (forall i,
     flat preds_test i = Some half ->
     flat (preds_test_0_or_1 preds_test) i = Some 0%Z).
Proof.
  assert (Hflat : forall i,
     flat (preds_test_0_or_1 preds_test) i =
       option_map (fun v => if SFltb half v then 1%Z else 0%Z) (flat preds_test i)).
  { intros i. unfold flat, preds_test_0_or_1, where_, greater. simpl.
    rewrite map_map. apply nth_error_map. }
  split; [reflexivity|]. split.
  { unfold preds_test_0_or_1, where_, greater. simpl. now rewrite !length_map. }
  split; [exact Hflat|]. split.
  - intros i v Hv Hvalid. rewrite Hflat, Hv. simpl.
    pose proof (greater_than_half_correct v Hvalid) as Hiff.
    destruct (SFltb half v); split; intros H; try reflexivity.
    + exfalso. apply H. now apply Hiff.
    + apply Hiff in H. discriminate H.
  - intros i Hv. rewrite Hflat, Hv. reflexivity.
Qed.

Lemma threshold_is_elementwise_witness :
  flat (preds_test_0_or_1 some_predictions) 0 = Some 0%Z /\
  flat (preds_test_0_or_1 some_predictions) 2 = Some 1%Z /\
  shape (preds_test_0_or_1 some_predictions) = [4].
Proof.
  destruct (threshold_is_elementwise some_predictions) as (Hshape & _ & _ & Horder & Hhalf).
  split; [apply Hhalf; reflexivity|]. split; [|exact Hshape].
  apply (Horder 2 (S754_finite false 8388609 (-24))); [reflexivity|reflexivity|].
  simpl. lia.
Defined.

Example threshold_sample :
  preds_test_0_or_1 some_predictions =
    {| shape := [4]; data := [0; 0; 1; 1]%Z |}.
Proof. reflexivity. Qed.

End ThresholdProperties.

(** ** The polling cells: counts, failures and what they leave behind *)

Module TrackingProperties.

Import AutoPilot PollingFacts CellFacts PollingProperties Tracking Samples MoreSamples.

Local Open Scope py_scope.

Section Service.

Variable sm : service.
Variable name : pystr.

Lemma observed_or_failure n :
  (exists l, observed sm n = Some l /\ query_failure sm n = None) \/
  (exists e, observed sm n = None /\ query_failure sm n = Some e).
Proof.
  unfold observed, query_failure.
  destruct (sm n) as [e|d]; [right; eauto|].
  destruct (lookup (str "AutoMLJobStatus") d); [|right; eauto].
  destruct (lookup (str "AutoMLJobSecondaryStatus") d); [left|right]; eauto.
Qed.

Lemma query_fails w e :
  query_failure sm (calls w) = Some e ->
  query sm name w =
    (Raised e, {| calls := S (calls w); trace := trace w ++ [EvDescribe name] |}).
Proof.
  unfold query_failure, query, describe_auto_ml_job, bind, lift, dict_getitem, ret.
  destruct (sm (calls w)) as [e'|d]; [now intros [= ->]|].
  destruct (lookup (str "AutoMLJobStatus") d); [|now intros [= <-]].
  destruct (lookup (str "AutoMLJobSecondaryStatus") d); [discriminate|now intros [= <-]].
Qed.

Lemma cell_first_query_fails p fuel w e :
  query_failure sm (calls w) = Some e ->
  polling_cell p sm name fuel w =
    (Raised e, {| calls := S (calls w);
                  trace := trace w ++ opening_describe p name |}).
Proof.
  intros H.
  destruct p; unfold polling_cell, analyzing_data_cell, feature_engineering_cell,
    model_tuning_cell.
  - unfold bind at 1, sleep, emit. unfold bind at 1.
    rewrite (@query_fails {| calls := calls w; trace := trace w ++ [EvSleep 3] |} e H).
    simpl. now rewrite <- app_assoc.
  - unfold bind at 1. now rewrite (@query_fails w e H).
  - unfold bind at 1. now rewrite (@query_fails w e H).
Qed.

(** The loop gets through the iterations of a [polling] run and goes on
    from where the run stands, with the budget that is left. *)
Lemma poll_loop_prefix target c l ls lf :
  polling sm target c l ls lf ->
  forall fuel w, calls w = c ->
  poll_loop sm name (List.length ls + fuel) target l w =
  poll_loop sm name fuel target lf
    {| calls := c + List.length ls;
       trace := trace w ++ flat_map (iteration_events name) ls |}.
Proof.
  induction 1 as [c l | c l l' ls lf Hc Hobs _ IH]; intros fuel w Hw.
  - simpl. rewrite Nat.add_0_r, app_nil_r. destruct w; simpl in *; now subst.
  - unfold poll_loop in *. simpl. unfold bind at 1, poll_cond, lift. rewrite Hc.
    unfold bind at 1. subst c. rewrite (@poll_body_observed sm name w l l' Hobs).
    rewrite (IH fuel); simpl; [|reflexivity].
    f_equal. f_equal; [lia|]. now rewrite <- app_assoc.
Qed.

Lemma poll_loop_test_raises target fuel l w e :
  loop_test target l = Raised e ->
  poll_loop sm name fuel target l w = (Raised e, w).
Proof.
  intros H. unfold poll_loop. destruct fuel; simpl;
    unfold bind, poll_cond, lift; now rewrite H.
Qed.

Lemma poll_loop_query_fails target fuel l w e :
  loop_test target l = Done true ->
  query_failure sm (calls w) = Some e ->
  poll_loop sm name (S fuel) target l w =
    (Raised e, {| calls := S (calls w); trace := trace w ++ [EvDescribe name] |}).
Proof.
  intros Hc Hq. unfold poll_loop. simpl. unfold bind at 1, poll_cond, lift.
  rewrite Hc. unfold bind at 1, poll_body. unfold bind at 1.
  now rewrite (@query_fails w e Hq).
Qed.

Lemma guarded_poll_raises fuel target message l w e w' :
  in_tuple (job_status l) stopped_or_failed = false ->
  poll_loop sm name fuel target l w = (Raised e, w') ->
  guarded_poll sm name fuel target message l w = (Raised e, w').
Proof.
  intros Hg Hl. unfold guarded_poll. rewrite Hg. simpl.
  unfold bind at 1. unfold bind at 1. now rewrite Hl.
Qed.

Lemma observed_answer n l :
  observed sm n = Some l ->
  sm n = inr (job l) /\
  lookup (str "AutoMLJobStatus") (job l) = Some (job_status l) /\
  lookup (str "AutoMLJobSecondaryStatus") (job l) = Some (job_sec_status l).
Proof.
  unfold observed. destruct (sm n) as [e|d]; [discriminate|].
  destruct (lookup (str "AutoMLJobStatus") d) as [st|] eqn:Hs; [|discriminate].
  destruct (lookup (str "AutoMLJobSecondaryStatus") d) as [sec|] eqn:Ht; [|discriminate].
  intros [= <-]. simpl. auto.
Qed.

(** A loop that exits leaves the variables of the last answer, and its
    test is false on them. *)
Lemma polls_last target c' l ls lf :
  polls sm target c' l ls lf ->
  forall c, c' = S c -> observed sm c = Some l ->
  observed sm (c + List.length ls) = Some lf /\ loop_test target lf = Done false.
Proof.
  induction 1 as [c' l Hc | c' l l' ls lf Hc Hobs _ IH]; intros c -> Hl.
  - simpl. rewrite Nat.add_0_r. auto.
  - destruct (IH (S c) eq_refl Hobs) as [Hlast Hf].
    simpl. rewrite <- plus_n_Sm. auto.
Qed.

Lemma describes_app a b : describes (a ++ b) = describes a + describes b.
Proof. unfold describes. now rewrite filter_app, length_app. Qed.

Lemma slept_app a b : slept (a ++ b) = (slept a + slept b)%Z.
Proof.
  induction a as [|e a IH]; [reflexivity|].
  destruct e; simpl; rewrite IH; lia.
Qed.

Lemma describes_iterations ls :
  describes (flat_map (iteration_events name) ls) = List.length ls.
Proof.
  induction ls as [|l ls IH]; [reflexivity|].
  change (flat_map (iteration_events name) (l :: ls))
    with (iteration_events name l ++ flat_map (iteration_events name) ls).
  rewrite describes_app, IH. reflexivity.
Qed.

Lemma slept_iterations ls :
  slept (flat_map (iteration_events name) ls) = (30 * Z.of_nat (List.length ls))%Z.
Proof.
  induction ls as [|l ls IH]; [reflexivity|].
  change (flat_map (iteration_events name) (l :: ls))
    with (iteration_events name l ++ flat_map (iteration_events name) ls).
  rewrite slept_app, IH. simpl List.length. rewrite Nat2Z.inj_succ.
  change (slept (iteration_events name l)) with 30%Z. lia.
Qed.

Lemma preamble_counts p l :
  describes (preamble p name l) = 1 /\ slept (preamble p name l) = opening_sleep p.
Proof. destruct p; split; reflexivity. Qed.

End Service.

(** X1. When the first describe call of a polling cell raises, or its
    answer has no 'AutoMLJobStatus' or no 'AutoMLJobSecondaryStatus' key,
    the cell raises that error or the [KeyError] of the missing key after
    this one call, and has printed nothing. *)
Theorem first_answer_failure_ends_cell p sm name fuel w :
  (forall e, sm (calls w) = inl e ->
     fst (polling_cell p sm name fuel w) = Raised e) /\
  (forall d, sm (calls w) = inr d ->
     lookup (str "AutoMLJobStatus") d = None ->
     fst (polling_cell p sm name fuel w) =
       Raised (KeyError (VStr (str "AutoMLJobStatus")))) /\
  (forall d, sm (calls w) = inr d ->
     lookup (str "AutoMLJobStatus") d <> None ->
     lookup (str "AutoMLJobSecondaryStatus") d = None ->
     fst (polling_cell p sm name fuel w) =
       Raised (KeyError (VStr (str "AutoMLJobSecondaryStatus")))) /\
  (observed sm (calls w) = None ->
     exists evs,
       snd (polling_cell p sm name fuel w) =
         {| calls := S (calls w); trace := trace w ++ evs |} /\
       describes evs = 1 /\ prints evs = []).
Proof.
  repeat split.
  - intros e He.
    rewrite (@cell_first_query_fails sm name p fuel w e); [reflexivity|].
    unfold query_failure. now rewrite He.
  - intros d Hd Hs.
    rewrite (@cell_first_query_fails sm name p fuel w
               (KeyError (VStr (str "AutoMLJobStatus")))); [reflexivity|].
    unfold query_failure. now rewrite Hd, Hs.
  - intros d Hd Hs Ht.
    rewrite (@cell_first_query_fails sm name p fuel w
               (KeyError (VStr (str "AutoMLJobSecondaryStatus")))); [reflexivity|].
    unfold query_failure. rewrite Hd, Ht.
    destruct (lookup (str "AutoMLJobStatus") d); congruence.
  - intros Hobs.
    destruct (observed_or_failure sm (calls w)) as [(l & Hl & _)|(e & _ & He)];
      [congruence|].
    exists (opening_describe p name).
    rewrite (@cell_first_query_fails sm name p fuel w e He).
    destruct p; repeat split.
Qed.

Lemma first_answer_failure_ends_cell_witness :
  fst (polling_cell ModelTuning truncated_service job_name 3
         {| calls := 1; trace := [] |}) =
    Raised (KeyError (VStr (str "AutoMLJobSecondaryStatus"))) /\
  fst (polling_cell AnalyzingData throttled_service job_name 3
         {| calls := 2; trace := [] |}) =
    Raised (ClientError (str "ThrottlingException")).
Proof.
  split.
  - apply (proj1 (proj2 (proj2 (first_answer_failure_ends_cell ModelTuning
             truncated_service job_name 3 {| calls := 1; trace := [] |})))
             [(str "AutoMLJobStatus", VStr (str "InProgress"))]).
    + reflexivity.
    + discriminate.
    + reflexivity.
  - apply (proj1 (first_answer_failure_ends_cell AnalyzingData
             throttled_service job_name 3 {| calls := 2; trace := [] |})).
    reflexivity.
Defined.

(** X2. When a describe call inside the loop raises, or its answer lacks a
    status key, the cell raises that error at once: it makes no further
    call, and neither the completion message nor the description is
    printed after the failed call. *)
Theorem failure_while_polling_ends_cell p sm name w l0 ls lf e fuel :
  observed sm (calls w) = Some l0 ->
  in_tuple (job_status l0) stopped_or_failed = false ->
  polling sm (target_of p) (S (calls w)) l0 ls lf ->
  loop_test (target_of p) lf = Done true ->
  query_failure sm (S (calls w) + List.length ls) = Some e ->
  List.length ls < fuel ->
  polling_cell p sm name fuel w =
    (Raised e,
     {| calls := S (S (calls w) + List.length ls);
        trace := trace w ++ preamble p name l0 ++
                 flat_map (iteration_events name) ls ++ [EvDescribe name] |}).
Proof.
  intros Hobs Hg Hp Hc Hq Hfuel.
  rewrite (@cell_unfold sm name p fuel w l0 Hobs).
  apply guarded_poll_raises; [exact Hg|].
  replace fuel with (List.length ls + S (fuel - S (List.length ls))) by lia.
  rewrite (@poll_loop_prefix sm name (target_of p) (S (calls w)) l0 ls lf Hp
             (S (fuel - S (List.length ls)))
             {| calls := S (calls w); trace := trace w ++ preamble p name l0 |} eq_refl).
  cbn [calls trace].
  rewrite (@poll_loop_query_fails sm name (target_of p) (fuel - S (List.length ls)) lf
             {| calls := S (calls w) + List.length ls;
                trace := (trace w ++ preamble p name l0) ++
                         flat_map (iteration_events name) ls |} e Hc Hq).
  simpl. now rewrite <- !app_assoc.
Qed.

Lemma failure_while_polling_ends_cell_witness :
  polling_cell FeatureEngineering throttled_service job_name 5 start =
    (Raised (ClientError (str "ThrottlingException")),
     {| calls := 3;
        trace := trace start ++
                 preamble FeatureEngineering job_name (seen "InProgress" "FeatureEngineering") ++
                 flat_map (iteration_events job_name) [seen "InProgress" "FeatureEngineering"] ++
                 [EvDescribe job_name] |}).
Proof.
  apply (@failure_while_polling_ends_cell FeatureEngineering throttled_service job_name
           start (seen "InProgress" "FeatureEngineering")
           [seen "InProgress" "FeatureEngineering"]
           (seen "InProgress" "FeatureEngineering")).
  - reflexivity.
  - reflexivity.
  - apply polling_step with (l' := seen "InProgress" "FeatureEngineering");
      [reflexivity|reflexivity|apply polling_here].
  - reflexivity.
  - reflexivity.
  - simpl. lia.
Defined.

Lemma loop_test_type_error target l :
  (forall s, job_status l <> VStr s) \/
  (exists s, job_status l = VStr s /\ PyStr.contains in_progress s = true /\
             forall t, job_sec_status l <> VStr t) ->
  loop_test target l = Raised TypeError.
Proof.
  unfold loop_test, in_str, and_then. intros [Hs|(s & Hs & Hc & Ht)].
  - destruct (job_status l) as [| | |s| |]; try reflexivity. now destruct (Hs s).
  - rewrite Hs, Hc. destruct (job_sec_status l) as [| | |t| |]; try reflexivity.
    now destruct (Ht t).
Qed.

(** X3. When the job status a polling cell has read is not a string, or is
    a part of 'InProgress' while the secondary status is not a string, the
    loop test raises [TypeError]: the cell ends with that error, with no
    further call, and prints neither the completion message nor the
    description. A job status that is not a string always passes the
    'Stopped'/'Failed' guard. *)
Theorem non_string_status_raises_type_error p sm name w l0 ls lf fuel :
  observed sm (calls w) = Some l0 ->
  in_tuple (job_status l0) stopped_or_failed = false ->
  polling sm (target_of p) (S (calls w)) l0 ls lf ->
  ((forall s, job_status lf <> VStr s) \/
   (exists s, job_status lf = VStr s /\ PyStr.contains in_progress s = true /\
              forall t, job_sec_status lf <> VStr t)) ->
  List.length ls <= fuel ->
  polling_cell p sm name fuel w =
    (Raised TypeError,
     {| calls := S (calls w) + List.length ls;
        trace := trace w ++ preamble p name l0 ++
                 flat_map (iteration_events name) ls |}) /\
  ((forall s, job_status l0 <> VStr s) ->
   forall t, in_tuple (job_status l0) t = false).
Proof.
  intros Hobs Hg Hp Hbad Hfuel. split.
  - rewrite (@cell_unfold sm name p fuel w l0 Hobs).
    apply guarded_poll_raises; [exact Hg|].
    replace fuel with (List.length ls + (fuel - List.length ls)) by lia.
    rewrite (@poll_loop_prefix sm name (target_of p) (S (calls w)) l0 ls lf Hp
               (fuel - List.length ls)
               {| calls := S (calls w); trace := trace w ++ preamble p name l0 |} eq_refl).
    cbn [calls trace].
    rewrite poll_loop_test_raises with (e := TypeError)
      by now apply loop_test_type_error.
    now rewrite <- !app_assoc.
  - intros Hs t. unfold in_tuple, eq_str.
    destruct (job_status l0) as [| | |s| |]; try (induction t; simpl; auto).
    now destruct (Hs s).
Qed.

Lemma non_string_status_raises_type_error_witness :
  polling_cell AnalyzingData null_status_service job_name 2 start =
    (Raised TypeError,
     {| calls := 1; trace := [EvSleep 3; EvDescribe job_name] |}).
Proof.
  pose (l0 := {| job := [(str "AutoMLJobStatus", VNone);
                         (str "AutoMLJobSecondaryStatus", VStr (str "AnalyzingData"))];
                 job_status := VNone;
                 job_sec_status := VStr (str "AnalyzingData") |}).
  apply (proj1 (@non_string_status_raises_type_error AnalyzingData null_status_service
                  job_name start l0 [] l0 2 eq_refl eq_refl
                  (polling_here null_status_service analyzing_data 1 l0)
                  (or_introl (fun s (H : VNone = VStr s) =>
                                False_ind False (eq_ind VNone
                                  (fun v => match v with VNone => True | _ => False end)
                                  I (VStr s) H)))
                  (Nat.le_0_l 2))).
Defined.

(** X4. A polling cell whose loop exits after [k] iterations has made
    [k + 1] describe calls and has slept 30 seconds for each iteration, and
    3 seconds more in the data analysis cell. *)
Theorem completed_cell_counts p sm name w l0 ls lf fuel :
  observed sm (calls w) = Some l0 ->
  in_tuple (job_status l0) stopped_or_failed = false ->
  polls sm (target_of p) (S (calls w)) l0 ls lf ->
  List.length ls <= fuel ->
  exists w' evs,
    polling_cell p sm name fuel w = (Done lf, w') /\
    trace w' = trace w ++ evs /\
    calls w' = calls w + 1 + List.length ls /\
    describes evs = 1 + List.length ls /\
    slept evs = (opening_sleep p + 30 * Z.of_nat (List.length ls))%Z.
Proof.
  intros Hobs Hg Hp Hfuel.
  eexists. eexists.
  split; [apply (@cell_completes sm name p fuel w l0 ls lf Hobs Hg Hp Hfuel)|].
  cbn [calls trace]. split; [reflexivity|]. split; [lia|].
  destruct (preamble_counts name p l0) as [Hd Hs].
  split.
  - rewrite !describes_app, Hd, describes_iterations.
    change (describes [EvPrint [VStr (message_of p)]; EvPrint [VDict (job lf)]]) with 0.
    lia.
  - rewrite !slept_app, Hs, slept_iterations.
    change (slept [EvPrint [VStr (message_of p)]; EvPrint [VDict (job lf)]]) with 0%Z.
    lia.
Qed.

Lemma completed_cell_counts_witness :
  exists w' evs,
    polling_cell AnalyzingData analysing_service job_name 10 start =
      (Done (seen "InProgress" "FeatureEngineering"), w') /\
    trace w' = trace start ++ evs /\
    calls w' = 4 /\
    describes evs = 4 /\
    slept evs = 93%Z.
Proof.
  apply (@completed_cell_counts AnalyzingData analysing_service job_name start
           (seen "InProgress" "AnalyzingData")
           [seen "InProgress" "AnalyzingData"; seen "InProgress" "AnalyzingData";
            seen "InProgress" "FeatureEngineering"]
           (seen "InProgress" "FeatureEngineering") 10).
  - reflexivity.
  - reflexivity.
  - repeat (apply polls_step with (l' := _); [reflexivity|reflexivity|]).
    apply polls_exit. reflexivity.
  - simpl. lia.
Defined.

(** X5. When a polling cell ends, its [job] is the answer to the last
    describe call it made and [job_status] and [job_sec_status] are the two
    status fields of that answer; either the job status is 'Stopped' or
    'Failed', or the loop test is false on these two. *)
Theorem completed_cell_leaves_last_answer p sm name fuel w lf w' :
  polling_cell p sm name fuel w = (Done lf, w') ->
  calls w < calls w' /\
  sm (pred (calls w')) = inr (job lf) /\
  lookup (str "AutoMLJobStatus") (job lf) = Some (job_status lf) /\
  lookup (str "AutoMLJobSecondaryStatus") (job lf) = Some (job_sec_status lf) /\
  (in_tuple (job_status lf) stopped_or_failed = true \/
   loop_test (target_of p) lf = Done false).
Proof.
  intros Hrun.
  destruct (observed_or_failure sm (calls w)) as [(l0 & Hobs & _)|(e & _ & He)].
  2:{ rewrite (@cell_first_query_fails sm name p fuel w e He) in Hrun. discriminate Hrun. }
  destruct (in_tuple (job_status l0) stopped_or_failed) eqn:Hg.
  - rewrite (@cell_skips sm name p fuel w l0 Hobs Hg) in Hrun.
    injection Hrun as <- <-. cbn [calls pred].
    destruct (observed_answer sm (calls w) Hobs) as (Ha & Hs & Ht).
    repeat split; auto.
  - destruct (@cell_done sm name p fuel w l0 lf w' Hobs Hg Hrun) as (ls & Hp & Hlen).
    rewrite (@cell_completes sm name p fuel w l0 ls lf Hobs Hg Hp Hlen) in Hrun.
    injection Hrun as <-. cbn [calls pred]. 
    destruct (@polls_last sm (target_of p) _ _ _ _ Hp (calls w) eq_refl Hobs) as [Hlast Hf].
    destruct (observed_answer sm _ Hlast) as (Ha & Hs & Ht).
    replace (pred (S (calls w) + List.length ls)) with (calls w + List.length ls) by lia.
    repeat split; auto. lia.
Qed.

Lemma completed_cell_leaves_last_answer_witness :
  calls start < 2 /\
  failing_service 1 = inr (job (seen "Failed" "Failed")) /\
  lookup (str "AutoMLJobStatus") (job (seen "Failed" "Failed")) = Some (VStr (str "Failed")) /\
  lookup (str "AutoMLJobSecondaryStatus") (job (seen "Failed" "Failed")) =
    Some (VStr (str "Failed")) /\
  (in_tuple (VStr (str "Failed")) stopped_or_failed = true \/
   loop_test analyzing_data (seen "Failed" "Failed") = Done false).
Proof.
  apply (@completed_cell_leaves_last_answer AnalyzingData failing_service job_name 4 start
           (seen "Failed" "Failed")
           {| calls := 2;
              trace := [EvSleep 3; EvDescribe job_name; EvDescribe job_name;
                        EvPrint [VStr (str "Failed"); VStr (str "Failed")];
                        EvSleep 30;
                        EvPrint [VStr (str "Data analysis complete")];
                        EvPrint [VDict (description "Failed" "Failed")]] |}).
  reflexivity.
Defined.

Lemma describe_cell_run sm name w d :
  sm (calls w) = inr d ->
  describe_cell sm name w =
    (Done d, {| calls := S (calls w);
                trace := trace w ++ [EvDescribe name; EvPrint [VDict d]] |}).
Proof.
  intros H. unfold describe_cell, bind, describe_auto_ml_job, print, emit, ret.
  rewrite H. simpl. now rewrite <- app_assoc.
Qed.

(** X6. Run on a job that has stopped or failed before the first of them,
    the four tracking cells go through all the same: each makes its one
    describe call, four in all, the only sleep is the opening 3 seconds,
    and what is printed is the description (after the two statuses in the
    last two cells) and no completion message. *)
Theorem tracking_a_stopped_or_failed_job sm name w fuel l0 d1 l2 l3 :
  observed sm (calls w) = Some l0 ->
  sm (1 + calls w) = inr d1 ->
  observed sm (2 + calls w) = Some l2 ->
  observed sm (3 + calls w) = Some l3 ->
  in_tuple (job_status l0) stopped_or_failed = true ->
  in_tuple (job_status l2) stopped_or_failed = true ->
  in_tuple (job_status l3) stopped_or_failed = true ->
  tracking_cells sm name fuel w =
    (Done l3,
     {| calls := 4 + calls w;
        trace := trace w ++
                 [EvSleep 3; EvDescribe name; EvPrint [VDict (job l0)];
                  EvDescribe name; EvPrint [VDict d1];
                  EvDescribe name; EvPrint [job_status l2]; EvPrint [job_sec_status l2];
                  EvPrint [VDict (job l2)];
                  EvDescribe name; EvPrint [job_status l3]; EvPrint [job_sec_status l3];
                  EvPrint [VDict (job l3)]] |}).
Proof.
  intros H0 H1 H2 H3 G0 G2 G3. unfold tracking_cells.
  change (analyzing_data_cell sm name fuel) with (polling_cell AnalyzingData sm name fuel).
  change (feature_engineering_cell sm name fuel)
    with (polling_cell FeatureEngineering sm name fuel).
  change (model_tuning_cell sm name fuel) with (polling_cell ModelTuning sm name fuel).
  unfold bind at 1.
  rewrite (@cell_skips sm name AnalyzingData fuel w l0 H0 G0).
  set (w1 := {| calls := S (calls w);
                trace := trace w ++ preamble AnalyzingData name l0 ++
                         [EvPrint [VDict (job l0)]] |}).
  unfold bind at 1. rewrite (@describe_cell_run sm name w1 d1 H1).
  set (w2 := {| calls := S (calls w1);
                trace := trace w1 ++ [EvDescribe name; EvPrint [VDict d1]] |}).
  unfold bind at 1.
  rewrite (@cell_skips sm name FeatureEngineering fuel w2 l2 H2 G2).
  set (w3 := {| calls := S (calls w2);
                trace := trace w2 ++ preamble FeatureEngineering name l2 ++
                         [EvPrint [VDict (job l2)]] |}).
  rewrite (@cell_skips sm name ModelTuning fuel w3 l3 H3 G3).
  subst w3 w2 w1. cbn [calls trace preamble]. now rewrite <- !app_assoc.
Qed.

Lemma tracking_a_stopped_or_failed_job_witness :
  tracking_cells failed_service job_name 0 start =
    (Done (seen "Failed" "Failed"),
     {| calls := 4;
        trace := trace start ++
                 [EvSleep 3; EvDescribe job_name;
                  EvPrint [VDict (description "Failed" "Failed")];
                  EvDescribe job_name; EvPrint [VDict (description "Failed" "Failed")];
                  EvDescribe job_name; EvPrint [VStr (str "Failed")];
                  EvPrint [VStr (str "Failed")];
                  EvPrint [VDict (description "Failed" "Failed")];
                  EvDescribe job_name; EvPrint [VStr (str "Failed")];
                  EvPrint [VStr (str "Failed")];
                  EvPrint [VDict (description "Failed" "Failed")]] |}).
Proof.
  apply (@tracking_a_stopped_or_failed_job failed_service job_name start 0
           (seen "Failed" "Failed") (description "Failed" "Failed")
           (seen "Failed" "Failed") (seen "Failed" "Failed"));
    reflexivity.
Defined.

End TrackingProperties.

(** ** The polling cells have no bound of their own *)

Module UnboundedPolling.

Import AutoPilot PollingFacts CellFacts PollingProperties Tracking TrackingProperties
       Samples MoreSamples.

Local Open Scope py_scope.

(** While every answer keeps the loop test true, the loop gets through
    any number of iterations. *)
Lemma polling_goes_on sm target :
  forall k c l,
  loop_test target l = Done true ->
  (forall n, c <= n ->
     exists l', observed sm n = Some l' /\ loop_test target l' = Done true) ->
  exists ls lf,
    polling sm target c l ls lf /\ List.length ls = k /\
    loop_test target lf = Done true.
Proof.
  induction k as [|k IH]; intros c l Hl Hall.
  - exists [], l. repeat split; [constructor|exact Hl].
  - destruct (Hall c (Nat.le_refl c)) as (l' & Hobs & Hl').
    destruct (IH (S c) l' Hl') as (ls & lf & Hp & Hlen & Hlf).
    { intros n Hn. apply Hall. lia. }
    exists (l' :: ls), lf. repeat split; [|simpl; lia|exact Hlf].
    now apply polling_step with (l' := l').
Qed.

(** X20. A polling cell has no timeout and no bound on its iterations:
    against a service that keeps answering 'InProgress' with the phase of
    the cell, a cell given a budget of [n] iterations makes all [n] of them
    ([n + 1] describe calls) and is still running, for every [n]. *)
Theorem polling_has_no_bound p sm name w fuel :
  (forall n, calls w <= n ->
     exists l, observed sm n = Some l /\
               job_status l = VStr in_progress /\
               job_sec_status l = VStr (target_of p)) ->
  exists w',
    polling_cell p sm name fuel w = (Running, w') /\
    calls w' = calls w + 1 + fuel.
Proof.
  intros Hall.
  assert (Hgood : forall l, job_status l = VStr in_progress ->
            job_sec_status l = VStr (target_of p) ->
            loop_test (target_of p) l = Done true).
  { intros l Hs Ht. apply loop_test_true. exists in_progress, (target_of p).
    repeat split; auto. destruct p; reflexivity. }
  destruct (Hall (calls w) (Nat.le_refl _)) as (l0 & Hobs & Hs0 & Ht0).
  assert (Hg : in_tuple (job_status l0) stopped_or_failed = false) by now rewrite Hs0.
  destruct (@polling_goes_on sm (target_of p) fuel (S (calls w)) l0 (Hgood l0 Hs0 Ht0))
    as (ls & lf & Hp & Hlen & Hlf).
  { intros n Hn. destruct (Hall n) as (l & Hl & Hs & Ht); [lia|]. eauto. }
  rewrite (@cell_unfold sm name p fuel w l0 Hobs).
  unfold guarded_poll. rewrite Hg. cbn [negb].
  unfold bind at 1. unfold bind at 1.
  pose proof (@poll_loop_prefix sm name (target_of p) (S (calls w)) l0 ls lf Hp 0
                {| calls := S (calls w); trace := trace w ++ preamble p name l0 |} eq_refl)
    as Hpre.
  rewrite Nat.add_0_r, Hlen in Hpre. rewrite Hpre.
  cbn [calls trace]. unfold poll_loop. cbn [while].
  unfold bind at 1, poll_cond, lift. rewrite Hlf.
  eexists. split; [reflexivity|]. cbn [calls]. lia.
Qed.

Lemma polling_has_no_bound_witness :
  exists w',
    polling_cell FeatureEngineering
      (fun _ => inr (description "InProgress" "FeatureEngineering")) job_name 25 start =
      (Running, w') /\
    calls w' = 26.
Proof.
  apply (@polling_has_no_bound FeatureEngineering
           (fun _ => inr (description "InProgress" "FeatureEngineering")) job_name start 25).
  intros n _. exists (seen "InProgress" "FeatureEngineering").
  repeat split; reflexivity.
Defined.

End UnboundedPolling.

(** ** The polling loops on the statuses of the service *)

Module StatusPolling.

Import AutoPilot PollingFacts CellFacts PollingProperties Tracking TrackingProperties
       UnboundedPolling ServiceStatuses Samples MoreSamples.

Local Open Scope py_scope.





Section Loops.

Variable sm : service.
Variable name : pystr.






End Loops.





End StatusPolling.

(** ** The location of the generated notebooks *)

Module ResourcesProperties.

Import AutoPilot Samples StripFacts.

Lemma lstrip_with_app_all f a b :
  forallb f a = true ->
  PyStr.lstrip_with f (a ++ b) = PyStr.lstrip_with f b.
Proof.
  induction a as [|c a IH]; simpl; [reflexivity|].
  intros H. apply andb_true_iff in H as [Hc Ha]. rewrite Hc. auto.
Qed.

(** A trailing run that [f] accepts is stripped with the rest. *)
Lemma rstrip_with_app_all f a b :
  forallb f b = true ->
  PyStr.rstrip_with f (a ++ b) = PyStr.rstrip_with f a.
Proof.
  intros H. unfold PyStr.rstrip_with. rewrite rev_app_distr.
  rewrite lstrip_with_app_all; [reflexivity|].
  rewrite forallb_forall in *. intros x Hx. apply H. now apply in_rev.
Qed.

Lemma lstrip_with_fixed f s :
  PyStr.lstrip_with f s = s <->
  match s with [] => True | c :: _ => f c = false end.
Proof.
  destruct s as [|c s]; simpl; [tauto|].
  destruct (f c) eqn:Hc; split; try congruence; try reflexivity.
  intros H. exfalso.
  destruct (lstrip_with_split f s) as (a & Hs & _).
  assert (Hlen : List.length (PyStr.lstrip_with f s) <= List.length s).
  { rewrite Hs at 2. rewrite length_app. lia. }
  rewrite H in Hlen. simpl in Hlen. lia.
Qed.

Lemma rstrip_with_fixed f s :
  PyStr.rstrip_with f s = s <->
  match rev s with [] => True | c :: _ => f c = false end.
Proof.
  unfold PyStr.rstrip_with. rewrite <- lstrip_with_fixed. split; intros H.
  - rewrite <- H at 2. now rewrite rev_involutive.
  - rewrite H. apply rev_involutive.
Qed.

(** X7. With both keys present the cell yields the location without its
    longest trailing run of code points that occur in the argument of
    [rstrip]: a set of characters is stripped, not a suffix. For a location
    that ends with the literal, the result is the part before it stripped
    in the same way, so it is that part only if that part ends with a code
    point foreign to the literal (or is empty). *)
Theorem generated_resources_strips_characters job artifacts location :
  lookup (str "AutoMLJobArtifacts") job = Some (VDict artifacts) ->
  lookup (str "DataExplorationNotebookLocation") artifacts = Some (VStr location) ->
  exists result removed,
    generated_resources_cell job = Done result /\
    location = result ++ removed /\
    forallb Resources.in_suffix removed = true /\
    match rev result with [] => True | c :: _ => Resources.in_suffix c = false end /\
    (forall directory,
       location = directory ++ Resources.notebook_suffix ->
       result = PyStr.rstrip_chars directory Resources.notebook_suffix /\
       (result = directory <->
        match rev directory with
        | [] => True
        | c :: _ => Resources.in_suffix c = false
        end)).
Proof.
  intros Ha Hl.
  destruct (rstrip_with_split Resources.in_suffix location) as (removed & Hsplit & Hrem).
  exists (PyStr.rstrip_with Resources.in_suffix location), removed.
  split.
  { unfold generated_resources_cell, dict_getitem. rewrite Ha. simpl.
    unfold dict_getitem. rewrite Hl. reflexivity. }
  split; [exact Hsplit|]. split; [exact Hrem|].
  split; [apply rstrip_with_last|].
  intros directory ->.
  assert (Hdir : PyStr.rstrip_with Resources.in_suffix (directory ++ Resources.notebook_suffix) =
                 PyStr.rstrip_with Resources.in_suffix directory)
    by (apply rstrip_with_app_all; reflexivity).
  rewrite Hdir. split; [reflexivity|]. apply rstrip_with_fixed.
Qed.

Lemma generated_resources_strips_characters_witness :
  exists result removed,
    generated_resources_cell completed_description = Done result /\
    str "s3://bucket/models/autopilot/automl-dm-01-12-00-00/sagemaker-automl-candidates/pr-1-abc/notebooks/SageMakerAutopilotDataExplorationNotebook.ipynb" =
      result ++ removed /\
    forallb Resources.in_suffix removed = true /\
    match rev result with [] => True | c :: _ => Resources.in_suffix c = false end /\
    (forall directory,
       str "s3://bucket/models/autopilot/automl-dm-01-12-00-00/sagemaker-automl-candidates/pr-1-abc/notebooks/SageMakerAutopilotDataExplorationNotebook.ipynb" =
         directory ++ Resources.notebook_suffix ->
       result = PyStr.rstrip_chars directory Resources.notebook_suffix /\
       (result = directory <->
        match rev directory with
        | [] => True
        | c :: _ => Resources.in_suffix c = false
        end)).
Proof.
  apply (@generated_resources_strips_characters completed_description
           [(str "CandidateDefinitionNotebookLocation",
             VStr (str "s3://bucket/models/autopilot/automl-dm-01-12-00-00/sagemaker-automl-candidates/pr-1-abc/notebooks/SageMakerAutopilotCandidateDefinitionNotebook.ipynb"));
            (str "DataExplorationNotebookLocation",
             VStr (str "s3://bucket/models/autopilot/automl-dm-01-12-00-00/sagemaker-automl-candidates/pr-1-abc/notebooks/SageMakerAutopilotDataExplorationNotebook.ipynb"))]);
    reflexivity.
Defined.

(** The directory of the sample location ends with '/', which occurs in
    the literal: the result is shorter than the directory. *)
Example generated_resources_eats_the_slash :
  generated_resources_cell completed_description <>
    Done (str "s3://bucket/models/autopilot/automl-dm-01-12-00-00/sagemaker-automl-candidates/pr-1-abc/").
Proof. vm_compute. discriminate. Qed.

(** X8. The other ways the cell fails: when 'AutoMLJobArtifacts' is not a
    dict it raises [TypeError]; when the dict has no
    'DataExplorationNotebookLocation' it raises the [KeyError] of that key;
    when the location is not a string it raises [AttributeError]. *)
Theorem generated_resources_errors job :
  (forall v, lookup (str "AutoMLJobArtifacts") job = Some v ->
     (forall d, v <> VDict d) ->
     generated_resources_cell job = Raised TypeError) /\
  (forall d, lookup (str "AutoMLJobArtifacts") job = Some (VDict d) ->
     lookup (str "DataExplorationNotebookLocation") d = None ->
     generated_resources_cell job =
       Raised (KeyError (VStr (str "DataExplorationNotebookLocation")))) /\
  (forall d v, lookup (str "AutoMLJobArtifacts") job = Some (VDict d) ->
     lookup (str "DataExplorationNotebookLocation") d = Some v ->
     (forall s, v <> VStr s) ->
     generated_resources_cell job = Raised AttributeError).
Proof.
  unfold generated_resources_cell, dict_getitem. repeat split.
  - intros v Hv Hnot. rewrite Hv. simpl.
    destruct v; try reflexivity. now destruct (Hnot d).
  - intros d Hd Hl. rewrite Hd. simpl. unfold dict_getitem. now rewrite Hl.
  - intros d v Hd Hl Hnot. rewrite Hd. simpl. unfold dict_getitem. rewrite Hl. simpl.
    destruct v; try reflexivity. now destruct (Hnot s).
Qed.

Lemma generated_resources_errors_witness :
  generated_resources_cell [(str "AutoMLJobArtifacts", VNone)] = Raised TypeError /\
  generated_resources_cell [(str "AutoMLJobArtifacts", VDict [])] =
    Raised (KeyError (VStr (str "DataExplorationNotebookLocation"))) /\
  generated_resources_cell
    [(str "AutoMLJobArtifacts",
      VDict [(str "DataExplorationNotebookLocation", VNone)])] = Raised AttributeError.
Proof.
  split; [|split].
  - apply (proj1 (generated_resources_errors [(str "AutoMLJobArtifacts", VNone)]) VNone).
    + reflexivity.
    + discriminate.
  - apply (proj1 (proj2 (generated_resources_errors
                           [(str "AutoMLJobArtifacts", VDict [])])) []);
      reflexivity.
  - apply (proj2 (proj2 (generated_resources_errors
             [(str "AutoMLJobArtifacts",
               VDict [(str "DataExplorationNotebookLocation", VNone)])]))
             [(str "DataExplorationNotebookLocation", VNone)] VNone).
    + reflexivity.
    + reflexivity.
    + discriminate.
Defined.

End ResourcesProperties.

(** ** Invoking the endpoint: failures and the payload *)

Module InvocationFailures.

Import AutoPilot Samples MoreSamples StripFacts ResourcesProperties InvocationProperties.

Local Open Scope py_scope.

Lemma encode_cp_none c :
  Utf8.encode_cp c = None <->
  Utf8.between 55296 57343 c = true \/ (1114112 <= c)%N.
Proof.
  unfold Utf8.encode_cp.
  destruct (c <? 128)%N eqn:H1.
  { apply N.ltb_lt in H1. split; [discriminate|].
    unfold Utf8.between. intros [H|H]; [|lia].
    apply andb_true_iff in H as [H _]. apply N.leb_le in H. lia. }
  destruct (c <? 2048)%N eqn:H2.
  { apply N.ltb_lt in H2. split; [discriminate|].
    unfold Utf8.between. intros [H|H]; [|lia].
    apply andb_true_iff in H as [H _]. apply N.leb_le in H. lia. }
  destruct (c <? 65536)%N eqn:H3.
  { apply N.ltb_lt in H3.
    destruct (Utf8.between 55296 57343 c) eqn:Hb; split; auto; try discriminate.
    intros [H|H]; [discriminate|lia]. }
  destruct (c <? 1114112)%N eqn:H4.
  { apply N.ltb_lt in H4. apply N.ltb_ge in H3. split; [discriminate|].
    unfold Utf8.between. intros [H|H]; [|lia].
    apply andb_true_iff in H as [_ H]. apply N.leb_le in H. lia. }
  apply N.ltb_ge in H4. split; auto.
Qed.

Lemma encode_octets_none s :
  Utf8.encode_octets s = None <-> exists c, In c s /\ Utf8.encode_cp c = None.
Proof.
  induction s as [|c s IH]; simpl.
  - split; [discriminate|]. intros (c & [] & _).
  - destruct (Utf8.encode_cp c) as [o|] eqn:Hc.
    + destruct (Utf8.encode_octets s) as [os|].
      * split; [discriminate|]. intros (c' & [<-|Hin] & Hc'); [congruence|].
        assert (Some os = None) as H by (apply IH; eauto).
        discriminate H.
      * split; [|reflexivity]. intros _.
        destruct (proj1 IH eq_refl) as (c' & Hin & Hc'). eauto.
    + split; [|reflexivity]. intros _. exists c. auto.
Qed.

Lemma trace_not_extended (w : world) e : trace w <> trace w ++ [e].
Proof.
  intros H. apply (f_equal (@List.length event)) in H.
  rewrite length_app in H. simpl in H. lia.
Qed.

(** X9. An invocation cell does not handle failures. When the endpoint
    raises, the cell raises the same error after its one request; when the
    response body is not valid UTF-8 it raises [UnicodeDecodeError]; and
    the test-set cell raises [UnicodeEncodeError] without sending anything
    when its payload holds a surrogate or a number that is no code point. *)
Theorem invocation_failures_propagate i rt endpoint w :
  (forall request,
     trace (snd (invocation_cell i rt endpoint w)) = trace w ++ [EvInvoke request] ->
     (forall e, rt request = inl e ->
        fst (invocation_cell i rt endpoint w) = Raised e) /\
     (forall raw, rt request = inr raw ->
        utf8_decode raw = Raised UnicodeDecodeError ->
        fst (invocation_cell i rt endpoint w) = Raised UnicodeDecodeError)) /\
  (forall csv c,
     i = PredictTest csv ->
     In c (PyStr.rstrip csv) ->
     Utf8.between 55296 57343 c = true \/ (1114112 <= c)%N ->
     invocation_cell i rt endpoint w = (Raised UnicodeEncodeError, w)).
Proof.
  split.
  - intros request Htrace.
    destruct (invocation_cell_run i rt endpoint w)
      as [(e & Hrun & _) | (request' & _ & _ & Hrun)]; rewrite Hrun in *; simpl in *.
    + now destruct (trace_not_extended w (EvInvoke request)).
    + apply app_inv_head in Htrace. injection Htrace as ->.
      split.
      * intros e He. now rewrite He.
      * intros raw Hraw Hbad. now rewrite Hraw, Hbad.
  - intros csv c -> Hin Hbad. simpl. unfold predict_test_cell.
    unfold bind at 1, lift.
    assert (He : Utf8.encode_octets (PyStr.rstrip csv) = None).
    { apply encode_octets_none. exists c. split; [exact Hin|].
      now apply encode_cp_none. }
    unfold utf8_encode. now rewrite He.
Qed.

Lemma invocation_failures_propagate_witness :
  fst (invocation_cell PredictNegative broken_endpoint endpoint_name start) =
    Raised (ClientError (str "ModelError")) /\
  invocation_cell (PredictTest [49; 55357; 10]%N) one_endpoint endpoint_name start =
    (Raised UnicodeEncodeError, start).
Proof.
  split.
  - apply (proj1 (proj1 (invocation_failures_propagate PredictNegative broken_endpoint
                           endpoint_name start)
                   {| EndpointName := endpoint_name;
                      ContentType := Some (str "text/csv");
                      Accept := Some (str "text/csv");
                      Body := BodyStr csv_line_predict_negative |} eq_refl)).
    reflexivity.
  - apply (proj2 (invocation_failures_propagate (PredictTest [49; 55357; 10]%N)
                    one_endpoint endpoint_name start) [49; 55357; 10]%N 55357%N).
    + reflexivity.
    + simpl. auto.
    + left. reflexivity.
Defined.

(** X10. The test-set cell sends the UTF-8 encoding of its CSV text without
    the trailing whitespace, and no [Accept]: the text sent never ends
    with whitespace, and two texts that differ only in trailing whitespace
    make the cell behave in the same way. *)
Theorem test_payload_has_no_trailing_whitespace csv rt endpoint w :
  match rev (PyStr.rstrip csv) with
  | [] => True
  | c :: _ => PyStr.isspace c = false
  end /\
  (forall request,
     trace (snd (invocation_cell (PredictTest csv) rt endpoint w)) =
       trace w ++ [EvInvoke request] ->
     exists encoded,
       utf8_encode (PyStr.rstrip csv) = Done encoded /\
       Body request = BodyBytes encoded /\
       Accept request = None) /\
  (forall ws, forallb PyStr.isspace ws = true ->
     invocation_cell (PredictTest (csv ++ ws)) rt endpoint w =
     invocation_cell (PredictTest csv) rt endpoint w).
Proof.
  split; [apply rstrip_with_last|]. split.
  - intros request. simpl. unfold predict_test_cell. unfold bind at 1, lift.
    destruct (utf8_encode (PyStr.rstrip csv)) as [encoded|e|] eqn:He.
    + rewrite invoke_decode_strip. simpl. intros Htrace.
      apply app_inv_head in Htrace. injection Htrace as <-.
      exists encoded. auto.
    + simpl. intros H. now destruct (trace_not_extended w (EvInvoke request)).
    + simpl. intros H. now destruct (trace_not_extended w (EvInvoke request)).
  - intros ws Hws. simpl. unfold predict_test_cell, PyStr.rstrip.
    now rewrite rstrip_with_app_all.
Qed.

Lemma test_payload_has_no_trailing_whitespace_witness :
  invocation_cell (PredictTest (str "11,21" ++ [10; 32; 10]%N)) one_endpoint endpoint_name start =
  invocation_cell (PredictTest (str "11,21")) one_endpoint endpoint_name start.
Proof.
  apply (proj2 (proj2 (test_payload_has_no_trailing_whitespace (str "11,21")
                         one_endpoint endpoint_name start)) [10; 32; 10]%N).
  reflexivity.
Defined.

End InvocationFailures.

(** ** Loading a dataset: failures, repeated labels, row counts *)

Module DatasetFailures.

Import Pandas Features Samples MoreSamples DatasetProperties.

Section Split.

Variable value : Type.

(** [split_label_column] on any table with a column: the label column is
    the first one, and the features are the columns whose label differs
    from its label. *)
Lemma split_label_column_general (data : DataFrame value) header c0 vs rest :
  columns data = (c0, vs) :: rest ->
  exists features,
    split_label_column data header =
      Done (features, {| name := c0; s_index := index data; values := vs |}) /\
    index features = index data /\
    List.map snd (columns features) = List.map snd (other_columns c0 rest) /\
    column_labels features =
      if header_is_none header
      then range_labels (List.length (other_columns c0 rest))
      else List.map fst (other_columns c0 rest).
Proof.
  intros Hcols.
  pose (kept := {| index := index data; columns := other_columns c0 rest |}).
  assert (Hdrop : drop data c0 = Done kept).
  { unfold drop, column_labels. rewrite Hcols. simpl.
    rewrite label_eqb_refl. reflexivity. }
  assert (Hlen : List.length (range_labels (List.length (other_columns c0 rest))) =
                 List.length (List.map snd (other_columns c0 rest)))
    by now rewrite range_labels_length, length_map.
  destruct (header_is_none header) eqn:Hh.
  - exists {| index := index data;
              columns := combine (range_labels (List.length (other_columns c0 rest)))
                                 (List.map snd (other_columns c0 rest)) |}.
    split; [|split; [reflexivity|split]].
    + unfold split_label_column, iloc_column0, columns_getitem0.
      rewrite Hcols. simpl. rewrite Hdrop. simpl. rewrite Hh.
      unfold set_columns, width. simpl.
      now rewrite range_labels_length, Nat.eqb_refl.
    + simpl. now apply map_snd_combine.
    + unfold column_labels. simpl. now apply map_fst_combine.
  - exists kept. split; [|repeat split].
    unfold split_label_column, iloc_column0, columns_getitem0.
    rewrite Hcols. simpl. rewrite Hdrop. simpl. now rewrite Hh.
Qed.

Lemma split_label_column_empty (data : DataFrame value) header :
  columns data = [] ->
  split_label_column data header = Raised IndexError.
Proof.
  intros H. unfold split_label_column, iloc_column0. now rewrite H.
Qed.

Lemma read_each_stops (read_csv : pystr -> pystr -> header_arg -> outcome (DataFrame value))
    sep header before file after frames e :
  XGBoost.read_each read_csv sep header before = Done frames ->
  read_csv file sep header = Raised e ->
  XGBoost.read_each read_csv sep header (before ++ file :: after) = Raised e.
Proof.
  revert frames. induction before as [|f before IH]; simpl; intros frames Hb Hf.
  - now rewrite Hf.
  - destruct (read_csv f sep header) as [d|e'|]; simpl in *; try discriminate.
    destruct (XGBoost.read_each read_csv sep header before) as [ds|e'|] eqn:Hr;
      simpl in *; try discriminate.
    now rewrite (IH ds eq_refl Hf).
Qed.

Lemma read_each_frames (read_csv : pystr -> pystr -> header_arg -> outcome (DataFrame value))
    sep header files frames :
  XGBoost.read_each read_csv sep header files = Done frames <->
  Forall2 (fun f d => read_csv f sep header = Done d) files frames.
Proof.
  revert frames. induction files as [|f files IH]; simpl; intros frames.
  - split.
    + intros [= <-]. constructor.
    + intros H. inversion H. reflexivity.
  - destruct (read_csv f sep header) as [d|e|] eqn:Hf; simpl.
    + destruct (XGBoost.read_each read_csv sep header files) as [ds|e|] eqn:Hr; simpl.
      * split.
        -- intros [= <-]. constructor; [exact Hf|]. now apply IH.
        -- intros H. inversion H as [|f' d' fs' ds' Hd Hrest]; subst.
           rewrite Hf in Hd. injection Hd as <-.
           apply IH in Hrest. now injection Hrest as <-.
      * split; [discriminate|].
        intros H. inversion H as [|f' d' fs' ds' Hd Hrest]; subst.
        apply IH in Hrest. discriminate Hrest.
      * split; [discriminate|].
        intros H. inversion H as [|f' d' fs' ds' Hd Hrest]; subst.
        apply IH in Hrest. discriminate Hrest.
    + split; [discriminate|].
      intros H. inversion H as [|f' d' fs' ds' Hd Hrest]; subst. congruence.
    + split; [discriminate|].
      intros H. inversion H as [|f' d' fs' ds' Hd Hrest]; subst. congruence.
Qed.

End Split.

(** X11. [load_dataset] handles no failure. In the AutoPilot notebook an
    error of [read_csv] is the error of [load_dataset]. In the XGBoost
    notebook the files are read in the order [glob] lists them and the
    error of the first file that fails is the error of [load_dataset],
    whatever comes after it; when all are read, an error of [pd.concat] is
    the error of [load_dataset]. In both, a table without a column ends in
    [IndexError]. *)
Theorem load_dataset_failures (value : Type)
    (read_csv : pystr -> pystr -> header_arg -> outcome (DataFrame value))
    (path sep : pystr) (header : header_arg) :
  (forall e, read_csv path sep header = Raised e ->
     AutoPilot.load_dataset read_csv path sep header = Raised e) /\
  (forall data, read_csv path sep header = Done data -> columns data = [] ->
     AutoPilot.load_dataset read_csv path sep header = Raised IndexError) /\
  (forall glob concat before file after frames e,
     glob (path ++ str "/*.csv") = before ++ file :: after ->
     XGBoost.read_each read_csv sep header before = Done frames ->
     read_csv file sep header = Raised e ->
     XGBoost.load_dataset read_csv glob concat path sep header = Raised e) /\
  (forall glob concat frames,
     Forall2 (fun f d => read_csv f sep header = Done d)
             (glob (path ++ str "/*.csv")) frames ->
     (forall e, concat frames = Raised e ->
        XGBoost.load_dataset read_csv glob concat path sep header = Raised e) /\
     (forall data, concat frames = Done data -> columns data = [] ->
        XGBoost.load_dataset read_csv glob concat path sep header = Raised IndexError)).
Proof.
  split; [|split; [|split]].
  - intros e H. unfold AutoPilot.load_dataset. now rewrite H.
  - intros data H Hc. unfold AutoPilot.load_dataset. rewrite H. simpl.
    now apply split_label_column_empty.
  - intros glob concat before file after frames e Hg Hb Hf.
    unfold XGBoost.load_dataset. rewrite Hg.
    now rewrite (@read_each_stops value read_csv sep header before file after frames e Hb Hf).
  - intros glob concat frames Hall. apply read_each_frames in Hall.
    unfold XGBoost.load_dataset. rewrite Hall. simpl. split.
    + intros e He. now rewrite He.
    + intros data Hd Hc. rewrite Hd. simpl. now apply split_label_column_empty.
Qed.

Lemma load_dataset_failures_witness :
  XGBoost.load_dataset second_file_unreadable two_files_glob single_concat
    (str "./output/test") (str ",") HeaderNone =
    @Raised (DataFrame Z * Series Z) ValueError /\
  AutoPilot.load_dataset (fun _ _ _ => Done {| index := [0; 1]%Z; columns := [] |})
    (str "./data/test.csv") (str ",") (HeaderRow 0) = @Raised (DataFrame Z * Series Z) IndexError.
Proof.
  split.
  - apply (proj1 (proj2 (proj2 (@load_dataset_failures Z second_file_unreadable
             (str "./output/test") (str ",") HeaderNone)))
             two_files_glob single_concat
             [str "./output/test/part-00000.csv"] (str "./output/test/part-00001.csv") []
             [small_table false]);
      reflexivity.
  - apply (proj1 (proj2 (@load_dataset_failures Z
             (fun _ _ _ => Done {| index := [0; 1]%Z; columns := [] |})
             (str "./data/test.csv") (str ",") (HeaderRow 0)))
             {| index := [0; 1]%Z; columns := [] |});
      reflexivity.
Defined.

(** X12. The first column is dropped by its label, not by its position:
    on any table with a column, the labels returned are column 0 and the
    features are the columns whose label differs from the label of column
    0, in their order. When that label is repeated, every column that
    carries it is left out of the features. *)
Theorem load_dataset_drops_by_label (value : Type) (data : DataFrame value)
    (header : header_arg) c0 vs rest :
  columns data = (c0, vs) :: rest ->
  exists features,
    (forall read_csv path sep,
       read_csv path sep header = Done data ->
       AutoPilot.load_dataset read_csv path sep header =
         Done (features, {| name := c0; s_index := index data; values := vs |})) /\
    (forall read_csv glob concat path sep frames,
       XGBoost.read_each read_csv sep header (glob (path ++ str "/*.csv")) = Done frames ->
       concat frames = Done data ->
       XGBoost.load_dataset read_csv glob concat path sep header =
         Done (features, {| name := c0; s_index := index data; values := vs |})) /\
    index features = index data /\
    List.map snd (columns features) = List.map snd (other_columns c0 rest) /\
    (forall c, In c (other_columns c0 rest) <-> In c rest /\ fst c <> c0) /\
    width features + List.length (filter (fun c => label_eqb c0 (fst c)) rest) =
      List.length rest.
Proof.
  intros Hcols.
  destruct (@split_label_column_general value data header c0 vs rest Hcols)
    as (features & Hsplit & Hidx & Hsnd & Hlab).
  exists features. split; [|split; [|split; [|split; [|split]]]]; auto.
  - intros read_csv path sep Hread. unfold AutoPilot.load_dataset.
    now rewrite Hread.
  - intros read_csv glob concat path sep frames Hread Hcat.
    unfold XGBoost.load_dataset. rewrite Hread. simpl. now rewrite Hcat.
  - intros c. unfold other_columns. rewrite filter_In. split.
    + intros [Hin Hne]. split; [exact Hin|].
      intros E. rewrite <- E, label_eqb_refl in Hne. discriminate Hne.
    + intros [Hin Hne]. split; [exact Hin|].
      destruct (label_eqb c0 (fst c)) eqn:E; [|reflexivity].
      apply label_eqb_eq in E. congruence.
  - unfold width. rewrite <- (length_map snd (columns features)), Hsnd, length_map.
    unfold other_columns. clear. induction rest as [|c r IH]; simpl; [reflexivity|].
    destruct (label_eqb c0 (fst c)); simpl; lia.
Qed.

Lemma load_dataset_drops_by_label_witness :
  exists features,
    AutoPilot.load_dataset (fun _ _ _ => Done repeated_label_table)
      (str "./data/test.csv") (str ",") (HeaderRow 0) =
      Done (features, {| name := LStr (str "a"); s_index := [0]%Z; values := [1]%Z |}) /\
    List.map snd (columns features) = [[2]%Z] /\
    width features + 1 = 2.
Proof.
  destruct (@load_dataset_drops_by_label Z repeated_label_table (HeaderRow 0)
              (LStr (str "a")) [1]%Z
              [(LStr (str "b"), [2]%Z); (LStr (str "a"), [3]%Z)] eq_refl)
    as (features & Hauto & _ & _ & Hsnd & _ & Hwidth).
  exists features. split; [|split].
  - apply (Hauto (fun _ _ _ => Done repeated_label_table)). reflexivity.
  - exact Hsnd.
  - exact Hwidth.
Defined.

(** X13. Both [load_dataset] functions keep the rows together: when every
    column of the parsed table holds one value per row, so does every
    feature column returned, and the labels returned have that many values
    and the index of the features. *)
Theorem load_dataset_keeps_rows (value : Type) (data : DataFrame value)
    (header : header_arg) :
  rectangular data ->
  (forall read_csv path sep features labels,
     read_csv path sep header = Done data ->
     AutoPilot.load_dataset read_csv path sep header = Done (features, labels) ->
     rectangular features /\
     List.length (values labels) = List.length (index features) /\
     s_index labels = index features) /\
  (forall read_csv glob concat path sep frames features labels,
     XGBoost.read_each read_csv sep header (glob (path ++ str "/*.csv")) = Done frames ->
     concat frames = Done data ->
     XGBoost.load_dataset read_csv glob concat path sep header = Done (features, labels) ->
     rectangular features /\
     List.length (values labels) = List.length (index features) /\
     s_index labels = index features).
Proof.
  intros Hrect.
  assert (Hsplit : forall features labels,
            split_label_column data header = Done (features, labels) ->
            rectangular features /\
            List.length (values labels) = List.length (index features) /\
            s_index labels = index features).
  { intros features labels Hrun.
    destruct (columns data) as [|[c0 vs] rest] eqn:Hcols.
    - rewrite split_label_column_empty in Hrun by assumption. discriminate Hrun.
    - destruct (@split_label_column_general value data header c0 vs rest Hcols)
        as (features' & Hrun' & Hidx & Hsnd & _).
      rewrite Hrun' in Hrun. injection Hrun as <- <-. simpl.
      unfold rectangular in *. rewrite Hcols in Hrect.
      apply Forall_cons_iff in Hrect as [Hvs Hrest]. simpl in Hvs.
      rewrite Hidx. repeat split; auto.
      assert (Hall : Forall (fun v => List.length v = List.length (index data))
                            (List.map snd (columns features'))).
      { rewrite Hsnd. apply Forall_map. unfold other_columns.
        rewrite Forall_forall in *. intros c Hc. apply filter_In in Hc as [Hc _]. auto. }
      now apply Forall_map in Hall. }
  split.
  - intros read_csv path sep features labels Hread. unfold AutoPilot.load_dataset.
    rewrite Hread. simpl. apply Hsplit.
  - intros read_csv glob concat path sep frames features labels Hread Hcat.
    unfold XGBoost.load_dataset. rewrite Hread. simpl. rewrite Hcat. simpl.
    apply Hsplit.
Qed.

Lemma load_dataset_keeps_rows_witness :
  rectangular {| index := [0; 1]%Z;
                 columns := [(LStr (str "review_body"), [11; 12]%Z);
                             (LStr (str "star_rating"), [21; 22]%Z)] |} /\
  List.length [1; 0]%Z = List.length [0; 1]%Z /\
  [0; 1]%Z = [0; 1]%Z.
Proof.
  assert (Hrect : rectangular (small_table true)) by (repeat constructor).
  apply (proj1 (@load_dataset_keeps_rows Z (small_table true) (HeaderRow 0) Hrect)
           small_read_csv (str "./data/test.csv") (str ",")
           {| index := [0; 1]%Z;
              columns := [(LStr (str "review_body"), [11; 12]%Z);
                          (LStr (str "star_rating"), [21; 22]%Z)] |}
           {| name := LStr (str "is_positive_sentiment");
              s_index := [0; 1]%Z; values := [1; 0]%Z |});
    reflexivity.
Defined.






Example test_features_on_301_columns :
  exists X_test y_test,
    test_features_cells (fun _ _ _ => Done (wide_table 300)) one_file_glob single_concat
      (str "./output/test") = Done (X_test, y_test) /\
    hd_error (column_labels X_test) = Some (LStr (str "f0")) /\
    nth_error (column_labels X_test) 299 = Some (LStr (str "f299")) /\
    nth_error (columns X_test) 299 = Some (LStr (str "f299"), [300%Z]).
Proof.
  eexists. eexists. split; [vm_compute; reflexivity|].
  repeat split; vm_compute; reflexivity.
Qed.

End DatasetFailures.

(** ** Plotting the confusion matrix *)

Module PlottingProperties.

Import Plotting MoreSamples.

Example plot_sample :
  plot_test_matrix some_confusion_matrix =
    ([PPrint some_confusion_matrix;
      PImshow some_confusion_matrix (str "nearest") greens;
      PTitle (str "Confusion matrix");
      PColorbar;
      PXticks [0; 1]%Z [str "Not Positive Sentiment"; str "Positive Sentiment"] 45;
      PYticks [0; 1]%Z [str "Not Positive Sentiment"; str "Positive Sentiment"];
      PText 0 0 (str "40") (str "center") (str "black");
      PTightLayout; PYlabel (str "True label"); PXlabel (str "Predicted label");
      PText 1 0 (str "10") (str "center") (str "black");
      PTightLayout; PYlabel (str "True label"); PXlabel (str "Predicted label");
      PText 0 1 (str "5") (str "center") (str "black");
      PTightLayout; PYlabel (str "True label"); PXlabel (str "Predicted label");
      PText 1 1 (str "45") (str "center") (str "black");
      PTightLayout; PYlabel (str "True label"); PXlabel (str "Predicted label")],
     Done tt).
Proof. reflexivity. Qed.










End PlottingProperties.

(** ** Candidates and the best candidate *)

Module CandidatesProperties.

Import AutoPilot Candidates Samples MoreSamples.

Local Open Scope py_scope.

Section Listing.

Variable py_str : pyval -> pystr.

Lemma candidate_line_finished index c name value :
  finished c name value ->
  candidate_line py_str index c =
    Done (Features.decimal index ++ str "  " ++ name ++ str "  " ++ py_str value).
Proof.
  intros (d & m & -> & Hn & Hm & Hv).
  unfold candidate_line, getitem, dict_getitem. rewrite Hn. simpl.
  rewrite Hm. simpl. rewrite Hv. simpl. now rewrite <- !app_assoc.
Qed.

(** The loop prints the lines of the finished candidates it meets first
    and goes on with what follows them. *)
Lemma list_candidates_loop_prefix good :
  forall named index rest w,
  Forall2 (fun c nv => finished c (fst nv) (snd nv)) good named ->
  list_candidates_loop py_str index (good ++ rest) w =
  list_candidates_loop py_str (List.length good + index) rest
    {| calls := calls w; trace := trace w ++ listing py_str index named |}.
Proof.
  induction good as [|c good IH]; intros named index rest w H.
  - inversion H. simpl. rewrite app_nil_r. now destruct w.
  - inversion H as [|c' [name value] good' named' Hc Hrest]; subst.
    simpl. unfold bind at 1, lift. rewrite (candidate_line_finished index Hc).
    unfold bind at 1, print, emit. rewrite (IH named' (S index) rest _ Hrest).
    simpl. rewrite <- app_assoc. simpl. f_equal. lia.
Qed.

End Listing.

(** X16. The candidate listing prints one line per candidate, in the
    order of the response and numbered from 0, for as long as the
    candidates have a string name and a final metric value; at the first
    candidate for which the line cannot be built it raises that error
    (a [KeyError] when 'FinalAutoMLJobObjectiveMetric' is missing) with the
    earlier lines printed and none after. A response without 'Candidates'
    raises [KeyError] with nothing printed. *)
Theorem candidate_listing_stops_at_first_failure py_str response good named w :
  Forall2 (fun c nv => finished c (fst nv) (snd nv)) good named ->
  (lookup (str "Candidates") response = Some (VList good) ->
   list_candidates_cell py_str response w =
     (Done tt, {| calls := calls w; trace := trace w ++ listing py_str 0 named |})) /\
  (forall bad rest e,
     lookup (str "Candidates") response = Some (VList (good ++ bad :: rest)) ->
     candidate_line py_str (List.length good) bad = Raised e ->
     list_candidates_cell py_str response w =
       (Raised e, {| calls := calls w; trace := trace w ++ listing py_str 0 named |})) /\
  (forall d name,
     lookup (str "CandidateName") d = Some (VStr name) ->
     lookup (str "FinalAutoMLJobObjectiveMetric") d = None ->
     candidate_line py_str (List.length good) (VDict d) =
       Raised (KeyError (VStr (str "FinalAutoMLJobObjectiveMetric")))) /\
  (lookup (str "Candidates") response = None ->
   list_candidates_cell py_str response w =
     (Raised (KeyError (VStr (str "Candidates"))), w)).
Proof.
  intros Hgood. split; [|split; [|split]].
  - intros Hc. unfold list_candidates_cell, bind at 1, lift, dict_getitem.
    rewrite Hc. unfold bind at 1. simpl iterate. cbv iota beta.
    rewrite <- (app_nil_r good).
    rewrite (@list_candidates_loop_prefix py_str good named 0 [] w Hgood).
    reflexivity.
  - intros bad rest e Hc Hbad.
    unfold list_candidates_cell, bind at 1, lift, dict_getitem.
    rewrite Hc. unfold bind at 1. simpl iterate. cbv iota beta.
    rewrite (@list_candidates_loop_prefix py_str good named 0 (bad :: rest) w Hgood).
    simpl. unfold bind at 1, lift. rewrite Nat.add_0_r, Hbad. reflexivity.
  - intros d name Hn Hm. unfold candidate_line, getitem, dict_getitem.
    rewrite Hn. simpl. now rewrite Hm.
  - intros Hc. unfold list_candidates_cell, bind, lift, dict_getitem. now rewrite Hc.
Qed.

Lemma candidate_listing_stops_at_first_failure_witness :
  list_candidates_cell sample_str
    [(str "Candidates",
      VList [VDict [(str "CandidateName", VStr (str "tuning-job-1-001"));
                    (str "FinalAutoMLJobObjectiveMetric",
                     VDict [(str "Value", VInt 91)])];
             unfinished_candidate;
             VDict [(str "CandidateName", VStr (str "tuning-job-1-002"));
                    (str "FinalAutoMLJobObjectiveMetric",
                     VDict [(str "Value", VInt 88)])]])] start =
    (Raised (KeyError (VStr (str "FinalAutoMLJobObjectiveMetric"))),
     {| calls := 0;
        trace := trace start ++
                 listing sample_str 0 [(str "tuning-job-1-001", VInt 91)] |}).
Proof.
  assert (Hgood : Forall2 (fun c nv => finished c (fst nv) (snd nv))
            [VDict [(str "CandidateName", VStr (str "tuning-job-1-001"));
                    (str "FinalAutoMLJobObjectiveMetric",
                     VDict [(str "Value", VInt 91)])]]
            [(str "tuning-job-1-001", VInt 91)]).
  { constructor; [|constructor]. eexists. eexists. repeat split; reflexivity. }
  apply (proj1 (proj2 (@candidate_listing_stops_at_first_failure sample_str _ _ _
                         start Hgood))
           unfinished_candidate
           [VDict [(str "CandidateName", VStr (str "tuning-job-1-002"));
                   (str "FinalAutoMLJobObjectiveMetric",
                    VDict [(str "Value", VInt 88)])]]);
    reflexivity.
Defined.

(** X17. The best-candidate cell makes one describe call and subscripts
    its answer without a guard. An answer without 'BestCandidate' raises
    the [KeyError] of that key with nothing printed; a best candidate with
    a string name but no 'FinalAutoMLJobObjectiveMetric' raises the
    [KeyError] of that key after the name line is printed; with the name,
    the metric name and the metric value present the cell prints its three
    lines in this order and leaves the best candidate. *)
Theorem best_candidate_cell_needs_its_keys py_str sm name w d :
  sm (calls w) = inr d ->
  (lookup (str "BestCandidate") d = None ->
   best_candidate_cell py_str sm name w =
     (Raised (KeyError (VStr (str "BestCandidate"))),
      {| calls := S (calls w); trace := trace w ++ [EvDescribe name] |})) /\
  (forall best ident,
     lookup (str "BestCandidate") d = Some (VDict best) ->
     lookup (str "CandidateName") best = Some (VStr ident) ->
     (lookup (str "FinalAutoMLJobObjectiveMetric") best = None ->
      best_candidate_cell py_str sm name w =
        (Raised (KeyError (VStr (str "FinalAutoMLJobObjectiveMetric"))),
         {| calls := S (calls w);
            trace := trace w ++
                     [EvDescribe name;
                      EvPrint [VStr (str "Candidate name: " ++ ident)]] |})) /\
     (forall m metric_name value,
        lookup (str "FinalAutoMLJobObjectiveMetric") best = Some (VDict m) ->
        lookup (str "MetricName") m = Some (VStr metric_name) ->
        lookup (str "Value") m = Some value ->
        best_candidate_cell py_str sm name w =
          (Done (VDict best),
           {| calls := S (calls w);
              trace := trace w ++
                       [EvDescribe name;
                        EvPrint [VStr (str "Candidate name: " ++ ident)];
                        EvPrint [VStr (str "Metric name: " ++ metric_name)];
                        EvPrint [VStr (str "Metric value: " ++ py_str value)]] |}))).
Proof.
  intros Hsm.
  assert (Hdesc : describe_auto_ml_job sm name w =
            (Done d, {| calls := S (calls w); trace := trace w ++ [EvDescribe name] |}))
    by (unfold describe_auto_ml_job; now rewrite Hsm).
  split.
  - intros Hb. unfold best_candidate_cell. unfold bind at 1. rewrite Hdesc.
    unfold bind at 1, lift, dict_getitem. now rewrite Hb.
  - intros best ident Hb Hn. split.
    + intros Hm. unfold best_candidate_cell. unfold bind at 1. rewrite Hdesc.
      unfold bind, lift, dict_getitem, getitem, print, emit, concat_str.
      rewrite Hb. unfold dict_getitem. rewrite Hn, Hm. cbn [calls trace].
      now rewrite <- app_assoc.
    + intros m metric_name value Hm Hmn Hv.
      unfold best_candidate_cell. unfold bind at 1. rewrite Hdesc.
      unfold bind, lift, dict_getitem, getitem, print, emit, concat_str, ret.
      rewrite Hb. unfold dict_getitem. rewrite Hn, Hm. unfold dict_getitem.
      rewrite Hmn, Hv. cbn [calls trace]. now rewrite <- !app_assoc.
Qed.

Lemma best_candidate_cell_needs_its_keys_witness :
  best_candidate_cell sample_str failed_service job_name start =
    (Raised (KeyError (VStr (str "BestCandidate"))),
     {| calls := 1; trace := trace start ++ [EvDescribe job_name] |}).
Proof.
  apply (proj1 (@best_candidate_cell_needs_its_keys sample_str failed_service job_name
                  start (description "Failed" "Failed") eq_refl)).
  reflexivity.
Defined.

Lemma containers_loop_all cs :
  forall fields w,
  Forall2 (fun c f => has_fields c (fst f) (snd f)) cs fields ->
  containers_loop cs w =
    (Done tt, {| calls := calls w;
                 trace := trace w ++ flat_map container_events fields |}).
Proof.
  induction cs as [|c cs IH]; intros fields w H.
  - inversion H. simpl. rewrite app_nil_r. now destruct w.
  - inversion H as [|c' [image url] cs' fields' (d & -> & Hi & Hu) Hrest]; subst.
    simpl in Hi, Hu. simpl containers_loop.
    unfold bind at 1, lift, getitem, dict_getitem. rewrite Hi.
    unfold bind at 1, print, emit. unfold bind at 1. rewrite Hu.
    unfold bind at 1. unfold bind at 1.
    rewrite (IH fields' _ Hrest). cbn [calls trace].
    simpl flat_map. unfold container_events at 2. simpl.
    now rewrite <- !app_assoc.
Qed.

(** X18. For a best candidate whose 'InferenceContainers' is a list of
    containers that have an 'Image' and a 'ModelDataUrl', the containers
    cell prints these two and the separator for each container, in the
    order of the list; a container without 'ModelDataUrl' raises the
    [KeyError] of that key after its image is printed. *)
Theorem containers_cell_prints_each_container best cs fields w :
  lookup (str "InferenceContainers") best = Some (VList cs) ->
  Forall2 (fun c f => has_fields c (fst f) (snd f)) cs fields ->
  containers_cell (VDict best) w =
    (Done tt, {| calls := calls w;
                 trace := trace w ++ flat_map container_events fields |}) /\
  (forall d image rest,
     lookup (str "Image") d = Some image ->
     lookup (str "ModelDataUrl") d = None ->
     containers_loop (VDict d :: rest) w =
       (Raised (KeyError (VStr (str "ModelDataUrl"))),
        {| calls := calls w; trace := trace w ++ [EvPrint [image]] |})).
Proof.
  intros Hc Hall. split.
  - unfold containers_cell. unfold bind at 1, lift, getitem, dict_getitem.
    rewrite Hc. unfold bind at 1. simpl iterate. cbv iota beta.
    now apply containers_loop_all.
  - intros d image rest Hi Hu. simpl containers_loop.
    unfold bind, lift, getitem, dict_getitem, print, emit. now rewrite Hi, Hu.
Qed.

Lemma containers_cell_prints_each_container_witness :
  containers_cell
    (VDict [(str "InferenceContainers",
             VList [VDict [(str "Image", VStr (str "sklearn-automl"));
                           (str "ModelDataUrl", VStr (str "s3://bucket/dpp/model.tar.gz"))];
                    VDict [(str "Image", VStr (str "xgboost"));
                           (str "ModelDataUrl", VStr (str "s3://bucket/tuning/model.tar.gz"))]])])
    start =
    (Done tt,
     {| calls := 0;
        trace := trace start ++
                 flat_map container_events
                   [(VStr (str "sklearn-automl"), VStr (str "s3://bucket/dpp/model.tar.gz"));
                    (VStr (str "xgboost"), VStr (str "s3://bucket/tuning/model.tar.gz"))] |}).
Proof.
  assert (Hall : Forall2 (fun c f => has_fields c (fst f) (snd f))
            [VDict [(str "Image", VStr (str "sklearn-automl"));
                    (str "ModelDataUrl", VStr (str "s3://bucket/dpp/model.tar.gz"))];
             VDict [(str "Image", VStr (str "xgboost"));
                    (str "ModelDataUrl", VStr (str "s3://bucket/tuning/model.tar.gz"))]]
            [(VStr (str "sklearn-automl"), VStr (str "s3://bucket/dpp/model.tar.gz"));
             (VStr (str "xgboost"), VStr (str "s3://bucket/tuning/model.tar.gz"))]).
  { repeat constructor; eexists; repeat split; reflexivity. }
  refine (proj1 (@containers_cell_prints_each_container
                   [(str "InferenceContainers", VList _)] _ _ start eq_refl Hall)).
Defined.

End CandidatesProperties.

(** ** UTF-8: what is encoded reads back *)

Module Utf8Facts.

Import Utf8.

Local Open Scope N_scope.

(** Bits that do not overlap add up. *)
Lemma lor_high_low h l k : l < 2 ^ k -> N.lor (h * 2 ^ k) l = h * 2 ^ k + l.
Proof.
  intros Hl.
  assert (Hland : N.land (h * 2 ^ k) l = 0).
  { apply N.bits_inj_0. intros n. rewrite N.land_spec.
    destruct (N.lt_ge_cases n k) as [Hn|Hn].
    - now rewrite N.mul_pow2_bits_low.
    - replace (N.testbit l n) with false; [apply andb_false_r|].
      symmetry. destruct (N.eq_dec l 0) as [->|Hnz]; [apply N.bits_0|].
      apply N.bits_above_log2. apply N.log2_lt_pow2; [lia|].
      eapply N.lt_le_trans; [exact Hl|]. apply N.pow_le_mono_r; lia. }
  rewrite N.add_nocarry_lxor by exact Hland. symmetry. now apply N.lxor_lor.
Qed.

Lemma lor_lead lead k x :
  x < 2 ^ k -> N.lor (lead * 2 ^ k) x = lead * 2 ^ k + x.
Proof. apply lor_high_low. Qed.

Lemma payload6_mod b : payload6 b = b mod 64.
Proof. unfold payload6. change 63 with (N.ones 6). now rewrite N.land_ones. Qed.

Lemma decode_1 b0 rest :
  b0 < 128 -> decode_octets (b0 :: rest) = push b0 (decode_octets rest).
Proof. intros H. apply N.ltb_lt in H. simpl. now rewrite H. Qed.

Lemma decode_2 b0 b1 rest :
  between 194 223 b0 = true -> continuation b1 = true ->
  decode_octets (b0 :: b1 :: rest) =
    push (N.lor (N.shiftl (N.land b0 31) 6) (payload6 b1)) (decode_octets rest).
Proof.
  intros H0 H1.
  assert (Hlt : (b0 <? 128) = false).
  { unfold between in H0. apply andb_true_iff in H0 as [H _].
    apply N.leb_le in H. apply N.ltb_ge. lia. }
  cbn [decode_octets]. now rewrite Hlt, H0, H1.
Qed.

Lemma decode_3 b0 b1 b2 rest :
  between 224 239 b0 = true -> second_of_3 b0 b1 = true -> continuation b2 = true ->
  decode_octets (b0 :: b1 :: b2 :: rest) =
    push (N.lor (N.shiftl (N.land b0 15) 12)
            (N.lor (N.shiftl (payload6 b1) 6) (payload6 b2)))
         (decode_octets rest).
Proof.
  intros H0 H1 H2.
  assert (Hge : 224 <= b0).
  { unfold between in H0. apply andb_true_iff in H0 as [H _]. now apply N.leb_le in H. }
  assert (Hlt : (b0 <? 128) = false) by (apply N.ltb_ge; lia).
  assert (Hno : between 194 223 b0 = false).
  { unfold between. apply andb_false_iff. right. apply N.leb_gt. lia. }
  cbn [decode_octets]. now rewrite Hlt, Hno, H0, H1, H2.
Qed.

Lemma decode_4 b0 b1 b2 b3 rest :
  between 240 244 b0 = true -> second_of_4 b0 b1 = true ->
  continuation b2 = true -> continuation b3 = true ->
  decode_octets (b0 :: b1 :: b2 :: b3 :: rest) =
    push (N.lor (N.shiftl (N.land b0 7) 18)
            (N.lor (N.shiftl (payload6 b1) 12)
               (N.lor (N.shiftl (payload6 b2) 6) (payload6 b3))))
         (decode_octets rest).
Proof.
  intros H0 H1 H2 H3.
  assert (Hge : 240 <= b0).
  { unfold between in H0. apply andb_true_iff in H0 as [H _]. now apply N.leb_le in H. }
  assert (Hlt : (b0 <? 128) = false) by (apply N.ltb_ge; lia).
  assert (Hno2 : between 194 223 b0 = false).
  { unfold between. apply andb_false_iff. right. apply N.leb_gt. lia. }
  assert (Hno3 : between 224 239 b0 = false).
  { unfold between. apply andb_false_iff. right. apply N.leb_gt. lia. }
  cbn [decode_octets]. now rewrite Hlt, Hno2, Hno3, H0, H1, H2, H3.
Qed.

Lemma between_intro lo hi b : lo <= b -> b <= hi -> between lo hi b = true.
Proof.
  intros H1 H2. unfold between. apply andb_true_intro.
  split; now apply N.leb_le.
Qed.

Lemma mod_of_sum lead k x :
  k <> 0 -> x < k -> (lead * k + x) mod k = x.
Proof.
  intros Hk Hx. symmetry. apply N.mod_unique with lead; [exact Hx|lia].
Qed.

(** The quotients and remainders of a code point by 64, 64 and 64. *)
Lemma digits64 c :
  let r0 := c mod 64 in
  let q1 := c / 64 in
  let r1 := q1 mod 64 in
  let q2 := q1 / 64 in
  let r2 := q2 mod 64 in
  let q3 := q2 / 64 in
  c = 64 * q1 + r0 /\ q1 = 64 * q2 + r1 /\ q2 = 64 * q3 + r2 /\
  r0 < 64 /\ r1 < 64 /\ r2 < 64.
Proof.
  cbv zeta. repeat split.
  - apply N.div_mod. lia.
  - apply N.div_mod. lia.
  - apply N.div_mod. lia.
  - apply N.mod_lt. lia.
  - apply N.mod_lt. lia.
  - apply N.mod_lt. lia.
Qed.

Lemma shiftr_6 c : N.shiftr c 6 = c / 64.
Proof. now rewrite N.shiftr_div_pow2. Qed.

Lemma shiftr_12 c : N.shiftr c 12 = c / 64 / 64.
Proof. rewrite N.shiftr_div_pow2, N.Div0.div_div. reflexivity. Qed.

Lemma shiftr_18 c : N.shiftr c 18 = c / 64 / 64 / 64.
Proof. rewrite N.shiftr_div_pow2, !N.Div0.div_div. reflexivity. Qed.

Lemma lor_128 x : x < 64 -> N.lor 128 x = 128 + x.
Proof. intros H. change 128 with (2 * 2 ^ 6). now apply lor_high_low. Qed.

Lemma lor_192 x : x < 64 -> N.lor 192 x = 192 + x.
Proof. intros H. change 192 with (3 * 2 ^ 6). now apply lor_high_low. Qed.

Lemma lor_224 x : x < 16 -> N.lor 224 x = 224 + x.
Proof. intros H. change 224 with (14 * 2 ^ 4). now apply lor_high_low. Qed.

Lemma lor_240 x : x < 8 -> N.lor 240 x = 240 + x.
Proof. intros H. change 240 with (30 * 2 ^ 3). now apply lor_high_low. Qed.

Lemma payload6_trail x : x < 64 -> payload6 (128 + x) = x.
Proof.
  intros H. rewrite payload6_mod. change 128 with (2 * 64). now apply mod_of_sum.
Qed.

Lemma continuation_trail x : x < 64 -> continuation (128 + x) = true.
Proof. intros H. apply between_intro; lia. Qed.

Lemma two_octets c :
  128 <= c -> c < 2048 ->
  encode_cp c = Some [192 + c / 64; 128 + c mod 64] /\
  forall rest,
    decode_octets ((192 + c / 64) :: (128 + c mod 64) :: rest) =
      push c (decode_octets rest).
Proof.
  intros Hlo Hhi.
  destruct (digits64 c) as (Hc & _ & _ & Hr0 & _ & _).
  assert (Hq : c / 64 < 32) by (apply N.Div0.div_lt_upper_bound; lia).
  assert (Hq' : 2 <= c / 64) by (apply N.div_le_lower_bound; lia).
  split.
  - unfold encode_cp.
    replace (c <? 128) with false by (symmetry; apply N.ltb_ge; lia).
    replace (c <? 2048) with true by (symmetry; apply N.ltb_lt; lia).
    rewrite shiftr_6, payload6_mod, lor_192, lor_128 by lia. reflexivity.
  - intros rest. rewrite decode_2.
    + f_equal. rewrite payload6_trail by lia.
      change 31 with (N.ones 5). rewrite N.land_ones.
      change (2 ^ 5) with 32. change 192 with (6 * 32).
      rewrite mod_of_sum by lia.
      rewrite N.shiftl_mul_pow2, lor_high_low by (change (2 ^ 6) with 64; lia).
      change (2 ^ 6) with 64. lia.
    + apply between_intro; lia.
    + apply continuation_trail; lia.
Qed.

Lemma three_octets c :
  2048 <= c -> c < 65536 -> between 55296 57343 c = false ->
  encode_cp c =
    Some [224 + c / 64 / 64; 128 + (c / 64) mod 64; 128 + c mod 64] /\
  forall rest,
    decode_octets ((224 + c / 64 / 64) :: (128 + (c / 64) mod 64) ::
                   (128 + c mod 64) :: rest) =
      push c (decode_octets rest).
Proof.
  intros Hlo Hhi Hsur.
  destruct (digits64 c) as (Hc & Hq1 & _ & Hr0 & Hr1 & _).
  assert (Hq2 : c / 64 / 64 < 16).
  { rewrite N.Div0.div_div. apply N.Div0.div_lt_upper_bound; lia. }
  assert (Hnot : c < 55296 \/ 57343 < c).
  { unfold between in Hsur. apply andb_false_iff in Hsur as [H|H];
      [left; now apply N.leb_gt in H|right; now apply N.leb_gt in H]. }
  split.
  - unfold encode_cp.
    replace (c <? 128) with false by (symmetry; apply N.ltb_ge; lia).
    replace (c <? 2048) with false by (symmetry; apply N.ltb_ge; lia).
    replace (c <? 65536) with true by (symmetry; apply N.ltb_lt; lia).
    rewrite Hsur.
    rewrite shiftr_12, shiftr_6, !payload6_mod, lor_224, !lor_128 by lia.
    reflexivity.
  - intros rest.
    set (r0 := c mod 64) in *. set (q1 := c / 64) in *.
    set (r1 := q1 mod 64) in *. set (q2 := q1 / 64) in *.
    clearbody r0 q1 r1 q2. rewrite decode_3.
    + f_equal. rewrite !payload6_trail by lia.
      change 15 with (N.ones 4). rewrite N.land_ones.
      change (2 ^ 4) with 16. change 224 with (14 * 16).
      rewrite mod_of_sum by lia.
      rewrite !N.shiftl_mul_pow2.
      rewrite (@lor_high_low r1 r0 6) by (change (2 ^ 6) with 64; lia).
      rewrite lor_high_low
        by (change (2 ^ 6) with 64; change (2 ^ 12) with 4096; lia).
      change (2 ^ 6) with 64. change (2 ^ 12) with 4096. lia.
    + apply between_intro; lia.
    + unfold second_of_3.
      destruct (N.eqb_spec (224 + q2) 224) as [E|E];
        [apply between_intro; lia|].
      destruct (N.eqb_spec (224 + q2) 237) as [E'|E'];
        [apply between_intro; lia|].
      apply continuation_trail; lia.
    + apply continuation_trail; lia.
Qed.

Lemma four_octets c :
  65536 <= c -> c < 1114112 ->
  encode_cp c =
    Some [240 + c / 64 / 64 / 64; 128 + (c / 64 / 64) mod 64;
          128 + (c / 64) mod 64; 128 + c mod 64] /\
  forall rest,
    decode_octets ((240 + c / 64 / 64 / 64) :: (128 + (c / 64 / 64) mod 64) ::
                   (128 + (c / 64) mod 64) :: (128 + c mod 64) :: rest) =
      push c (decode_octets rest).
Proof.
  intros Hlo Hhi.
  destruct (digits64 c) as (Hc & Hq1 & Hq2 & Hr0 & Hr1 & Hr2).
  assert (Hq3 : c / 64 / 64 / 64 < 8).
  { rewrite !N.Div0.div_div. apply N.Div0.div_lt_upper_bound; lia. }
  split.
  - unfold encode_cp.
    replace (c <? 128) with false by (symmetry; apply N.ltb_ge; lia).
    replace (c <? 2048) with false by (symmetry; apply N.ltb_ge; lia).
    replace (c <? 65536) with false by (symmetry; apply N.ltb_ge; lia).
    replace (c <? 1114112) with true by (symmetry; apply N.ltb_lt; lia).
    rewrite shiftr_18, shiftr_12, shiftr_6, !payload6_mod, lor_240, !lor_128 by lia.
    reflexivity.
  - intros rest.
    set (r0 := c mod 64) in *. set (q1 := c / 64) in *.
    set (r1 := q1 mod 64) in *. set (q2 := q1 / 64) in *.
    set (r2 := q2 mod 64) in *. set (q3 := q2 / 64) in *.
    clearbody r0 q1 r1 q2 r2 q3. rewrite decode_4.
    + f_equal. rewrite !payload6_trail by lia.
      change 7 with (N.ones 3). rewrite N.land_ones.
      change (2 ^ 3) with 8. change 240 with (30 * 8).
      rewrite mod_of_sum by lia.
      rewrite !N.shiftl_mul_pow2.
      rewrite (@lor_high_low r1 r0 6) by (change (2 ^ 6) with 64; lia).
      rewrite (@lor_high_low r2 _ 12)
        by (change (2 ^ 6) with 64; change (2 ^ 12) with 4096; lia).
      rewrite lor_high_low
        by (change (2 ^ 6) with 64; change (2 ^ 12) with 4096;
            change (2 ^ 18) with 262144; lia).
      change (2 ^ 6) with 64. change (2 ^ 12) with 4096.
      change (2 ^ 18) with 262144. lia.
    + apply between_intro; lia.
    + unfold second_of_4.
      destruct (N.eqb_spec (240 + q3) 240) as [E|E];
        [apply between_intro; lia|].
      destruct (N.eqb_spec (240 + q3) 244) as [E'|E'];
        [apply between_intro; lia|].
      apply continuation_trail; lia.
    + apply continuation_trail; lia.
    + apply continuation_trail; lia.
Qed.

(** One code point: what the encoder writes for it is read back as it,
    and is made of octets. *)
Lemma encode_cp_reads_back c o :
  encode_cp c = Some o ->
  (forall rest, decode_octets (o ++ rest) = push c (decode_octets rest)) /\
  Forall (fun b => b <= 255) o.
Proof.
  intros He.
  destruct (N.lt_ge_cases c 128) as [H1|H1].
  { unfold encode_cp in He.
    replace (c <? 128) with true in He by (symmetry; now apply N.ltb_lt).
    assert (o = [c]) as -> by congruence. split.
    - intros rest. now apply decode_1.
    - apply Forall_cons; [lia|apply Forall_nil]. }
  destruct (N.lt_ge_cases c 2048) as [H2|H2].
  { destruct (@two_octets c H1 H2) as [Henc Hdec].
    assert (o = [192 + c / 64; 128 + c mod 64]) as -> by congruence.
    destruct (digits64 c) as (Hc & _ & _ & Hr0 & _ & _).
    assert (c / 64 < 32) by (apply N.Div0.div_lt_upper_bound; lia).
    split; [exact Hdec|]. repeat (apply Forall_cons; [lia|]). apply Forall_nil. }
  destruct (N.lt_ge_cases c 65536) as [H3|H3].
  { destruct (between 55296 57343 c) eqn:Hsur.
    - unfold encode_cp in He.
      replace (c <? 128) with false in He by (symmetry; apply N.ltb_ge; lia).
      replace (c <? 2048) with false in He by (symmetry; apply N.ltb_ge; lia).
      replace (c <? 65536) with true in He by (symmetry; apply N.ltb_lt; lia).
      rewrite Hsur in He. discriminate He.
    - destruct (@three_octets c H2 H3 Hsur) as [Henc Hdec].
      assert (o = [224 + c / 64 / 64; 128 + (c / 64) mod 64; 128 + c mod 64])
        as -> by congruence.
      destruct (digits64 c) as (Hc & Hq1 & _ & Hr0 & Hr1 & _).
      assert (c / 64 / 64 < 16).
      { rewrite N.Div0.div_div. apply N.Div0.div_lt_upper_bound; lia. }
      split; [exact Hdec|]. repeat (apply Forall_cons; [lia|]). apply Forall_nil. }
  destruct (N.lt_ge_cases c 1114112) as [H4|H4].
  { destruct (@four_octets c H3 H4) as [Henc Hdec].
    assert (o = [240 + c / 64 / 64 / 64; 128 + (c / 64 / 64) mod 64;
                 128 + (c / 64) mod 64; 128 + c mod 64]) as -> by congruence.
    destruct (digits64 c) as (Hc & Hq1 & Hq2 & Hr0 & Hr1 & Hr2).
    assert (c / 64 / 64 / 64 < 8).
    { rewrite !N.Div0.div_div. apply N.Div0.div_lt_upper_bound; lia. }
    split; [exact Hdec|]. repeat (apply Forall_cons; [lia|]). apply Forall_nil. }
  unfold encode_cp in He.
  replace (c <? 128) with false in He by (symmetry; apply N.ltb_ge; lia).
  replace (c <? 2048) with false in He by (symmetry; apply N.ltb_ge; lia).
  replace (c <? 65536) with false in He by (symmetry; apply N.ltb_ge; lia).
  replace (c <? 1114112) with false in He by (symmetry; apply N.ltb_ge; lia).
  discriminate He.
Qed.

Lemma encode_octets_reads_back s :
  forall os, encode_octets s = Some os ->
  decode_octets os = Good s /\ Forall (fun b => b <= 255) os.
Proof.
  induction s as [|c s IH]; simpl; intros os H.
  - injection H as <-. split; [reflexivity|constructor].
  - destruct (encode_cp c) as [o|] eqn:Hc; [|discriminate H].
    destruct (encode_octets s) as [os'|] eqn:Hs; [|discriminate H].
    injection H as <-.
    destruct (@encode_cp_reads_back c o Hc) as [Hdec Hb].
    destruct (IH os' eq_refl) as [Hrest Hb'].
    split.
    + now rewrite Hdec, Hrest.
    + apply Forall_app. auto.
Qed.

Lemma to_N_octet n : n <= 255 -> Byte.to_N (octet n) = n.
Proof.
  intros H. unfold octet.
  destruct (Byte.of_N n) as [b|] eqn:E.
  - now apply Byte.to_of_N.
  - pose proof (Byte.to_of_N_option_map n) as Hm. rewrite E in Hm. simpl in Hm.
    apply N.leb_le in H. rewrite H in Hm. discriminate Hm.
Qed.

Lemma octets_read_back os :
  Forall (fun b => b <= 255) os -> List.map Byte.to_N (List.map octet os) = os.
Proof.
  induction 1 as [|b os Hb _ IH]; simpl; [reflexivity|].
  now rewrite to_N_octet, IH.
Qed.

End Utf8Facts.

(** ** The decoder and [strip] against the standard *)

Module UnicodeFacts.

Import Utf8 Utf8Facts Unicode.

Local Open Scope N_scope.













Local Close Scope N_scope.






End UnicodeFacts.

(** ** What an invocation cell yields *)

Module InvocationText.

Import AutoPilot Samples InvocationProperties InvocationFailures Unicode UnicodeFacts.

Local Open Scope py_scope.



(** A response body in Latin-1, which is the UTF-8 form of no text. *)
Example latin1_body_sample :
  fst (invocation_cell PredictNegative
         (fun _ => inr (List.map Utf8.octet [48; 233]%N)) endpoint_name start) =
    Raised UnicodeDecodeError.
Proof. reflexivity. Qed.

(** A response body with a no-break space and an ideographic space around
    the prediction, each of several octets. *)
Example wide_space_body_sample :
  fst (invocation_cell PredictNegative
         (fun _ => inr (List.map Utf8.octet [194; 160; 48; 227; 128; 128; 10]%N))
         endpoint_name start) =
    Done (str "0").
Proof. reflexivity. Qed.

End InvocationText.

(** ** The payload of the test-set cell reads back *)

Module PayloadProperties.

Import AutoPilot Samples MoreSamples InvocationProperties InvocationFailures Utf8Facts.

Local Open Scope py_scope.

Lemma utf8_encode_decode s encoded :
  utf8_encode s = Done encoded -> utf8_decode encoded = Done s.
Proof.
  unfold utf8_encode, utf8_decode.
  destruct (Utf8.encode_octets s) as [os|] eqn:He; [|discriminate].
  intros [= <-].
  destruct (encode_octets_reads_back s He) as [Hdec Hb].
  now rewrite (octets_read_back Hb), Hdec.
Qed.

(** X19. Whatever text [encode('utf-8')] accepts, [decode('utf-8')] reads
    the same text back from its octets. So the body the test-set cell
    sends is a valid UTF-8 text that decodes to the payload, the CSV text
    without its trailing whitespace. *)
Theorem test_body_reads_back csv rt endpoint w :
  (forall s encoded, utf8_encode s = Done encoded -> utf8_decode encoded = Done s) /\
  (forall request,
     trace (snd (invocation_cell (PredictTest csv) rt endpoint w)) =
       trace w ++ [EvInvoke request] ->
     exists encoded,
       Body request = BodyBytes encoded /\
       utf8_decode encoded = Done (PyStr.rstrip csv)).
Proof.
  split; [apply utf8_encode_decode|].
  intros request. simpl. unfold predict_test_cell. unfold bind at 1, lift.
  destruct (utf8_encode (PyStr.rstrip csv)) as [encoded|e|] eqn:He.
  - rewrite invoke_decode_strip. simpl. intros Htrace.
    apply app_inv_head in Htrace. injection Htrace as <-.
    exists encoded. split; [reflexivity|]. now apply utf8_encode_decode.
  - simpl. intros H. now destruct (trace_not_extended w (EvInvoke request)).
  - simpl. intros H. now destruct (trace_not_extended w (EvInvoke request)).
Qed.

Lemma test_body_reads_back_witness :
  exists encoded,
    Body {| EndpointName := endpoint_name;
            ContentType := Some (str "text/csv");
            Accept := None;
            Body := BodyBytes (List.map Utf8.octet [49; 44; 195; 169; 226; 130; 172]%N) |} =
      BodyBytes encoded /\
    utf8_decode encoded = Done (PyStr.rstrip [49; 44; 233; 8364; 10]%N).
Proof.
  apply (proj2 (test_body_reads_back [49; 44; 233; 8364; 10]%N one_endpoint
                  endpoint_name start)).
  reflexivity.
Defined.

End PayloadProperties.

(** ** The XGBoost notebook run top to bottom *)

Module KernelProperties.
Import Notebooks.

Local Open Scope string_scope.
Local Open Scope list_scope.

(** X21. Run top to bottom in a fresh kernel, the XGBoost notebook stops
    with [NameError] before it starts a training job, whatever the store
    holds: in the cell that builds the S3 inputs it reads
    [balanced_tfidf_without_header_train_s3_uri], which no statement of the
    notebook binds or restores (and already at the print before it when the
    store does not hold [spark_processing_job_s3_output_prefix]). Up to
    there it has installed two packages, set up its session and clients and
    restored from the store; [xgb_estimator.fit] is not among its calls. *)
Theorem xgboost_run_stops_before_training store :
  run_all store xgboost =
    ([PipInstall; PipInstall; SessionSetup; SessionSetup; SessionSetup;
      SessionSetup; SessionSetup; StoreRestore],
     NameError (if bound store "spark_processing_job_s3_output_prefix"
                then "balanced_tfidf_without_header_train_s3_uri"
                else "spark_processing_job_s3_output_prefix")) /\
  has_call EstimatorFit (performed store xgboost) = false /\
  has_call EstimatorFit (sites xgboost) = true /\
  Forall (fun s =>
            ~ In "balanced_tfidf_without_header_train_s3_uri" (binds s ++ restores s))
         (statements xgboost).
Proof.
  assert (Hrun : run_all store xgboost =
    ([PipInstall; PipInstall; SessionSetup; SessionSetup; SessionSetup;
      SessionSetup; SessionSetup; StoreRestore],
     NameError (if bound store "spark_processing_job_s3_output_prefix"
                then "balanced_tfidf_without_header_train_s3_uri"
                else "spark_processing_job_s3_output_prefix"))).
  { unfold run_all. 
    destruct (bound store "spark_processing_job_s3_output_prefix") eqn:Hb;
      cbv -[bound]; rewrite Hb; reflexivity. }
  split; [exact Hrun|]. split; [|split].
  - unfold performed. rewrite Hrun. reflexivity.
  - reflexivity.
  - repeat constructor; simpl; intuition discriminate.
Qed.

Lemma xgboost_run_stops_before_training_witness :
  run_all ["spark_processing_job_s3_output_prefix"] xgboost =
    ([PipInstall; PipInstall; SessionSetup; SessionSetup; SessionSetup;
      SessionSetup; SessionSetup; StoreRestore],
     NameError "balanced_tfidf_without_header_train_s3_uri").
Proof.
  exact (proj1 (xgboost_run_stops_before_training
                  ["spark_processing_job_s3_output_prefix"])).
Defined.

End KernelProperties.
